(** * ClipCap prefix-captioning scripts: a shallow embedding

    The development follows the Python sources (train_IC.py,
    train_MTL_IC_VQA.py, trainy_notes_VQA.py and the multi-GPU copies).

    Conventions of the embedding
    - Python [int] is [Z]; list indices handed out by a dataloader are [nat].
    - A 1-D integer tensor is a [list Z]; a 0/1 float mask is a [list Z]
      whose entries are 0 or 1.
    - Losses and corpus statistics, floats in the source, are real
      numbers [R]. The token choice of the decoder is modelled twice: on
      float32 values with IEEE 754 rounding (module [F32]), where the
      choice itself is studied, and on real numbers (module [Greedy]),
      inside the decoding loop, whose bookkeeping does not depend on which
      token is chosen.
    - A Python exception is [None] (or an [inl] carrying the error). *)

From Stdlib Require Import String Ascii ZArith List Bool Lia Arith.
From Stdlib Require Import Reals Lra.
From Stdlib Require Floats.SpecFloat.
Import ListNotations.

Set Implicit Arguments.

(** ** Python and torch helpers *)

Module Py.

  (** [n * [x]] on Python lists: a non-positive count gives the empty list. *)
Definition list_mul {A} (n : Z) (x : A) : list A := repeat x (Z.to_nat n).

  (** [l[:k]]: a negative bound counts from the end. *)
Definition slice_to {A} (l : list A) (k : Z) : list A :=
    if (0 <=? k)%Z then firstn (Z.to_nat k) l
    else firstn (Z.to_nat (Z.of_nat (length l) + k)) l.

  (** [l[k:]] for a non-negative bound. *)
Definition slice_from {A} (l : list A) (k : nat) : list A := skipn k l.

  (** [l[i] = x] for an index already known to be in range. *)
Fixpoint set_item {A} (l : list A) (i : nat) (x : A) : list A :=
    match l, i with
    | [], _ => []
    | _ :: t, O => x :: t
    | h :: t, S j => h :: set_item t j x
    end.

  (** [int(x)] on a float: truncation towards zero. *)
Definition int (x : R) : Z :=
    if Rle_dec 0 x then Zfloor x else Zceil x.

Definition len {A} (l : list A) : Z := Z.of_nat (length l).

End Py.

Module Torch.

  (** [torch.device('cuda' if torch.cuda.is_available() else 'cpu')]: the
      device the scripts move the model and the batches to. A tensor
      created without [device=] is on the CPU, and an operation on tensors
      of different devices raises. *)
Inductive device := cpu | cuda.

  (** [torch.ones(n)]: a negative size raises. *)
Definition ones (n : Z) : option (list Z) :=
    if (n <? 0)%Z then None else Some (repeat 1%Z (Z.to_nat n)).

  (** [torch.zeros(n, dtype=int64) - 1] for [n > 0]. *)
Definition minus_ones (n : Z) : list Z := repeat (-1)%Z (Z.to_nat n).

  (** [t.ge(0)] followed by [.float()]. *)
Definition ge0 (t : list Z) : list bool := map (fun x => (0 <=? x)%Z) t.

Definition float_of_bool (b : bool) : Z := if b then 1%Z else 0%Z.

  (** [t[~mask] = 0], the in-place write through a boolean index. *)
Definition zero_where_not (t : list Z) : list Z :=
    map (fun x => if (0 <=? x)%Z then x else 0%Z) t.

  (** Statistics of a 1-D float tensor. *)
Definition sum (l : list R) : R := fold_right Rplus 0%R l.

Definition mean (l : list R) : R := (sum l / INR (length l))%R.

  (** [Tensor.std()] is the unbiased estimator (Bessel's correction). *)
Definition std (l : list R) : R :=
    sqrt (sum (map (fun x => ((x - mean l) * (x - mean l))%R) l)
          / (INR (length l) - 1))%R.

(** [Tensor.max()] of a non-empty tensor. *)
Definition max (l : list R) : R :=
    match l with
    | [] => 0%R
    | x :: t => fold_right Rmax x t
    end.

End Torch.

(** The pad-or-truncate step shared by every [pad_tokens]. *)
Definition pad_or_truncate (max_seq_len : Z) (tokens : list Z) : list Z :=
  let padding := (max_seq_len - Py.len tokens)%Z in
  if (padding >? 0)%Z then tokens ++ Torch.minus_ones padding
  else if (padding <? 0)%Z then Py.slice_to tokens max_seq_len
  else tokens.

(** ** The captioning dataset (train_IC.py, [ClipCocoDataset]) *)

Module IC.

Record ClipCocoDataset := mkDataset {
    prefix_length : Z;
    max_seq_len : Z;
    captions_tokens : list (list Z)
  }.

  (** [pad_tokens] returns [(tokens, mask)] and stores the padded tokens
      back in [captions_tokens[item]]; the stored tensor is the returned
      one, so the zeroing of the sentinel is visible in the store too. *)
Definition pad_tokens (self : ClipCocoDataset) (item : nat)
    : option (ClipCocoDataset * (list Z * list Z)) :=
    match nth_error (captions_tokens self) item with
    | None => None
    | Some tokens =>
        let tokens := pad_or_truncate (max_seq_len self) tokens in
        let mask := Torch.ge0 tokens in
        let tokens := Torch.zero_where_not tokens in
        let mask := map Torch.float_of_bool mask in
        match Torch.ones (prefix_length self) with
        | None => None
        | Some pre =>
            Some (mkDataset (prefix_length self) (max_seq_len self)
                    (Py.set_item (captions_tokens self) item tokens),
                  (tokens, pre ++ mask))
        end
    end.

Section Init.
    (** The GPT-2 tokenizer is an opaque codec. *)
Variable encode : string -> list Z.

Definition all_len (toks : list (list Z)) : list R :=
      map (fun t => IZR (Py.len t)) toks.

    (** [__init__]: [std] of fewer than two lengths is NaN and [int(nan)]
        raises, so such a corpus builds no dataset. *)
Definition init (captions : list string) (prefix_length : Z)
      : option ClipCocoDataset :=
      let toks := map encode captions in
      if (length toks <? 2)%nat then None
      else
        let al := all_len toks in
        Some (mkDataset prefix_length
                (Z.min (Py.int (Torch.mean al + Torch.std al * 10)%R)
                       (Py.int (Torch.max al)))
                toks).
End Init.


End IC.

(** ** The question-answering dataset (train_MTL_IC_VQA.py,
       [ClipCocoDataset_VQA]) *)

Module VQA.

Section WithTokenizer.
Variable encode : string -> list Z.

Record ClipCocoDataset_VQA := mkDataset {
      prefix_length : Z;
      max_seq_len : Z;
      captions_tokens : list (list Z);
      answers : list string;
      questions : list string
    }.

Definition q_range (temp_q : string) : Z := Py.len (encode temp_q).
Definition a_range (temp_ans : string) : Z := (Py.len (encode temp_ans) + 1)%Z.

    (** The two hand-built masks over the text region. *)
Definition need_pred (msl q a : Z) : list Z :=
      let rest_range := (msl - q - a)%Z in
      if (rest_range >=? 0)%Z
      then Py.list_mul q 0%Z ++ Py.list_mul a 1%Z ++ Py.list_mul rest_range 0%Z
      else Py.list_mul msl 0%Z.

Definition need_pred_4gpt (msl q a : Z) : list Z :=
      let rest_range := (msl - q - a)%Z in
      if (rest_range >=? 0)%Z
      then Py.list_mul q 1%Z ++ Py.list_mul a 1%Z ++ Py.list_mul rest_range 0%Z
      else Py.list_mul msl 0%Z.

    (** [pad_tokens] returns [(tokens, mask, mask4gpt)]. *)
Definition pad_tokens (self : ClipCocoDataset_VQA) (item : nat)
      : option (ClipCocoDataset_VQA * (list Z * list Z * list Z)) :=
      match nth_error (captions_tokens self) item,
            nth_error (answers self) item,
            nth_error (questions self) item with
      | Some tokens, Some temp_ans, Some temp_q =>
          let q := q_range temp_q in
          let a := a_range temp_ans in
          let mask := need_pred (max_seq_len self) q a in
          let mask4gpt := need_pred_4gpt (max_seq_len self) q a in
          let tokens := Torch.zero_where_not (pad_or_truncate (max_seq_len self) tokens) in
          match Torch.ones (prefix_length self) with
          | None => None
          | Some pre =>
              Some (mkDataset (prefix_length self) (max_seq_len self)
                      (Py.set_item (captions_tokens self) item tokens)
                      (answers self) (questions self),
                    (tokens, pre ++ mask, pre ++ mask4gpt))
          end
      | _, _, _ => None
      end.

    (** trainy_notes_VQA.py has the same builder with one mask only and
        the answer counted without the end-of-sequence marker; it returns
        [(tokens, mask, tokenized_answer)]. *)
Definition a_range_notes (temp_ans : string) : Z := Py.len (encode temp_ans).

Definition pad_tokens_notes (self : ClipCocoDataset_VQA) (item : nat)
      : option (ClipCocoDataset_VQA * (list Z * list Z * list Z)) :=
      match nth_error (captions_tokens self) item,
            nth_error (answers self) item,
            nth_error (questions self) item with
      | Some tokens, Some temp_ans, Some temp_q =>
          let q := q_range temp_q in
          let a := a_range_notes temp_ans in
          let mask := need_pred (max_seq_len self) q a in
          let tokens := Torch.zero_where_not (pad_or_truncate (max_seq_len self) tokens) in
          match Torch.ones (prefix_length self) with
          | None => None
          | Some pre =>
              Some (mkDataset (prefix_length self) (max_seq_len self)
                      (Py.set_item (captions_tokens self) item tokens)
                      (answers self) (questions self),
                    (tokens, pre ++ mask, encode temp_ans))
          end
      | _, _, _ => None
      end.

End WithTokenizer.

End VQA.

(** ** Exceptions *)

Inductive exn :=
| ZeroDivisionError | RuntimeError | ValueError | IndexError
| AttributeError | UnboundLocalError.

Inductive result (A : Type) : Type :=
| Ok (a : A)
| Raise (e : exn).

Arguments Ok {A} a.
Arguments Raise {A} e.

Definition bind {A B} (r : result A) (k : A -> result B) : result B :=
  match r with
  | Ok a => k a
  | Raise e => Raise e
  end.

Notation "x <- r ;; k" := (bind r (fun x => k))
  (at level 61, r at next level, right associativity).

(** ** Tensor shapes

    The mapper is embedded at the level of tensor shapes: a tensor is
    the list of its dimensions, and every torch operation is the partial
    function it induces on shapes. *)

Module Shape.

Definition shape := list Z.

Definition numel (s : shape) : Z := fold_right Z.mul 1%Z s.

(** [t.reshape(target)] and [t.view(target)]: at most one [-1], which is
    inferred; the element count has to be preserved. *)
Definition reshape (s : shape) (target : list Z) : result shape :=
  if existsb (fun d => (d <? -1)%Z) target then Raise RuntimeError
  else
    match count_occ Z.eq_dec target (-1)%Z with
    | O => if (numel target =? numel s)%Z then Ok target else Raise RuntimeError
    | S O =>
        let p := numel (remove Z.eq_dec (-1)%Z target) in
        if (p =? 0)%Z then Raise RuntimeError
        else if (numel s mod p =? 0)%Z
             then Ok (map (fun d => if (d =? -1)%Z then (numel s / p)%Z else d) target)
             else Raise RuntimeError
    | _ => Raise RuntimeError
    end.

(** Applying [nn.Linear(in_f, out_f)]: the last dimension must be [in_f]. *)
Definition linear (in_f out_f : Z) (s : shape) : result shape :=
  match rev s with
  | [] => Raise RuntimeError
  | last :: _ => if (last =? in_f)%Z then Ok (removelast s ++ [out_f])
                 else Raise RuntimeError
  end.

(** Applying [nn.LayerNorm(dim)]. *)
Definition layer_norm (dim : Z) (s : shape) : result shape :=
  match rev s with
  | [] => Raise RuntimeError
  | last :: _ => if (last =? dim)%Z then Ok s else Raise RuntimeError
  end.

(** Broadcasting of two shapes, aligned on the right. *)
Fixpoint broadcast_rev (a b : list Z) : result (list Z) :=
  match a, b with
  | [], l => Ok l
  | l, [] => Ok l
  | x :: a', y :: b' =>
      r <- broadcast_rev a' b' ;;
      if (x =? y)%Z then Ok (x :: r)
      else if (x =? 1)%Z then Ok (y :: r)
      else if (y =? 1)%Z then Ok (x :: r)
      else Raise RuntimeError
  end.

(** The shape of [a + b]. *)
Definition add (a b : shape) : result shape :=
  r <- broadcast_rev (rev a) (rev b) ;; Ok (rev r).

(** [torch.cat((a, b), dim=1)] on 3-D tensors. *)
Definition cat1 (a b : shape) : result shape :=
  match a, b with
  | [b1; n1; e1], [b2; n2; e2] =>
      if ((b1 =? b2) && (e1 =? e2))%Z then Ok [b1; (n1 + n2)%Z; e1]
      else Raise RuntimeError
  | _, _ => Raise RuntimeError
  end.

(** [t[:, k:]] for a non-negative [k]. *)
Definition slice_from1 (s : shape) (k : Z) : result shape :=
  match s with
  | b :: n :: rest => Ok (b :: Z.max 0 (n - Z.min k n) :: rest)
  | _ => Raise IndexError
  end.

End Shape.

(** ** MultiHeadAttention (train_IC.py) *)

Module Attention.

Record MultiHeadAttention := mkMHA {
  num_heads : Z;
  dim_self : Z;
  dim_ref : Z
}.

(** [__init__]: [dim_self // num_heads] raises for [num_heads = 0];
    [head_dim ** -0.5] raises for [head_dim = 0]; [nn.Linear] raises on a
    negative width. Nothing compares [dim_self] with a multiple of
    [num_heads]. *)
Definition init (dim_self dim_ref num_heads : Z) : result MultiHeadAttention :=
  if (num_heads =? 0)%Z then Raise ZeroDivisionError
  else
    let head_dim := (dim_self / num_heads)%Z in
    if (head_dim =? 0)%Z then Raise ZeroDivisionError
    else if ((dim_self <? 0) || (dim_ref <? 0))%Z then Raise RuntimeError
    else Ok (mkMHA num_heads dim_self dim_ref).

(** [forward] on shapes; the result is the pair (out, attention). *)
Definition forward (self : MultiHeadAttention) (x : Shape.shape)
  (y : option Shape.shape) : result (Shape.shape * Shape.shape) :=
  let y := match y with Some y => y | None => x end in
  match x, y with
  | [b; n; c], [_; m; d] =>
      if (num_heads self =? 0)%Z then Raise ZeroDivisionError
      else
        let h := num_heads self in
        q0 <- Shape.linear (dim_self self) (dim_self self) x ;;
        queries <- Shape.reshape q0 [b; n; h; (c / h)%Z] ;;
        kv0 <- Shape.linear (dim_ref self) (dim_self self * 2)%Z y ;;
        keys_values <- Shape.reshape kv0 [b; m; 2%Z; h; (c / h)%Z] ;;
        let attention := [b; n; m; h] in
        out <- Shape.reshape [b; n; h; (c / h)%Z] [b; n; c] ;;
        out <- Shape.linear (dim_self self) (dim_self self) out ;;
        Ok (out, attention)
  | _, _ => Raise ValueError
  end.

(** *** The masking step of [forward], on values *)

(** A pre-softmax score: a finite float or minus infinity. *)
Inductive score :=
| Fin (r : R)
| NegInf.

Fixpoint mapi_from {A B} (i : nat) (f : nat -> A -> B) (l : list A) : list B :=
  match l with
  | [] => []
  | x :: t => f i x :: mapi_from (S i) f t
  end.

Definition mapi {A B} (f : nat -> A -> B) (l : list A) : list B := mapi_from 0 f l.

(** Reading a broadcast dimension: a dimension of size one is repeated. *)
Definition bnth {A} (d : A) (l : list A) (i : nat) : A :=
  match l with
  | [x] => x
  | _ => nth i l d
  end.

(** A dimension of the mask fits if it has size one or the size of the
    dimension it is broadcast to. *)
Definition fits {A B} (mask : list A) (t : list B) : bool :=
  ((length mask =? 1) || (length mask =? length t))%nat.

(** The boolean mask after the [unsqueeze] calls, always 4-D. *)
Definition mask4 := list (list (list (list bool))).

Definition unsqueeze1 (m : list (list bool)) : list (list (list bool)) :=
  map (fun row => [row]) m.

Definition unsqueeze3 (m : list (list (list bool))) : mask4 :=
  map (map (map (fun x => [x]))) m.

Definition tensor4 := list (list (list (list score))).

Definition broadcastable (mask : mask4) (t : tensor4) : bool :=
  fits mask t &&
  forallb (fun '(i, t3) =>
    let m3 := bnth [] mask i in
    fits m3 t3 &&
    forallb (fun '(q, t2) =>
      let m2 := bnth [] m3 q in
      fits m2 t2 &&
      forallb (fun '(k, t1) => fits (bnth [] m2 k) t1)
              (combine (seq 0 (length t2)) t2))
      (combine (seq 0 (length t3)) t3))
    (combine (seq 0 (length t)) t).

(** [t.masked_fill(mask, value)]: [value] is written where the mask is
    [True]; every other entry is kept. *)
Definition masked_fill (t : tensor4) (mask : mask4) (value : score)
  : result tensor4 :=
  if broadcastable mask t then
    Ok (mapi (fun i t3 =>
          mapi (fun q t2 =>
            mapi (fun k t1 =>
              mapi (fun hd s =>
                if bnth false (bnth [] (bnth [] (bnth [] mask i) q) k) hd
                then value else s) t1) t2) t3) t)
  else Raise RuntimeError.

Inductive attn_mask :=
| Mask2 (m : list (list bool))
| Mask3 (m : list (list (list bool))).

(** Lines 144-147 of [forward]. *)
Definition apply_mask (attention : tensor4) (mask : option attn_mask)
  : result tensor4 :=
  match mask with
  | None => Ok attention
  | Some (Mask2 m) => masked_fill attention (unsqueeze3 (unsqueeze1 m)) NegInf
  | Some (Mask3 m) => masked_fill attention (unsqueeze3 m) NegInf
  end.

Definition get4 (t : tensor4) (i q k hd : nat) : option score :=
  match nth_error t i with
  | Some t3 =>
      match nth_error t3 q with
      | Some t2 =>
          match nth_error t2 k with
          | Some t1 => nth_error t1 hd
          | None => None
          end
      | None => None
      end
  | None => None
  end.

End Attention.

(** ** The prefix mappers (train_IC.py), on shapes *)

Module Mapper.

Import Shape.

(** *** MLP *)

(** [MLP.forward]: [nn.Sequential] of [Linear(sizes[i], sizes[i+1])],
    with a [Tanh] (shape preserving) between them. *)
Fixpoint MLP_forward (sizes : list Z) (x : shape) : result shape :=
  match sizes with
  | a :: (b :: _) as rest => x' <- linear a b x ;; MLP_forward rest x'
  | _ => Ok x
  end.

(** *** TransformerLayer *)

Record TransformerLayer := mkLayer {
  attn : Attention.MultiHeadAttention;
  norm_dim : Z;
  h_dim : Z
}.

(** [mlp_ratio] is left at the [Transformer] default 2.0, so the hidden
    width [int(dim_self * mlp_ratio)] is [2 * dim_self]. *)
Definition TransformerLayer_init (dim_self dim_ref num_heads : Z)
  : result TransformerLayer :=
  a <- Attention.init dim_self dim_ref num_heads ;;
  Ok (mkLayer a dim_self (2 * dim_self)%Z).

Definition MlpTransformer_forward (in_dim h_dim : Z) (x : shape) : result shape :=
  x <- linear in_dim h_dim x ;;
  linear h_dim in_dim x.

Definition TransformerLayer_forward (self : TransformerLayer) (x : shape)
  (y : option shape) : result shape :=
  n1 <- layer_norm (norm_dim self) x ;;
  a <- Attention.forward (attn self) n1 y ;;
  x <- add x (fst a) ;;
  n2 <- layer_norm (norm_dim self) x ;;
  f <- MlpTransformer_forward (norm_dim self) (h_dim self) n2 ;;
  add x f.

(** *** Transformer *)

Record Transformer := mkTransformer {
  enc_dec : bool;
  layers : list TransformerLayer
}.

Fixpoint build_layers (dim_self dim_ref num_heads : Z) (enc_dec : bool)
  (i n : nat) : result (list TransformerLayer) :=
  match n with
  | O => Ok []
  | S n' =>
      l <- (if (Nat.even i && enc_dec)%bool
            then TransformerLayer_init dim_self dim_ref num_heads
            else if enc_dec
                 then TransformerLayer_init dim_self dim_self num_heads
                 else TransformerLayer_init dim_self dim_ref num_heads) ;;
      ls <- build_layers dim_self dim_ref num_heads enc_dec (S i) n' ;;
      Ok (l :: ls)
  end.

Definition Transformer_init (dim_self num_heads : Z) (num_layers : nat)
  (dim_ref : option Z) (enc_dec : bool) : result Transformer :=
  let dim_ref := match dim_ref with Some d => d | None => dim_self end in
  let num_layers := if enc_dec then (num_layers * 2)%nat else num_layers in
  ls <- build_layers dim_self dim_ref num_heads enc_dec 0 num_layers ;;
  Ok (mkTransformer enc_dec ls).

(** [Transformer.forward] with [mask=None], the only way it is called. *)
Fixpoint run_layers (enc_dec : bool) (i : nat) (ls : list TransformerLayer)
  (x : shape) (y : option shape) : result shape :=
  match ls with
  | [] => Ok x
  | layer :: rest =>
      x' <- (if (Nat.even i && enc_dec)%bool
             then TransformerLayer_forward layer x y
             else if enc_dec
                  then TransformerLayer_forward layer x (Some x)
                  else TransformerLayer_forward layer x y) ;;
      run_layers enc_dec (S i) rest x' y
  end.

Definition Transformer_forward (self : Transformer) (x : shape)
  (y : option shape) : result shape :=
  run_layers (enc_dec self) 0 (layers self) x y.

(** *** TransformerMapper *)

Record TransformerMapper := mkMapper {
  clip_length : Z;
  transformer : Transformer;
  linear_in : Z;
  linear_out : Z;
  prefix_const : shape
}.

Definition TransformerMapper_init (dim_clip dim_embedding prefix_length
  clip_length : Z) (num_layers : nat) : result TransformerMapper :=
  t <- Transformer_init dim_embedding 8 num_layers None false ;;
  if ((dim_clip <? 0) || (clip_length * dim_embedding <? 0)
      || (prefix_length <? 0) || (dim_embedding <? 0))%Z
  then Raise RuntimeError
  else Ok (mkMapper clip_length t dim_clip (clip_length * dim_embedding)%Z
             [prefix_length; dim_embedding]).

Definition TransformerMapper_forward (self : TransformerMapper) (x : shape)
  : result shape :=
  match x with
  | [] => Raise IndexError
  | b :: _ =>
      x <- linear (linear_in self) (linear_out self) x ;;
      x <- reshape x [b; clip_length self; (-1)%Z] ;;
      match x with
      | [] => Raise IndexError
      | b' :: _ =>
          let prefix := b' :: prefix_const self in
          prefix <- cat1 x prefix ;;
          out <- Transformer_forward (transformer self) prefix None ;;
          slice_from1 out (clip_length self)
      end
  end.

(** *** ClipCaptionModel *)

Inductive MappingType := MLP | TransformerT.

Inductive clip_project_t :=
| ProjMLP (sizes : list Z)
| ProjTransformer (m : TransformerMapper).

Record ClipCaptionModel := mkModel {
  prefix_length : Z;
  gpt_embedding_size : Z;
  clip_project : clip_project_t
}.

(** [__init__]; [gpt_embedding_size] is read off the pretrained
    language model and is a parameter here. *)
Definition ClipCaptionModel_init (gpt_embedding_size prefix_length clip_length
  prefix_size : Z) (num_layers : nat) (mapping_type : MappingType)
  : result ClipCaptionModel :=
  match mapping_type with
  | MLP =>
      if ((prefix_size <? 0) || (gpt_embedding_size * prefix_length <? 0))%Z
      then Raise RuntimeError
      else Ok (mkModel prefix_length gpt_embedding_size
                 (ProjMLP [prefix_size;
                           (gpt_embedding_size * prefix_length / 2)%Z;
                           (gpt_embedding_size * prefix_length)%Z]))
  | TransformerT =>
      m <- TransformerMapper_init prefix_size gpt_embedding_size prefix_length
             clip_length num_layers ;;
      Ok (mkModel prefix_length gpt_embedding_size (ProjTransformer m))
  end.

(** [self.clip_project(prefix)]. *)
Definition clip_project_forward (p : clip_project_t) (prefix : shape)
  : result shape :=
  match p with
  | ProjMLP sizes => MLP_forward sizes prefix
  | ProjTransformer m => TransformerMapper_forward m prefix
  end.

(** [prefix_projections] in [ClipCaptionModel.forward]. *)
Definition prefix_projections (self : ClipCaptionModel) (prefix : shape)
  : result shape :=
  p <- clip_project_forward (clip_project self) prefix ;;
  reshape p [(-1)%Z; prefix_length self; gpt_embedding_size self].

End Mapper.

(** ** Modules, parameters and the training flag (torch.nn.Module) *)

Module NN.

(** A module owns some parameters (named by numbers), a training flag and
    sub-modules. *)
#[local] Set Warnings "-register-all".
Inductive NNModule := Mk (training : bool) (own : list nat) (children : list NNModule).

(** [Module.train(mode)] sets the flag of the module and of every
    descendant. *)
Fixpoint train (mode : bool) (m : NNModule) : NNModule :=
  match m with
  | Mk _ own children => Mk mode own (map (train mode) children)
  end.

Definition eval (m : NNModule) : NNModule := train false m.

Fixpoint all_params (m : NNModule) : list nat :=
  match m with
  | Mk _ own children => own ++ flat_map all_params children
  end.

(** Every entry once, at the place of its first occurrence. *)
Definition first_occurrences (l : list nat) : list nat :=
  rev (nodup Nat.eq_dec (rev l)).

(** [Module.parameters()]: every parameter once, a shared one where it is
    met first. *)
Definition parameters (m : NNModule) : list nat := first_occurrences (all_params m).

(** Every module of the tree has [training = False]. *)
Fixpoint in_eval_mode (m : NNModule) : bool :=
  match m with
  | Mk training _ children => negb training && forallb in_eval_mode children
  end.

Record ClipCaptionModel := mkModel {
  training : bool;
  gpt : NNModule;
  clip_project : NNModule
}.

(** The inherited [nn.Module.train]: the children are [gpt] and
    [clip_project]. *)
Definition ClipCaptionModel_train (mode : bool) (self : ClipCaptionModel)
  : ClipCaptionModel :=
  mkModel mode (train mode (gpt self)) (train mode (clip_project self)).

(** The inherited [nn.Module.parameters]. *)
Definition ClipCaptionModel_parameters (self : ClipCaptionModel) : list nat :=
  first_occurrences (all_params (gpt self) ++ all_params (clip_project self)).

(** [ClipCaptionPrefix] overrides both. *)
Definition ClipCaptionPrefix_parameters (self : ClipCaptionModel) : list nat :=
  parameters (clip_project self).

Definition ClipCaptionPrefix_train (mode : bool) (self : ClipCaptionModel)
  : ClipCaptionModel :=
  let self := ClipCaptionModel_train mode self in
  mkModel (training self) (eval (gpt self)) (clip_project self).

End NN.

(** ** Greedy token choice (generate_topk, lines 457-459) *)

Module Greedy.

(** [logits / (temperature if temperature > 0 else 1.0)]. *)
Definition scale (temperature : R) (logits : list R) : list R :=
  map (fun x => (x / (if Rlt_dec 0 temperature then temperature else 1))%R) logits.

Definition softmax (logits : list R) : list R :=
  map (fun x => (exp x / Torch.sum (map exp logits))%R) logits.

Definition log (l : list R) : list R := map ln l.

(** Index of the first greatest entry, scanning from position [i]. *)
Fixpoint argmax_from (best_i : nat) (best : R) (i : nat) (l : list R) : nat :=
  match l with
  | [] => best_i
  | x :: t =>
      if Rlt_dec best x then argmax_from i x (S i) t
      else argmax_from best_i best (S i) t
  end.

(** [row.topk(1)]: the index of a greatest entry; an empty row raises. *)
Definition topk1 (row : list R) : option nat :=
  match row with
  | [] => None
  | x :: t => Some (argmax_from 0 x 1 t)
  end.

(** The token chosen at one decoding step from the last-position logits. *)
Definition next_token (temperature : R) (logits : list R) : option nat :=
  topk1 (log (softmax (scale temperature logits))).

End Greedy.

(** ** The token choice on float32 tensors (generate_topk, lines 457-459)

    [outputs.logits] is a float32 tensor and [temperature] a Python float.
    The division is IEEE 754 division, rounded to nearest; [softmax],
    [log] and [topk] are kernels of torch, which this development does not
    look into. *)

Module F32.

(** A float is a zero, an infinity, NaN or [m * 2^e]; binary32 has 24
    bits of precision and exponents below 128. *)
Definition float := SpecFloat.spec_float.
Definition prec : Z := 24.
Definition emax : Z := 128.

Definition lt (x y : float) : bool := SpecFloat.SFltb x y.

(** The literals [0] and [1.0] as Python floats (binary64). *)
Definition zero : float := SpecFloat.S754_zero false.
Definition one : float := SpecFloat.S754_finite false 4503599627370496 (-52).

(** A Python float cast to the dtype of the tensor. *)
Definition of_python_float (x : float) : float :=
  match x with
  | SpecFloat.S754_finite s m e => SpecFloat.binary_round prec emax s m e
  | _ => x
  end.

(** [logits / (temperature if temperature > 0 else 1.0)]. *)
Definition scale (temperature : float) (logits : list float) : list float :=
  let t := if lt zero temperature then temperature else one in
  map (fun x => SpecFloat.SFdiv prec emax x (of_python_float t)) logits.

Section Kernels.

(** [row.softmax(-1).log()] and the index returned by [row.topk(1, -1)]
    (an empty row raises). *)
Variable softmax_log : list float -> list float.
Variable topk1 : list float -> option nat.

(** The token chosen at one decoding step from the last-position logits. *)
Definition next_token (temperature : float) (logits : list float) : option nat :=
  topk1 (softmax_log (scale temperature logits)).

End Kernels.

End F32.

(** ** The batched greedy decoder (train_IC.py [generate_topk],
       multi_gpu_visdial_vqa.py [generate_per_batch]) *)

Module Decoder.

Fixpoint zip_with {A B C} (f : A -> B -> C) (l1 : list A) (l2 : list B) : list C :=
  match l1, l2 with
  | a :: t1, b :: t2 => f a b :: zip_with f t1 t2
  | _, _ => []
  end.

Fixpoint traverse {A B} (f : A -> option B) (l : list A) : option (list B) :=
  match l with
  | [] => Some []
  | a :: t =>
      match f a, traverse f t with
      | Some b, Some bs => Some (b :: bs)
      | _, _ => None
      end
  end.

Section Decoding.

(** The callers pass [embed] and leave [tokens] and [prompt] at [None];
    the language model and the tokenizer are opaque. [lm_logits g s] is
    the last-position logits row of sequence [s] once the embeddings of
    the token columns [g] have been appended to [embed]. *)
Variable batch_size : nat.
Variable stop_token_index : Z.
Variable eos_token_index : Z.
Variable temperature : R.
Variable lm_logits : list (list Z) -> nat -> list R.
Variable decode : list Z -> string.

Record state := mkState {
  generated : list (list Z);
  tokens : option (list (list Z));
  seq_lengths : list Z;
  is_stopped : list bool
}.

(** The values of the locals before the loops. *)
Definition initial : state :=
  mkState [] None (repeat 1%Z batch_size) (repeat false batch_size).

Definition is_stop (t : Z) : bool :=
  ((t =? stop_token_index) || (t =? eos_token_index))%Z.

(** [logits.topk(1, -1)] of the whole batch, as token ids. *)
Definition next_tokens (g : list (list Z)) : option (list Z) :=
  traverse (fun s => option_map Z.of_nat
                       (Greedy.next_token temperature (lm_logits g s)))
           (seq 0 batch_size).

(** One iteration of the inner loop, up to the [break] test. *)
Definition body (st : state) : option state :=
  match next_tokens (generated st) with
  | None => None
  | Some nt =>
      Some (mkState
              (generated st ++ [nt])
              (match tokens st with
               | None => Some (map (fun t => [t]) nt)
               | Some rows => Some (zip_with (fun row t => row ++ [t]) rows nt)
               end)
              (zip_with (fun l s => if s : bool then l else (l + 1)%Z)
                        (seq_lengths st) (is_stopped st))
              (zip_with (fun s t => s || is_stop t) (is_stopped st) nt))
  end.

(** [for i in range(n)] with its [break]. *)
Fixpoint loop (n : nat) (st : state) : option state :=
  match n with
  | O => Some st
  | S n' =>
      match body st with
      | None => None
      | Some st' =>
          if forallb (fun b => b) (is_stopped st') then Some st' else loop n' st'
      end
  end.

(** The token ids handed to [tokenizer.decode], one list per sequence:
    [output[: int(length)]]. *)
Definition output_ids (st : state) : option (list (list Z)) :=
  match tokens st with
  | None => None
  | Some rows =>
      Some (zip_with (fun output length => Py.slice_to output length)
                     rows (seq_lengths st))
  end.

(** One pass of the outer [for entry_idx in range(entry_count)] loop:
    [generated] restarts from [embed], everything else is carried. *)
Definition entry (entry_length : nat) (st : state)
  : option (state * list (list Z)) :=
  match loop entry_length
          (mkState [] (tokens st) (seq_lengths st) (is_stopped st)) with
  | None => None
  | Some st' =>
      match output_ids st' with
      | None => None
      | Some ids => Some (st', ids)
      end
  end.

Fixpoint entries (entry_count entry_length : nat) (st : state)
  (last : option (list (list Z))) : option (list (list Z)) :=
  match entry_count with
  | O => last
  | S k =>
      match entry entry_length st with
      | None => None
      | Some (st', ids) => entries k entry_length st' (Some ids)
      end
  end.

(** [generate_topk], up to the decoding of ids into text: [None] is an
    exception. *)
Definition generate_topk_ids (entry_count entry_length : nat)
  : option (list (list Z)) :=
  entries entry_count entry_length initial None.

Definition generate_topk (entry_count entry_length : nat) : option (list string) :=
  option_map (map decode) (generate_topk_ids entry_count entry_length).

(** The state in which the inner loop capped at [k] leaves the locals. *)
Definition after (k : nat) : option state := loop k initial.

(** The state after [k] runs of the loop body, the [break] test left
    out: a yardstick for [loop]. *)
Fixpoint iterate (k : nat) : option state :=
  match k with
  | O => Some initial
  | S k' =>
      match iterate k' with
      | None => None
      | Some st => body st
      end
  end.

(** The tokens chosen so far for sequence [s]. *)
Definition row (st : state) (s : nat) : list Z :=
  match tokens st with
  | None => []
  | Some rows => nth s rows []
  end.

Definition all_stopped (st : state) : bool :=
  forallb (fun b => b) (is_stopped st).

End Decoding.

(** [generate_per_batch] (multi_gpu_visdial_vqa.py) has the inner loop
    only, capped by [max_length = 67], at [temperature = 1.0]. At every
    step the mask handed to GPT-2 is extended by a [torch.ones] created on
    the CPU (line 420), while the embeddings are on [device]: with CUDA
    the first step raises, either in GPT-2 (a mask on the CPU) or in that
    [torch.cat] (a mask on the GPU). *)
Definition max_length : nat := 67.

Definition generate_per_batch_ids (device : Torch.device) (batch_size : nat)
  (stop_token_index eos_token_index : Z)
  (lm_logits : list (list Z) -> nat -> list R) : option (list (list Z)) :=
  match device with
  | Torch.cuda => None
  | Torch.cpu =>
      match loop batch_size stop_token_index eos_token_index 1%R lm_logits
                 max_length (initial batch_size) with
      | None => None
      | Some st => output_ids st
      end
  end.

End Decoder.

(** ** The multi-task training loop (train_MTL_IC_VQA.py, [main]) *)

Module MTL.

Section Training.

(** The model with its optimizer is an opaque state; a paired step
    computes both losses on it and then updates it. *)
Variable Model : Type.
Variable BatchIC : Type.
Variable BatchVQA : Type.
Variable loss_ic : Model -> BatchIC -> R.
Variable loss_vqa : Model -> BatchVQA -> R.
Variable optimizer_step : Model -> BatchIC -> BatchVQA -> Model.
Variable batch_dim_ic : BatchIC -> Z.
Variable batch_dim_vqa : BatchVQA -> Z.

Record state := mkState {
  model : Model;
  scheduler_steps : nat;
  train_loss_ic : R;
  train_loss_vqa : R;
  counter_batch_ic : Z;
  counter_batch_vqa : Z;
  avg_train_loss_ic : list R;
  avg_train_loss_vqa : list R
}.

(** The locals of [main] before the epoch loop. *)
Definition initial (m : Model) : state :=
  mkState m 0 0%R 0%R 0%Z 0%Z [] [].

(** The body of the [while True] loop after both [next] calls returned. *)
Definition paired_step (st : state) (batch_ic : BatchIC) (batch_vqa : BatchVQA)
  : state :=
  mkState (optimizer_step (model st) batch_ic batch_vqa)
          (S (scheduler_steps st))
          (train_loss_ic st + loss_ic (model st) batch_ic)%R
          (train_loss_vqa st + loss_vqa (model st) batch_vqa)%R
          (counter_batch_ic st + batch_dim_ic batch_ic)%Z
          (counter_batch_vqa st + batch_dim_vqa batch_vqa)%Z
          (avg_train_loss_ic st) (avg_train_loss_vqa st).

(** The [while True] loop over the two iterators: [next] on the
    captioning iterator first, then on the question-answering one; a
    [StopIteration] from either leaves the loop. *)
Fixpoint epoch_loop (t_ic_dataloader : list BatchIC)
  (t_vqa_dataloader : list BatchVQA) (st : state) : state :=
  match t_ic_dataloader with
  | [] => st
  | batch_ic :: t_ic =>
      match t_vqa_dataloader with
      | [] => st
      | batch_vqa :: t_vqa => epoch_loop t_ic t_vqa (paired_step st batch_ic batch_vqa)
      end
  end.

(** Float division by an integer; a zero divisor raises. *)
Definition fdiv (x : R) (n : Z) : option R :=
  if (n =? 0)%Z then None else Some (x / IZR n)%R.

(** One pass of [for epoch in range(epochs)], up to the two [append]
    calls (validation and checkpointing do not touch this state). *)
Definition epoch (train_dataloader_ic : list BatchIC)
  (train_dataloader_vqa : list BatchVQA) (st : state) : option state :=
  let st := epoch_loop train_dataloader_ic train_dataloader_vqa st in
  match fdiv (train_loss_ic st) (Py.len train_dataloader_ic),
        fdiv (train_loss_vqa st) (Py.len train_dataloader_ic) with
  | Some epoch_avg_train_loss_ic, Some epoch_avg_train_loss_vqa =>
      Some (mkState (model st) (scheduler_steps st)
              (train_loss_ic st) (train_loss_vqa st)
              (counter_batch_ic st) (counter_batch_vqa st)
              (avg_train_loss_ic st ++ [epoch_avg_train_loss_ic])
              (avg_train_loss_vqa st ++ [epoch_avg_train_loss_vqa]))
  | _, _ => None
  end.

Fixpoint run_epochs (epochs : nat) (train_dataloader_ic : list BatchIC)
  (train_dataloader_vqa : list BatchVQA) (st : state) : option state :=
  match epochs with
  | O => Some st
  | S k =>
      match epoch train_dataloader_ic train_dataloader_vqa st with
      | None => None
      | Some st' => run_epochs k train_dataloader_ic train_dataloader_vqa st'
      end
  end.

End Training.

End MTL.

(** ** Notions used to state the properties *)


(** A toy tokenizer for the worked examples: one token per character. *)
Definition char_codes (s : string) : list Z :=
  map (fun c => Z.of_nat (nat_of_ascii c)) (list_ascii_of_string s).

(** The layer that [TransformerMapper] stacks: eight heads, self
    attention, hidden width [2 * E]. *)
Definition plain_layer (E : Z) : Mapper.TransformerLayer :=
  Mapper.mkLayer (Attention.mkMHA 8 E E) E (2 * E).

(** The run used to exhibit the reported question-answering average: two
    captioning batches with loss 1, one question-answering batch with loss
    3, one epoch. *)
Definition C4_run : option (MTL.state unit) :=
  MTL.run_epochs (fun (_ : unit) (_ : nat) => 1%R) (fun (_ : unit) (_ : nat) => 3%R)
    (fun m _ _ => m) (fun _ => 32%Z) (fun _ => 32%Z)
    1 [0; 1]%nat [0]%nat (MTL.initial tt).

(** The loop invariant of the decoder after [k] runs of the body, for
    sequence [s]: the stop flag says whether a stop token was chosen, the
    row holds [k] tokens, and a running sequence has recorded length
    [1 + k]. *)
Definition seq_inv (stop eos : Z) (k : nat) (st : Decoder.state) (s : nat) : Prop :=
  exists l,
    nth_error (Decoder.seq_lengths st) s = Some l
    /\ nth_error (Decoder.is_stopped st) s
       = Some (existsb (Decoder.is_stop stop eos) (Decoder.row st s))
    /\ length (Decoder.row st s) = k
    /\ (existsb (Decoder.is_stop stop eos) (Decoder.row st s) = false ->
        l = (1 + Z.of_nat k)%Z)
    /\ (1 <= l <= 1 + Z.of_nat k)%Z.

Definition decoder_inv (batch_size : nat) (stop eos : Z) (k : nat)
  (st : Decoder.state) : Prop :=
  (forall s, (s < batch_size)%nat -> seq_inv stop eos k st s)
  /\ length (Decoder.seq_lengths st) = batch_size
  /\ length (Decoder.is_stopped st) = batch_size
  /\ match Decoder.tokens st with
     | None => k = 0%nat
     | Some rows => length rows = batch_size /\ (0 < k)%nat
     end.

(** ** Further parts of the sources

    The modules below embed the code around the functions above: the
    slicing and boolean indexing of the loss computation, the question
    mask of the generation script, [EarlyStopping], the grouping of
    reference captions, the layer list of [MLP], the embeddings handed to
    GPT-2 and the single-task training loop. *)

Module Slice.

(** Python's reading of a slice bound for a sequence of length [n]. *)
Definition bound (n i : Z) : Z :=
  if (i <? 0)%Z then Z.max 0 (n + i) else Z.min i n.

(** [l[start:stop]]. *)
Definition slice {A} (l : list A) (start stop : Z) : list A :=
  let s := bound (Py.len l) start in
  let e := bound (Py.len l) stop in
  firstn (Z.to_nat (e - s)) (skipn (Z.to_nat s) l).

(** [l[start:]]. *)
Definition from {A} (l : list A) (start : Z) : list A :=
  skipn (Z.to_nat (bound (Py.len l) start)) l.

(** [t[mask]] with a boolean mask over the first dimension: the sizes
    have to agree. *)
Definition bool_index {A} (t : list A) (mask : list bool) : result (list A) :=
  if (length t =? length mask)%nat
  then Ok (map fst (filter snd (combine t mask)))
  else Raise IndexError.

(** [m.ge(1)] on a float mask. *)
Definition ge1 (m : list Z) : list bool := map (fun x => (1 <=? x)%Z) m.

(** An elementwise binary operation on two 1-D tensors, a size of one
    being broadcast. *)
Definition ewise {A B C} (f : A -> B -> C) (a : list A) (b : list B)
  : result (list C) :=
  if (length a =? length b)%nat then Ok (Decoder.zip_with f a b)
  else match a, b with
       | [x], _ => Ok (map (f x) b)
       | _, [y] => Ok (map (fun x => f x y) a)
       | _, _ => Raise RuntimeError
       end.

Fixpoint sequence {A} (l : list (result A)) : result (list A) :=
  match l with
  | [] => Ok []
  | r :: t => x <- r ;; xs <- sequence t ;; Ok (x :: xs)
  end.

End Slice.

(** ** The loss inputs (train_MTL_IC_VQA.py, [train_ic] and [train_vqa]) *)

Module Loss.

Section WithLogits.

(** One vocabulary-sized row of logits is opaque. [logits] is
    [outputs.logits], a batch of rows per sequence position. *)
Variable logit : Type.

(** [train_ic], from [outputs.logits] on: [prefix_length] is the
    constant 10 of the source. *)
Definition train_ic (logits : list (list logit)) (tokens : list (list Z))
  : list logit * list Z :=
  let prefix_length := 10%Z in
  let logits := map (fun r => Slice.slice r (prefix_length - 1) (-1)) logits in
  (concat logits, concat tokens).

(** [train_vqa], from [outputs.logits] on. *)
Definition train_vqa (logits : list (list logit)) (tokens : list (list Z))
  (mask : list (list Z)) : result (list logit * list Z) :=
  let prefix_length := 10%Z in
  let logits := map (fun r => Slice.slice r (prefix_length - 1) (-1)) logits in
  let new_mask := map (fun r => Slice.from r 10) mask in
  let bool_mask := concat (map Slice.ge1 new_mask) in
  let final_logits := concat logits in
  let finally_tok := concat tokens in
  temp_logits <- Slice.bool_index final_logits bool_mask ;;
  temp_tokens <- Slice.bool_index finally_tok bool_mask ;;
  Ok (temp_logits, temp_tokens).

(** The (input, target) pairs that [cross_entropy(..., ignore_index=0)]
    averages over: the sizes have to agree, and a target equal to the
    ignored index does not count. *)
Definition cross_entropy_terms (input : list logit) (target : list Z)
  : result (list (logit * Z)) :=
  if (length input =? length target)%nat
  then Ok (filter (fun p => negb (snd p =? 0)%Z) (combine input target))
  else Raise ValueError.

(** The loss of train_IC.py ([train], [apply_validation]): the logits
    are cut with the dataset's [prefix_length], flattened together with
    the tokens, and handed to [cross_entropy]. *)
Definition loss_terms (prefix_length : Z) (logits : list (list logit))
  (tokens : list (list Z)) : result (list (logit * Z)) :=
  let logits := map (fun r => Slice.slice r (prefix_length - 1) (-1)) logits in
  cross_entropy_terms (concat logits) (concat tokens).

(** The loss of the question-answering step ([main] of
    train_MTL_IC_VQA.py, after [train_vqa]). *)
Definition vqa_loss_terms (logits : list (list logit)) (tokens : list (list Z))
  (mask : list (list Z)) : result (list (logit * Z)) :=
  sel <- train_vqa logits tokens mask ;;
  cross_entropy_terms (fst sel) (snd sel).

End WithLogits.

End Loss.

(** ** The question mask of the generation script
       (multi_gpu_visdial_vqa.py, [validation_generation]) *)

Module QuestionMask.

(** [torch.logical_xor(mask[:, 10:], mask4gpt[:, 10:]).float()] on one
    row: a float counts as true when it is not zero. *)
Definition temp_question_mask_row (mask mask4gpt : list Z) : result (list Z) :=
  Slice.ewise (fun a b => Torch.float_of_bool (xorb (negb (a =? 0)%Z) (negb (b =? 0)%Z)))
    (Slice.from mask 10) (Slice.from mask4gpt 10).

(** [masky]: ten ones in front of every row. [batch_size] is the
    constant 4 of the source and [torch.cat] wants as many rows; the ones
    are created on the CPU while [mask] and [mask4gpt] were moved to
    [device], and [torch.cat] wants one device. *)
Definition masky (device : Torch.device) (mask mask4gpt : list (list Z))
  : result (list (list Z)) :=
  let batch_size := 4%nat in
  rows <- Slice.ewise temp_question_mask_row mask mask4gpt ;;
  rows <- Slice.sequence rows ;;
  match device with
  | Torch.cuda => Raise RuntimeError
  | Torch.cpu =>
      if (length rows =? batch_size)%nat
      then Ok (map (fun r => repeat 1%Z 10 ++ r) rows)
      else Raise RuntimeError
  end.

(** [questions = captions * question_mask] on one row. *)
Definition questions_row (captions mask mask4gpt : list Z) : result (list Z) :=
  question_mask <- Slice.ewise xorb (Slice.ge1 (Slice.from mask 10))
                     (Slice.ge1 (Slice.from mask4gpt 10)) ;;
  Slice.ewise (fun c (b : bool) => if b then c else 0%Z) captions question_mask.

End QuestionMask.

(** ** EarlyStopping (train_IC.py) *)

Module EarlyStopping.

Record t := mk {
  tolerance : Z;
  delta : R;
  counter : Z;
  early_stop : bool
}.

Definition init (tolerance : Z) (delta : R) : t := mk tolerance delta 0 false.

(** [__call__]. *)
Definition call (self : t) (train_loss validation_loss : R) : t :=
  if Rlt_dec (delta self) (validation_loss - train_loss) then
    let c := (counter self + 1)%Z in
    mk (tolerance self) (delta self) c
       (if (tolerance self <=? c)%Z then true else early_stop self)
  else self.

(** A run of calls, one per epoch. *)
Definition calls (self : t) (losses : list (R * R)) : t :=
  fold_left (fun s p => call s (fst p) (snd p)) losses self.

(** Whether an epoch counts: its validation loss exceeds its training
    loss by more than [delta]. *)
Definition over (delta : R) (p : R * R) : bool :=
  if Rlt_dec delta (snd p - fst p) then true else false.

End EarlyStopping.

(** ** Reference captions (train_IC.py, [merge] and
       [group_reference_captions]) *)

Module Group.

(** [merge]: [None] is the failed assertion. *)
Definition merge {A B} (list1 : list A) (list2 : list B) : option (list (A * B)) :=
  if (length list1 =? length list2)%nat then Some (combine list1 list2) else None.

Section Dict.

(** A Python dict with integer keys, in insertion order. *)
Variable V : Type.

Definition dict := list (Z * V).

Fixpoint get (d : dict) (key : Z) : option V :=
  match d with
  | [] => None
  | (k, v) :: t => if (k =? key)%Z then Some v else get t key
  end.

(** [d[key] = v]. *)
Fixpoint set (d : dict) (key : Z) (v : V) : dict :=
  match d with
  | [] => [(key, v)]
  | (k, w) :: t => if (k =? key)%Z then (k, v) :: t else (k, w) :: set t key v
  end.

End Dict.

Section Grouping.

Variable caption : Type.

(** The body of the loop of [group_reference_captions]. *)
Definition group_step (temp_dict : dict (list caption)) (kv : Z * caption)
  : dict (list caption) :=
  match get temp_dict (fst kv) with
  | Some l => set temp_dict (fst kv) (l ++ [snd kv])
  | None => set temp_dict (fst kv) [snd kv]
  end.

Definition group_reference_captions (gt_image_ids : list Z)
  (gt_captions : list caption) : option (dict (list caption)) :=
  match merge gt_image_ids gt_captions with
  | None => None
  | Some mrg => Some (fold_left group_step mrg [])
  end.

End Grouping.

End Group.

(** ** The layers of [MLP] and the embeddings given to GPT-2 (train_IC.py) *)

Module Layers.

Inductive layer :=
| Linear (in_f out_f : Z)
| Tanh.

(** [MLP.__init__]: the loop over [range(len(sizes) - 1)], at index [i]
    of the list that is left. *)
Fixpoint MLP_layers (sizes : list Z) : list layer :=
  match sizes with
  | a :: (b :: rest') as rest =>
      Linear a b :: (match rest' with [] => [] | _ => [Tanh] end) ++ MLP_layers rest
  | _ => []
  end.

Definition layer_forward (l : layer) (x : Shape.shape) : result Shape.shape :=
  match l with
  | Linear a b => Shape.linear a b x
  | Tanh => Ok x
  end.

(** [nn.Sequential.forward]. *)
Fixpoint Sequential_forward (ls : list layer) (x : Shape.shape) : result Shape.shape :=
  match ls with
  | [] => Ok x
  | l :: t => x' <- layer_forward l x ;; Sequential_forward t x'
  end.

(** [wte(tokens)]: one embedding per token id. *)
Definition wte (gpt_embedding_size : Z) (tokens : Shape.shape) : Shape.shape :=
  tokens ++ [gpt_embedding_size].

(** [embedding_cat] in [ClipCaptionModel.forward]. *)
Definition embedding_cat (self : Mapper.ClipCaptionModel)
  (tokens prefix : Shape.shape) : result Shape.shape :=
  let embedding_text := wte (Mapper.gpt_embedding_size self) tokens in
  prefix_projections <- Mapper.prefix_projections self prefix ;;
  Shape.cat1 prefix_projections embedding_text.

End Layers.

(** ** The single-task training loop (train_IC.py, [train] and
       [apply_validation]; trainy_IC_diffusion_singleGPU.py has the same
       loop with another loss) *)

Module Train.

Section Loop.

(** The model with its optimizer and scheduler is an opaque state. The
    loss of a batch is [None] when its computation raises (the slice and
    [cross_entropy] can). *)
Variable Model : Type.
Variable Batch : Type.
Variable loss : Model -> Batch -> option R.
Variable optimizer_step : Model -> Batch -> Model.
Variable validation_loss : Model -> Batch -> option R.

(** The loop of [apply_validation]: the model is only read. *)
Fixpoint validation_sum (model : Model) (batches : list Batch) (val_loss : R)
  : option R :=
  match batches with
  | [] => Some val_loss
  | b :: rest =>
      match validation_loss model b with
      | None => None
      | Some l => validation_sum model rest (val_loss + l)%R
      end
  end.

(** [apply_validation]. *)
Definition apply_validation (model : Model) (val_dataloader : list Batch)
  : option R :=
  match validation_sum model val_dataloader 0%R with
  | None => None
  | Some val_loss => MTL.fdiv val_loss (Py.len val_dataloader)
  end.

Record state := mkState {
  model : Model;
  avg_train_loss : list R;
  avg_val_loss : list R;
  saved : list (Z * Model)
}.

Definition initial (m : Model) : state := mkState m [] [] [].

(** The inner loop over the batches. *)
Fixpoint batches (train_dataloader : list Batch) (m : Model) (train_loss : R)
  : option (Model * R) :=
  match train_dataloader with
  | [] => Some (m, train_loss)
  | b :: rest =>
      match loss m b with
      | None => None
      | Some l => batches rest (optimizer_step m b) (train_loss + l)%R
      end
  end.

(** One pass of [for epoch in range(epochs)] on the batches the two
    loaders yield in it; [None] is an exception (a loss that raises, a
    division by an empty loader's length, or [epoch % 0]). The
    bookkeeping of the best validation loss does not touch this state. *)
Definition epoch_body (epochs save_every : Z)
  (train_dataloader val_dataloader : list Batch) (epoch : Z) (st : state)
  : option state :=
  match batches train_dataloader (model st) 0%R with
  | None => None
  | Some (m, train_loss) =>
      match MTL.fdiv train_loss (Py.len train_dataloader) with
      | None => None
      | Some epoch_avg_train_loss =>
          match apply_validation m val_dataloader with
          | None => None
          | Some epoch_avg_val_loss =>
              if (save_every =? 0)%Z then None
              else
                Some (mkState m
                        (avg_train_loss st ++ [epoch_avg_train_loss])
                        (avg_val_loss st ++ [epoch_avg_val_loss])
                        (if ((epoch mod save_every =? 0) || (epoch =? epochs - 1))%Z
                         then saved st ++ [(epoch, m)] else saved st))
          end
      end
  end.

(** The epochs [first], [first + 1], ..., [n] of them. A loader is given
    by the batches it yields in each epoch: [pad_tokens] rewrites the
    stored captions, so the batches of a later epoch are not those of the
    first. *)
Fixpoint epochs_from (epochs save_every : Z)
  (train_dataloader val_dataloader : Z -> list Batch) (first : Z) (n : nat)
  (st : state) : option state :=
  match n with
  | O => Some st
  | S k =>
      match epoch_body epochs save_every (train_dataloader first)
              (val_dataloader first) first st with
      | None => None
      | Some st' =>
          epochs_from epochs save_every train_dataloader val_dataloader
            (first + 1) k st'
      end
  end.

(** [train]: [range(epochs)] is empty for a negative [epochs]. *)
Definition train (epochs save_every : Z)
  (train_dataloader val_dataloader : Z -> list Batch) (m : Model) : option state :=
  epochs_from epochs save_every train_dataloader val_dataloader 0
    (Z.to_nat epochs) (initial m).

End Loop.

End Train.

(** ** The schedule of the multi-task loop (train_MTL_IC_VQA.py, [main]) *)

Module Schedule.

(** [num_training_steps] given to [get_linear_schedule_with_warmup]. *)
Definition num_training_steps {BatchVQA} (epochs : nat)
  (train_dataloader_vqa : list BatchVQA) : Z :=
  (Z.of_nat epochs * Py.len train_dataloader_vqa)%Z.

End Schedule.

(** ** More notions used to state the properties *)



(** One question-answering example as the loss sees it: [ex_q] question
    tokens, [ex_a] answer tokens (the end marker counted in), [ex_rest]
    padding positions, the padded tokens and the logits of every position
    of the model's output. *)
Record qa_example (logit : Type) := mkExample {
  ex_q : nat;
  ex_a : nat;
  ex_rest : nat;
  ex_tokens : list Z;
  ex_logits : list logit
}.

(** Its loss mask under a prefix of [pl] positions. *)
Definition ex_mask {logit} (pl : nat) (e : qa_example logit) : list Z :=
  repeat 1%Z pl ++ repeat 0%Z (ex_q e) ++ repeat 1%Z (ex_a e) ++ repeat 0%Z (ex_rest e).

(** Its attention mask. *)
Definition ex_mask4gpt {logit} (pl : nat) (e : qa_example logit) : list Z :=
  repeat 1%Z pl ++ repeat 1%Z (ex_q e) ++ repeat 1%Z (ex_a e) ++ repeat 0%Z (ex_rest e).

(** It is well formed when the tokens fill the text region and there is
    one logits row per position of prefix and text. *)
Definition ex_wf {logit} (pl : nat) (e : qa_example logit) : Prop :=
  length (ex_tokens e) = (ex_q e + ex_a e + ex_rest e)%nat
  /\ length (ex_logits e) = (pl + (ex_q e + ex_a e + ex_rest e))%nat.

(** One captioning example as the loss sees it: the real tokens, the
    number of padding positions after them, and the logits of every
    position of the model's output. *)
Record ic_example (logit : Type) := mkCaption {
  ic_real : list Z;
  ic_pad : nat;
  ic_logits : list logit
}.

Definition ic_tokens {logit} (e : ic_example logit) : list Z :=
  ic_real e ++ repeat 0%Z (ic_pad e).

Definition ic_wf {logit} (pl : nat) (e : ic_example logit) : Prop :=
  Forall (fun t => t <> 0%Z) (ic_real e)
  /\ length (ic_logits e) = (pl + (length (ic_real e) + ic_pad e))%nat.

(** The entries of a row picked by a boolean row. *)
Definition select {A} (row : list A) (m : list bool) : list A :=
  map fst (filter snd (combine row m)).

(** The position of the first stop token of a row. *)
Fixpoint first_stop (stop eos : Z) (row : list Z) : option nat :=
  match row with
  | [] => None
  | t :: rest =>
      if Decoder.is_stop stop eos t then Some O
      else option_map S (first_stop stop eos rest)
  end.

(** The length the decoder records for a row after [k] steps: two past
    the first stop token, or one past the steps for a row without one. *)
Definition recorded (stop eos : Z) (k : nat) (row : list Z) : Z :=
  match first_stop stop eos row with
  | Some t => (Z.of_nat t + 2)%Z
  | None => (1 + Z.of_nat k)%Z
  end.

(** The epochs [first], [first + 1], ..., [n] of them, as [range] yields
    them. *)
Fixpoint range_from (first : Z) (n : nat) : list Z :=
  match n with
  | O => []
  | S k => first :: range_from (first + 1) k
  end.

(** The epochs of [range(epochs)] at which the condition
    [epoch % save_every == 0 or epoch == epochs - 1] holds. *)
Definition checkpoint_epochs (epochs save_every : Z) : list Z :=
  filter (fun epoch => ((epoch mod save_every =? 0) || (epoch =? epochs - 1))%Z)
         (range_from 0 (Z.to_nat epochs)).








(** A group of captions as [dict.get] returns it: a missing key for no
    caption at all. *)
Definition as_group {caption} (l : list caption) : option (list caption) :=
  match l with
  | [] => None
  | _ => Some l
  end.

(** The captions recorded for an image id, in the order of the input. *)
Definition captions_of {caption} (key : Z) (mrg : list (Z * caption)) : list caption :=
  map snd (filter (fun kv => (fst kv =? key)%Z) mrg).

(** * Properties *)

(** ** Helper lemmas on lists *)

Lemma set_item_length {A} (l : list A) i x :
  length (Py.set_item l i x) = length l.
Proof.
  revert i; induction l as [|h t IH]; intros [|j]; simpl; auto.
Qed.

Lemma ones_nonneg n : (0 <= n)%Z -> Torch.ones n = Some (repeat 1%Z (Z.to_nat n)).
Proof.
  intros Hn. unfold Torch.ones.
  destruct (n <? 0)%Z eqn:E; [apply Z.ltb_lt in E; lia | reflexivity].
Qed.

Lemma pad_or_truncate_length msl tokens :
  (0 <= msl)%Z -> Py.len (pad_or_truncate msl tokens) = msl.
Proof.
  intros Hm. unfold pad_or_truncate, Py.len, Torch.minus_ones, Py.slice_to.
  destruct (_ >? 0)%Z eqn:E1.
  - apply Z.gtb_lt in E1. unfold Py.len in E1.
    rewrite length_app, repeat_length. lia.
  - destruct (_ <? 0)%Z eqn:E2.
    + apply Z.ltb_lt in E2. unfold Py.len in E2.
      destruct (0 <=? msl)%Z eqn:E3; [|apply Z.leb_gt in E3; lia].
      rewrite length_firstn. lia.
    + apply Z.ltb_ge in E2. rewrite Z.gtb_ltb in E1. apply Z.ltb_ge in E1.
      unfold Py.len in *. lia.
Qed.

Lemma list_mul_length {A} n (x : A) :
  Py.len (Py.list_mul n x) = Z.max 0 n.
Proof. unfold Py.len, Py.list_mul. rewrite repeat_length. lia. Qed.

(** ** The question-answering masks *)

Lemma need_pred_fits msl q a :
  (q + a <= msl)%Z ->
  VQA.need_pred msl q a
  = repeat 0%Z (Z.to_nat q) ++ repeat 1%Z (Z.to_nat a)
    ++ repeat 0%Z (Z.to_nat (msl - q - a)).
Proof.
  intros H. unfold VQA.need_pred, Py.list_mul.
  destruct (_ >=? 0)%Z eqn:E; [reflexivity|].
  rewrite Z.geb_leb in E. apply Z.leb_gt in E. lia.
Qed.

Lemma need_pred_4gpt_fits msl q a :
  (0 <= q)%Z -> (0 <= a)%Z -> (q + a <= msl)%Z ->
  VQA.need_pred_4gpt msl q a
  = repeat 1%Z (Z.to_nat (q + a)) ++ repeat 0%Z (Z.to_nat (msl - q - a)).
Proof.
  intros Hq Ha H. unfold VQA.need_pred_4gpt, Py.list_mul.
  destruct (_ >=? 0)%Z eqn:E.
  - rewrite app_assoc, <- repeat_app. f_equal. f_equal. lia.
  - rewrite Z.geb_leb in E. apply Z.leb_gt in E. lia.
Qed.

Lemma need_pred_overflow msl q a :
  (q + a > msl)%Z ->
  VQA.need_pred msl q a = repeat 0%Z (Z.to_nat msl)
  /\ VQA.need_pred_4gpt msl q a = repeat 0%Z (Z.to_nat msl).
Proof.
  intros H. unfold VQA.need_pred, VQA.need_pred_4gpt, Py.list_mul.
  destruct (_ >=? 0)%Z eqn:E; [|split; reflexivity].
  rewrite Z.geb_leb in E. apply Z.leb_le in E. lia.
Qed.

(** trainy_notes_VQA.py: the same loss mask, the answer counted without
    the end-of-sequence marker. *)
Lemma pad_tokens_notes_mask
  (encode : string -> list Z) (self : VQA.ClipCocoDataset_VQA) (item : nat)
  (tokens : list Z) (temp_ans temp_q : string) :
  nth_error (VQA.captions_tokens self) item = Some tokens ->
  nth_error (VQA.answers self) item = Some temp_ans ->
  nth_error (VQA.questions self) item = Some temp_q ->
  (0 <= VQA.prefix_length self)%Z ->
  exists self' toks,
    VQA.pad_tokens_notes encode self item
    = Some (self', (toks,
              repeat 1%Z (Z.to_nat (VQA.prefix_length self))
              ++ VQA.need_pred (VQA.max_seq_len self)
                   (Py.len (encode temp_q)) (Py.len (encode temp_ans)),
              encode temp_ans)).
Proof.
  intros Ht Ha Hq Hp. unfold VQA.pad_tokens_notes.
  rewrite Ht, Ha, Hq, (ones_nonneg Hp). do 2 eexists. reflexivity.
Qed.

(** C1. In train_MTL_IC_VQA.py, for an example with question length
    [q_len] and answer length [a_len] (the end-of-sequence marker counted
    in), [ClipCocoDataset_VQA.pad_tokens] returns;
    when [q_len + a_len <= max_seq_len] the loss mask is [prefix_length]
    ones, [q_len] zeros, [a_len] ones and zeros up to [max_seq_len], and the
    attention mask is [prefix_length] ones, [q_len + a_len] ones and the
    same zeros; when [q_len + a_len > max_seq_len] the text region of both
    masks is [max_seq_len] zeros. *)
Theorem C1_qa_supervision_masks
  (encode : string -> list Z) (self : VQA.ClipCocoDataset_VQA) (item : nat)
  (tokens : list Z) (temp_ans temp_q : string) :
  nth_error (VQA.captions_tokens self) item = Some tokens ->
  nth_error (VQA.answers self) item = Some temp_ans ->
  nth_error (VQA.questions self) item = Some temp_q ->
  (0 <= VQA.prefix_length self)%Z ->
  let q_len := Py.len (encode temp_q) in
  let a_len := (Py.len (encode temp_ans) + 1)%Z in
  let msl := VQA.max_seq_len self in
  let pre := repeat 1%Z (Z.to_nat (VQA.prefix_length self)) in
  exists self' toks mask mask4gpt,
    VQA.pad_tokens encode self item = Some (self', (toks, mask, mask4gpt))
    /\ ((q_len + a_len <= msl)%Z ->
        mask = pre ++ repeat 0%Z (Z.to_nat q_len) ++ repeat 1%Z (Z.to_nat a_len)
                   ++ repeat 0%Z (Z.to_nat (msl - q_len - a_len))
        /\ mask4gpt = pre ++ repeat 1%Z (Z.to_nat (q_len + a_len))
                          ++ repeat 0%Z (Z.to_nat (msl - q_len - a_len)))
    /\ ((q_len + a_len > msl)%Z ->
        mask = pre ++ repeat 0%Z (Z.to_nat msl)
        /\ mask4gpt = pre ++ repeat 0%Z (Z.to_nat msl)).
Proof.
  intros Ht Ha Hq Hp q_len a_len msl pre.
  unfold VQA.pad_tokens. rewrite Ht, Ha, Hq, (ones_nonneg Hp).
  do 4 eexists. split; [reflexivity|].
  fold msl. unfold VQA.q_range, VQA.a_range. fold q_len a_len pre.
  assert (0 <= q_len)%Z by (unfold q_len, Py.len; lia).
  assert (0 <= a_len)%Z by (unfold a_len, Py.len; lia).
  split; intros Hfit.
  - rewrite need_pred_fits, need_pred_4gpt_fits by assumption. split; reflexivity.
  - destruct (@need_pred_overflow msl q_len a_len Hfit) as [-> ->]. split; reflexivity.
Qed.

Lemma C1_qa_supervision_masks_witness :
  exists self' toks,
    VQA.pad_tokens char_codes
      (VQA.mkDataset 2 8 [[119; 104; 111; 63; 32; 109; 101; 50256]%Z]
         ["me"%string] ["who?"%string]) 0
    = Some (self', (toks, [1; 1; 0; 0; 0; 0; 1; 1; 1; 0]%Z,
                          [1; 1; 1; 1; 1; 1; 1; 1; 1; 0]%Z)).
Proof.
  destruct (@C1_qa_supervision_masks char_codes
              (VQA.mkDataset 2 8 [[119; 104; 111; 63; 32; 109; 101; 50256]%Z]
                 ["me"%string] ["who?"%string]) 0
              _ _ _ eq_refl eq_refl eq_refl ltac:(simpl; lia))
    as (self' & toks & mask & mask4gpt & Hcall & Hfit & _).
  destruct (Hfit ltac:(vm_compute; intros H; discriminate H)) as [Hm Hg].
  exists self', toks. rewrite Hcall, Hm, Hg. reflexivity.
Defined.

(** C1 as stated fails for the builder of trainy_notes_VQA.py, which the
    claim covers too: it counts the answer without the end-of-sequence
    marker. For the question "who?" (4 tokens) and the answer "me" (2
    tokens, [a_len = 3]) with [max_seq_len = 8] its loss mask has two ones
    after the question where the claim has three. (It returns no
    attention mask at all.) *)
Lemma C1_counterexample :
  ~ (forall (encode : string -> list Z) (self : VQA.ClipCocoDataset_VQA)
            (item : nat) (temp_ans temp_q : string) self' toks mask answer,
        nth_error (VQA.answers self) item = Some temp_ans ->
        nth_error (VQA.questions self) item = Some temp_q ->
        let q_len := Py.len (encode temp_q) in
        let a_len := (Py.len (encode temp_ans) + 1)%Z in
        let msl := VQA.max_seq_len self in
        (q_len + a_len <= msl)%Z ->
        VQA.pad_tokens_notes encode self item = Some (self', (toks, mask, answer)) ->
        mask = repeat 1%Z (Z.to_nat (VQA.prefix_length self))
               ++ repeat 0%Z (Z.to_nat q_len) ++ repeat 1%Z (Z.to_nat a_len)
               ++ repeat 0%Z (Z.to_nat (msl - q_len - a_len))).
Proof.
  intros H.
  specialize (H char_codes
                (VQA.mkDataset 2 8 [[119; 104; 111; 63; 32; 109; 101; 50256]%Z]
                   ["me"%string] ["who?"%string]) 0%nat "me"%string "who?"%string
                _ _ [1; 1; 0; 0; 0; 0; 1; 1; 0; 0]%Z _
                eq_refl eq_refl ltac:(vm_compute; intros E; discriminate E) eq_refl).
  vm_compute in H. discriminate H.
Qed.

(** ** The captioning dataset: mask length and [max_seq_len] *)










Lemma pad_tokens_spec d item :
  (0 <= IC.prefix_length d)%Z -> (0 <= IC.max_seq_len d)%Z ->
  (item < length (IC.captions_tokens d))%nat ->
  exists d' toks mask,
    IC.pad_tokens d item = Some (d', (toks, mask))
    /\ Py.len mask = (IC.prefix_length d + IC.max_seq_len d)%Z
    /\ Py.len toks = IC.max_seq_len d
    /\ IC.prefix_length d' = IC.prefix_length d
    /\ IC.max_seq_len d' = IC.max_seq_len d
    /\ length (IC.captions_tokens d') = length (IC.captions_tokens d).
Proof.
  intros Hp Hm Hi. unfold IC.pad_tokens.
  destruct (nth_error (IC.captions_tokens d) item) as [tokens|] eqn:E.
  2:{ apply nth_error_None in E. lia. }
  rewrite (ones_nonneg Hp). do 3 eexists. split; [reflexivity|].
  pose proof (pad_or_truncate_length tokens Hm) as HL.
  unfold Py.len in *. simpl.
  rewrite length_app, repeat_length, set_item_length.
  unfold Torch.ge0, Torch.zero_where_not. rewrite !length_map.
  repeat split; lia.
Qed.





(** ** The attention mask *)

Lemma nth_error_mapi_from {A B} (f : nat -> A -> B) l k i :
  nth_error (Attention.mapi_from k f l) i = option_map (f (k + i)%nat) (nth_error l i).
Proof.
  revert k i; induction l as [|x t IH]; intros k [|i]; simpl; auto.
  - now rewrite Nat.add_0_r.
  - rewrite IH. now rewrite Nat.add_succ_comm.
Qed.

Lemma nth_error_mapi {A B} (f : nat -> A -> B) l i :
  nth_error (Attention.mapi f l) i = option_map (f i) (nth_error l i).
Proof. apply (nth_error_mapi_from f l 0 i). Qed.

Lemma bnth_nth_error {A} (d : A) l i x :
  nth_error l i = Some x -> Attention.bnth d l i = x.
Proof.
  intros H. unfold Attention.bnth.
  destruct l as [|a [|b t]].
  - destruct i; discriminate.
  - destruct i as [|[|i]]; simpl in H; congruence.
  - now apply nth_error_nth.
Qed.

(** What [masked_fill] leaves at one position. *)
Lemma masked_fill_get4 t mask value r i q k hd :
  Attention.masked_fill t mask value = Ok r ->
  Attention.get4 r i q k hd
  = option_map
      (fun s =>
         if Attention.bnth false
              (Attention.bnth [] (Attention.bnth [] (Attention.bnth [] mask i) q) k) hd
         then value else s)
      (Attention.get4 t i q k hd).
Proof.
  unfold Attention.masked_fill.
  destruct (Attention.broadcastable mask t); [|discriminate].
  intros [= <-]. unfold Attention.get4.
  rewrite nth_error_mapi. destruct (nth_error t i) as [t3|]; [simpl|reflexivity].
  rewrite nth_error_mapi. destruct (nth_error t3 q) as [t2|]; [simpl|reflexivity].
  rewrite nth_error_mapi. destruct (nth_error t2 k) as [t1|]; [simpl|reflexivity].
  now rewrite nth_error_mapi.
Qed.

Lemma mask2_bit (m : list (list bool)) i q k hd row bit :
  nth_error m i = Some row -> nth_error row k = Some bit ->
  Attention.bnth false
    (Attention.bnth []
       (Attention.bnth []
          (Attention.bnth [] (Attention.unsqueeze3 (Attention.unsqueeze1 m)) i) q) k) hd
  = bit.
Proof.
  intros Hi Hk. unfold Attention.unsqueeze3, Attention.unsqueeze1.
  rewrite map_map.
  erewrite (@bnth_nth_error _ _ (map _ m)) by (rewrite nth_error_map, Hi; reflexivity).
  simpl.
  erewrite (@bnth_nth_error _ _ (map _ row)) by (rewrite nth_error_map, Hk; reflexivity).
  reflexivity.
Qed.

(** C2 (as amended). With a 2-D mask that broadcasts to the scores,
    [forward] returns from the masking step, and the score of batch [i],
    query [q], key [k], head [hd] is minus infinity where the mask entry of
    ([i], [k]) is [True] and the score computed before where it is [False]:
    a [True] entry masks the key out, for every head and query position. *)
Theorem C2_mask_true_is_masked_out
  (attention : Attention.tensor4) (m : list (list bool)) :
  Attention.broadcastable (Attention.unsqueeze3 (Attention.unsqueeze1 m)) attention
  = true ->
  exists r,
    Attention.apply_mask attention (Some (Attention.Mask2 m)) = Ok r
    /\ forall i q k hd s row bit,
         Attention.get4 attention i q k hd = Some s ->
         nth_error m i = Some row -> nth_error row k = Some bit ->
         Attention.get4 r i q k hd
         = Some (if bit then Attention.NegInf else s).
Proof.
  intros Hb.
  assert (Hr : exists r, Attention.apply_mask attention (Some (Attention.Mask2 m)) = Ok r).
  { unfold Attention.apply_mask, Attention.masked_fill. rewrite Hb. eauto. }
  destruct Hr as [r Hr]. exists r. split; [exact Hr|].
  intros i q k hd s row bit Hs Hi Hk.
  unfold Attention.apply_mask in Hr.
  rewrite (masked_fill_get4 _ _ _ i q k hd Hr), Hs. simpl.
  now rewrite (mask2_bit m i q k hd Hi Hk).
Qed.

Lemma C2_mask_true_is_masked_out_witness :
  exists r,
    Attention.apply_mask
      [[[[Attention.Fin 1; Attention.Fin 2]; [Attention.Fin 3; Attention.Fin 4]]]]
      (Some (Attention.Mask2 [[false; true]])) = Ok r
    /\ Attention.get4 r 0 0 1 0 = Some Attention.NegInf
    /\ Attention.get4 r 0 0 0 1 = Some (Attention.Fin 2).
Proof.
  destruct (@C2_mask_true_is_masked_out
              [[[[Attention.Fin 1; Attention.Fin 2]; [Attention.Fin 3; Attention.Fin 4]]]]
              [[false; true]] eq_refl) as (r & Hr & Hget).
  exists r. split; [exact Hr|]. split.
  - exact (Hget 0 0 1 0 _ _ _ eq_refl eq_refl eq_refl)%nat.
  - exact (Hget 0 0 0 1 _ _ _ eq_refl eq_refl eq_refl)%nat.
Defined.

(** C2 as stated (minus infinity at mask value 0, unchanged at mask value
    1) fails: with the mask row [1, 0] the key marked 1 gets minus infinity
    and the key marked 0 keeps its score. *)
Lemma C2_counterexample :
  ~ (forall (attention : Attention.tensor4) (m : list (list bool)) r
            i q k hd s row bit,
        Attention.apply_mask attention (Some (Attention.Mask2 m)) = Ok r ->
        Attention.get4 attention i q k hd = Some s ->
        nth_error m i = Some row -> nth_error row k = Some bit ->
        Attention.get4 r i q k hd
        = Some (if bit then s else Attention.NegInf)).
Proof.
  intros H.
  specialize (H [[[[Attention.Fin 1]; [Attention.Fin 2]]]] [[true; false]]
                [[[[Attention.NegInf]; [Attention.Fin 2]]]]
                0 0 0 0 (Attention.Fin 1) [true; false] true
                eq_refl eq_refl eq_refl eq_refl)%nat.
  discriminate H.
Qed.

(** ** Construction of the attention block *)

Lemma reshape_exact s target :
  Forall (fun d => (0 <= d)%Z) target ->
  Shape.reshape s target
  = if (Shape.numel target =? Shape.numel s)%Z then Ok target else Raise RuntimeError.
Proof.
  intros H. unfold Shape.reshape.
  assert (E : existsb (fun d => (d <? -1)%Z) target = false).
  { induction H as [|d t Hd _ IH]; simpl; [reflexivity|].
    rewrite IH. destruct (d <? -1)%Z eqn:E; [apply Z.ltb_lt in E; lia|reflexivity]. }
  rewrite E.
  assert (C : count_occ Z.eq_dec target (-1)%Z = 0%nat).
  { apply count_occ_not_In. intros Hin.
    rewrite Forall_forall in H. apply H in Hin. lia. }
  now rewrite C.
Qed.

Lemma linear_3d in_f out_f b n :
  Shape.linear in_f out_f [b; n; in_f] = Ok [b; n; out_f].
Proof. unfold Shape.linear. simpl. now rewrite Z.eqb_refl. Qed.

(** C7 (as amended). Construction does not look at divisibility: it
    succeeds whenever [0 < num_heads <= dim_self] (and [dim_ref >= 0]).
    A [dim_self] that is not a multiple of [num_heads] surfaces in
    [forward], where the reshape into heads raises on every non-empty
    input. *)
Theorem C7_head_mismatch_surfaces_in_forward
  (dim_self dim_ref num_heads b n : Z) :
  (0 < num_heads <= dim_self)%Z -> (0 <= dim_ref)%Z ->
  (0 < b)%Z -> (0 < n)%Z ->
  (dim_self mod num_heads <> 0)%Z ->
  Attention.init dim_self dim_ref num_heads
  = Ok (Attention.mkMHA num_heads dim_self dim_ref)
  /\ Attention.forward (Attention.mkMHA num_heads dim_self dim_ref)
       [b; n; dim_self] None = Raise RuntimeError.
Proof.
  intros Hh Hr Hb Hn Hmod. split.
  - unfold Attention.init.
    destruct (num_heads =? 0)%Z eqn:E; [apply Z.eqb_eq in E; lia|].
    destruct (dim_self / num_heads =? 0)%Z eqn:E2.
    + apply Z.eqb_eq in E2. apply Z.div_small_iff in E2; lia.
    + destruct (dim_self <? 0)%Z eqn:E3; [apply Z.ltb_lt in E3; lia|].
      destruct (dim_ref <? 0)%Z eqn:E4; [apply Z.ltb_lt in E4; lia|].
      reflexivity.
  - unfold Attention.forward. cbn [Attention.num_heads Attention.dim_self Attention.dim_ref].
    destruct (num_heads =? 0)%Z eqn:E; [apply Z.eqb_eq in E; lia|].
    rewrite linear_3d. cbn [bind].
    assert (Hq : (0 <= dim_self / num_heads)%Z) by (apply Z.div_pos; lia).
    rewrite reshape_exact by (repeat constructor; lia).
    destruct (Shape.numel _ =? Shape.numel _)%Z eqn:E2; [|reflexivity].
    apply Z.eqb_eq in E2. unfold Shape.numel in E2. cbn [fold_right] in E2.
    pose proof (Z.div_mod dim_self num_heads ltac:(lia)) as Hdm.
    exfalso. apply Hmod.
    rewrite !Z.mul_1_r in E2.
    apply Z.mul_cancel_l in E2; [|lia]. apply Z.mul_cancel_l in E2; [|lia].
    lia.
Qed.

Lemma C7_head_mismatch_surfaces_in_forward_witness :
  Attention.init 10 10 3 = Ok (Attention.mkMHA 3 10 10)
  /\ Attention.forward (Attention.mkMHA 3 10 10) [1; 1; 10]%Z None
     = Raise RuntimeError.
Proof.
  apply (@C7_head_mismatch_surfaces_in_forward 10 10 3 1 1); try lia.
  vm_compute. intros H; discriminate H.
Defined.

(** C7 as stated fails: ten channels and three heads are accepted by the
    constructor. *)
Lemma C7_counterexample :
  ~ (forall dim_self dim_ref num_heads : Z,
        (dim_self mod num_heads <> 0)%Z ->
        exists e, Attention.init dim_self dim_ref num_heads = Raise e).
Proof.
  intros H. destruct (H 10 10 3)%Z as [e He].
  - vm_compute. intros E; discriminate E.
  - discriminate He.
Qed.

(** ** Shapes through the prefix mappers *)

Lemma broadcast_rev_same l : Shape.broadcast_rev l l = Ok l.
Proof.
  induction l as [|x t IH]; simpl; [reflexivity|].
  rewrite IH. simpl. now rewrite Z.eqb_refl.
Qed.

Lemma add_same s : Shape.add s s = Ok s.
Proof. unfold Shape.add. rewrite broadcast_rev_same. simpl. now rewrite rev_involutive. Qed.

Lemma reshape_infer_last b cl E :
  (0 < b)%Z -> (0 < cl)%Z -> (0 <= E)%Z ->
  Shape.reshape [b; (cl * E)%Z] [b; cl; (-1)%Z] = Ok [b; cl; E].
Proof.
  intros Hb Hc HE. unfold Shape.reshape. cbn [existsb].
  replace (b <? -1)%Z with false by (symmetry; apply Z.ltb_ge; lia).
  replace (cl <? -1)%Z with false by (symmetry; apply Z.ltb_ge; lia).
  cbn [orb Z.ltb Z.compare Pos.compare Pos.compare_cont CompOpp]. 
  cbn [count_occ remove].
  destruct (Z.eq_dec b (-1)); [lia|]. destruct (Z.eq_dec cl (-1)); [lia|].
  destruct (Z.eq_dec (-1) (-1)); [|congruence].
  destruct (Z.eq_dec (-1) b); [lia|]. destruct (Z.eq_dec (-1) cl); [lia|].
  unfold Shape.numel. cbn [fold_right map].
  rewrite !Z.mul_1_r.
  destruct (b * cl =? 0)%Z eqn:E0; [apply Z.eqb_eq in E0; nia|].
  replace (b * (cl * E))%Z with (E * (b * cl))%Z by ring.
  rewrite Z.mod_mul, Z.div_mul by nia. cbn [Z.eqb].
  replace (b =? -1)%Z with false by (symmetry; apply Z.eqb_neq; lia).
  replace (cl =? -1)%Z with false by (symmetry; apply Z.eqb_neq; lia).
  reflexivity.
Qed.

Lemma reshape_infer_first s b pl E :
  (0 < pl)%Z -> (0 < E)%Z -> (0 <= b)%Z ->
  Shape.numel s = (b * (pl * E))%Z ->
  Shape.reshape s [(-1)%Z; pl; E] = Ok [b; pl; E].
Proof.
  intros Hp HE Hb Hs. unfold Shape.reshape. cbn [existsb].
  replace (pl <? -1)%Z with false by (symmetry; apply Z.ltb_ge; lia).
  replace (E <? -1)%Z with false by (symmetry; apply Z.ltb_ge; lia).
  cbn [orb Z.ltb Z.compare Pos.compare Pos.compare_cont CompOpp].
  cbn [count_occ remove].
  destruct (Z.eq_dec pl (-1)); [lia|]. destruct (Z.eq_dec E (-1)); [lia|].
  destruct (Z.eq_dec (-1) (-1)); [|congruence].
  destruct (Z.eq_dec (-1) pl); [lia|]. destruct (Z.eq_dec (-1) E); [lia|].
  rewrite Hs. unfold Shape.numel. cbn [fold_right map].
  rewrite !Z.mul_1_r.
  destruct (pl * E =? 0)%Z eqn:E0; [apply Z.eqb_eq in E0; nia|].
  rewrite Z.mod_mul, Z.div_mul by nia. cbn [Z.eqb].
  replace (pl =? -1)%Z with false by (symmetry; apply Z.eqb_neq; lia).
  replace (E =? -1)%Z with false by (symmetry; apply Z.eqb_neq; lia).
  reflexivity.
Qed.

Section MapperShapes.

Variables (b E : Z).
Hypothesis Hb : (0 < b)%Z.
Hypothesis HE : (0 < E)%Z.
Hypothesis H8 : (E mod 8 = 0)%Z.

Lemma eight_divides : (8 * (E / 8) = E)%Z.
Proof. pose proof (Z.div_mod E 8 ltac:(lia)). lia. Qed.

Lemma attention_forward_shape n :
  (0 < n)%Z ->
  Attention.forward (Attention.mkMHA 8 E E) [b; n; E] None
  = Ok ([b; n; E], [b; n; n; 8%Z]).
Proof.
  intros Hn. unfold Attention.forward.
  cbn [Attention.num_heads Attention.dim_self Attention.dim_ref Z.eqb].
  assert (Hq : (0 <= E / 8)%Z) by (apply Z.div_pos; lia).
  pose proof eight_divides as H8'.
  rewrite !linear_3d. cbn [bind].
  rewrite reshape_exact by (repeat constructor; lia).
  replace (Shape.numel [b; n; 8%Z; (E / 8)%Z]) with (Shape.numel [b; n; E])
    by (unfold Shape.numel; cbn [fold_right]; nia).
  rewrite Z.eqb_refl. cbn [bind].
  rewrite reshape_exact by (repeat constructor; lia).
  replace (Shape.numel [b; n; 2%Z; 8%Z; (E / 8)%Z]) with (Shape.numel [b; n; (E * 2)%Z])
    by (unfold Shape.numel; cbn [fold_right]; nia).
  rewrite Z.eqb_refl. cbn [bind].
  rewrite reshape_exact by (repeat constructor; lia).
  replace (Shape.numel [b; n; 8%Z; (E / 8)%Z]) with (Shape.numel [b; n; E])
    by (unfold Shape.numel; cbn [fold_right]; nia).
  rewrite Z.eqb_refl. cbn [bind]. rewrite linear_3d. reflexivity.
Qed.

Lemma layer_forward_shape n :
  (0 < n)%Z ->
  Mapper.TransformerLayer_forward (plain_layer E) [b; n; E] None = Ok [b; n; E].
Proof.
  intros Hn. unfold Mapper.TransformerLayer_forward, plain_layer.
  cbn [Mapper.norm_dim Mapper.attn Mapper.h_dim].
  unfold Shape.layer_norm. cbn [rev app]. rewrite Z.eqb_refl. cbn [bind].
  rewrite (@attention_forward_shape n Hn). cbn [bind fst].
  rewrite add_same. cbn [bind]. cbn [rev app]. rewrite Z.eqb_refl. cbn [bind].
  unfold Mapper.MlpTransformer_forward. rewrite !linear_3d. cbn [bind].
  rewrite linear_3d. apply add_same.
Qed.

Lemma build_layers_plain i k :
  Mapper.build_layers E E 8 false i k = Ok (repeat (plain_layer E) k).
Proof.
  revert i; induction k as [|k IH]; intros i; simpl; [reflexivity|].
  rewrite andb_false_r. unfold Mapper.TransformerLayer_init, Attention.init.
  cbn [Z.eqb].
  pose proof eight_divides as H8'.
  destruct (E / 8 =? 0)%Z eqn:E0; [apply Z.eqb_eq in E0; lia|].
  destruct (E <? 0)%Z eqn:E1; [apply Z.ltb_lt in E1; lia|].
  cbn [orb bind]. rewrite IH. reflexivity.
Qed.

Lemma run_layers_plain i k n :
  (0 < n)%Z ->
  Mapper.run_layers false i (repeat (plain_layer E) k) [b; n; E] None = Ok [b; n; E].
Proof.
  intros Hn. revert i; induction k as [|k IH]; intros i; simpl; [reflexivity|].
  rewrite andb_false_r, (@layer_forward_shape n Hn). cbn [bind]. apply IH.
Qed.

End MapperShapes.

Lemma transformer_mapper_shape (b E pl cl dim_clip : Z) (num_layers : nat) :
  (0 < b)%Z -> (0 < E)%Z -> (E mod 8 = 0)%Z -> (0 < pl)%Z -> (0 < cl)%Z ->
  (0 <= dim_clip)%Z ->
  exists m,
    Mapper.TransformerMapper_init dim_clip E pl cl num_layers = Ok m
    /\ Mapper.TransformerMapper_forward m [b; dim_clip] = Ok [b; pl; E].
Proof.
  intros Hb HE H8 Hp Hc Hd.
  unfold Mapper.TransformerMapper_init, Mapper.Transformer_init.
  rewrite (@build_layers_plain E HE H8 0 num_layers). cbn [bind].
  destruct (dim_clip <? 0)%Z eqn:E1; [apply Z.ltb_lt in E1; lia|].
  destruct (cl * E <? 0)%Z eqn:E2; [apply Z.ltb_lt in E2; nia|].
  destruct (pl <? 0)%Z eqn:E3; [apply Z.ltb_lt in E3; lia|].
  destruct (E <? 0)%Z eqn:E4; [apply Z.ltb_lt in E4; lia|].
  cbn [orb]. eexists. split; [reflexivity|].
  unfold Mapper.TransformerMapper_forward.
  cbn [Mapper.linear_in Mapper.linear_out Mapper.clip_length Mapper.prefix_const
       Mapper.transformer].
  unfold Shape.linear at 1. cbn [rev app]. rewrite Z.eqb_refl. cbn [removelast app bind].
  rewrite reshape_infer_last by lia. cbn [bind].
  unfold Shape.cat1. rewrite !Z.eqb_refl. cbn [andb bind].
  unfold Mapper.Transformer_forward. cbn [Mapper.enc_dec Mapper.layers].
  rewrite (@run_layers_plain b E Hb HE H8 0 num_layers (cl + pl)%Z) by lia.
  cbn [bind]. unfold Shape.slice_from1. do 3 f_equal. lia.
Qed.

Lemma mlp_shape (b E pl prefix_size : Z) :
  Mapper.MLP_forward [prefix_size; (E * pl / 2)%Z; (E * pl)%Z] [b; prefix_size]
  = Ok [b; (E * pl)%Z].
Proof.
  cbn [Mapper.MLP_forward]. unfold Shape.linear at 1. cbn [rev app].
  rewrite Z.eqb_refl. cbn [removelast app bind].
  unfold Shape.linear. cbn [rev app]. rewrite Z.eqb_refl. reflexivity.
Qed.

(** C6 (as amended). For a non-empty batch and positive [prefix_length],
    [clip_length] and embedding width: the Transformer mapper (whose eight
    heads need the width to be a multiple of 8) returns shape
    [(batch, prefix_length, embedding_dim)] for every [clip_length]; the MLP
    mapper returns the flat shape [(batch, prefix_length * embedding_dim)];
    and [prefix_projections], the view taken in [ClipCaptionModel.forward],
    has shape [(batch, prefix_length, embedding_dim)] for both variants. *)
Theorem C6_prefix_shapes (b E pl cl prefix_size : Z) (num_layers : nat) :
  (0 < b)%Z -> (0 < E)%Z -> (0 < pl)%Z -> (0 < cl)%Z -> (0 <= prefix_size)%Z ->
  ((E mod 8 = 0)%Z ->
   exists m,
     Mapper.ClipCaptionModel_init E pl cl prefix_size num_layers Mapper.TransformerT
     = Ok m
     /\ Mapper.clip_project_forward (Mapper.clip_project m) [b; prefix_size]
        = Ok [b; pl; E]
     /\ Mapper.prefix_projections m [b; prefix_size] = Ok [b; pl; E])
  /\ exists m,
       Mapper.ClipCaptionModel_init E pl cl prefix_size num_layers Mapper.MLP = Ok m
       /\ Mapper.clip_project_forward (Mapper.clip_project m) [b; prefix_size]
          = Ok [b; (E * pl)%Z]
       /\ Mapper.prefix_projections m [b; prefix_size] = Ok [b; pl; E].
Proof.
  intros Hb HE Hp Hc Hs. split.
  - intros H8.
    destruct (@transformer_mapper_shape b E pl cl prefix_size num_layers)
      as (tm & Hinit & Hfwd); try assumption.
    unfold Mapper.ClipCaptionModel_init. rewrite Hinit. cbn [bind].
    eexists. split; [reflexivity|].
    unfold Mapper.prefix_projections.
    cbn [Mapper.clip_project Mapper.prefix_length Mapper.gpt_embedding_size
         Mapper.clip_project_forward].
    rewrite Hfwd. split; [reflexivity|]. cbn [bind].
    apply reshape_infer_first; try lia.
    unfold Shape.numel. cbn [fold_right]. ring.
  - unfold Mapper.ClipCaptionModel_init.
    destruct (prefix_size <? 0)%Z eqn:E1; [apply Z.ltb_lt in E1; lia|].
    destruct (E * pl <? 0)%Z eqn:E2; [apply Z.ltb_lt in E2; nia|].
    cbn [orb]. eexists. split; [reflexivity|].
    unfold Mapper.prefix_projections.
    cbn [Mapper.clip_project Mapper.prefix_length Mapper.gpt_embedding_size
         Mapper.clip_project_forward].
    rewrite mlp_shape. split; [reflexivity|]. cbn [bind].
    apply reshape_infer_first; try lia.
    unfold Shape.numel. cbn [fold_right]. ring.
Qed.

Lemma C6_prefix_shapes_witness :
  (exists m,
     Mapper.ClipCaptionModel_init 768 10 10 512 8 Mapper.TransformerT = Ok m
     /\ Mapper.clip_project_forward (Mapper.clip_project m) [32; 512]%Z
        = Ok [32; 10; 768]%Z
     /\ Mapper.prefix_projections m [32; 512]%Z = Ok [32; 10; 768]%Z)
  /\ exists m,
       Mapper.ClipCaptionModel_init 768 10 10 512 8 Mapper.MLP = Ok m
       /\ Mapper.clip_project_forward (Mapper.clip_project m) [32; 512]%Z
          = Ok [32; 7680]%Z
       /\ Mapper.prefix_projections m [32; 512]%Z = Ok [32; 10; 768]%Z.
Proof.
  destruct (@C6_prefix_shapes 32 768 10 10 512 8) as [HT HM]; try lia.
  split; [apply HT; reflexivity | exact HM].
Defined.

(** C6 as stated fails for the MLP variant: the module itself returns a
    2-D tensor. *)
Lemma C6_counterexample :
  ~ (forall (b E pl cl prefix_size : Z) (num_layers : nat)
            (mapping_type : Mapper.MappingType) m,
        (0 < b)%Z -> (0 < E)%Z -> (E mod 8 = 0)%Z -> (0 < pl)%Z -> (0 < cl)%Z ->
        (0 <= prefix_size)%Z ->
        Mapper.ClipCaptionModel_init E pl cl prefix_size num_layers mapping_type
        = Ok m ->
        Mapper.clip_project_forward (Mapper.clip_project m) [b; prefix_size]
        = Ok [b; pl; E]).
Proof.
  intros H.
  specialize (H 1 8 2 2 4 1%nat Mapper.MLP _ eq_refl eq_refl eq_refl eq_refl
                eq_refl ltac:(discriminate) eq_refl)%Z.
  discriminate H.
Qed.

(** ** Prefix-only fine-tuning *)

Lemma train_all_params (mode : bool) (m : NN.NNModule) :
  NN.all_params (NN.train mode m) = NN.all_params m.
Proof.
  revert m. fix rec 1. intros [t own children]. simpl. f_equal.
  induction children as [|c cs IH]; simpl; [reflexivity|].
  now rewrite rec, IH.
Qed.

Lemma eval_in_eval_mode (m : NN.NNModule) :
  NN.in_eval_mode (NN.eval m) = true.
Proof.
  revert m. fix rec 1. intros [t own children]. simpl.
  induction children as [|c cs IH]; simpl; [reflexivity|].
  change (NN.train false c) with (NN.eval c).
  now rewrite rec, IH.
Qed.

Lemma train_parameters mode m : NN.parameters (NN.train mode m) = NN.parameters m.
Proof. unfold NN.parameters. now rewrite train_all_params. Qed.

(** C9. In prefix-only mode [parameters()] is exactly the parameter list
    of [clip_project]; when the language model shares no parameter with the
    mapper, none of its parameters is yielded; after [train(mode)], for
    either [mode], every module of the GPT-2 subtree is in evaluation mode,
    while its parameters, and the parameters exposed, are what they were. *)
Theorem C9_prefix_only (self : NN.ClipCaptionModel) (mode : bool) :
  (forall p, In p (NN.parameters (NN.gpt self)) ->
             ~ In p (NN.parameters (NN.clip_project self))) ->
  NN.ClipCaptionPrefix_parameters self = NN.parameters (NN.clip_project self)
  /\ (forall p, In p (NN.parameters (NN.gpt self)) ->
                ~ In p (NN.ClipCaptionPrefix_parameters self))
  /\ NN.in_eval_mode (NN.gpt (NN.ClipCaptionPrefix_train mode self)) = true
  /\ NN.parameters (NN.gpt (NN.ClipCaptionPrefix_train mode self))
     = NN.parameters (NN.gpt self)
  /\ NN.ClipCaptionPrefix_parameters (NN.ClipCaptionPrefix_train mode self)
     = NN.ClipCaptionPrefix_parameters self.
Proof.
  intros Hdisj. split; [reflexivity|]. split; [exact Hdisj|].
  unfold NN.ClipCaptionPrefix_train, NN.ClipCaptionModel_train,
    NN.ClipCaptionPrefix_parameters. cbn [NN.gpt NN.clip_project NN.training].
  split; [apply eval_in_eval_mode|].
  unfold NN.eval. now rewrite !train_parameters.
Qed.

Lemma C9_prefix_only_witness :
  let self := NN.mkModel false
                (NN.Mk false [0; 1] [NN.Mk false [2] []; NN.Mk false [0] []])
                (NN.Mk false [10; 11] [NN.Mk false [12] []]) in
  NN.ClipCaptionPrefix_parameters self = [10; 11; 12]
  /\ NN.in_eval_mode (NN.gpt (NN.ClipCaptionPrefix_train true self)) = true
  /\ NN.parameters (NN.gpt (NN.ClipCaptionPrefix_train true self)) = [0; 1; 2].
Proof.
  intros self.
  destruct (@C9_prefix_only self true) as (Hp & _ & He & Hg & _).
  - intros p Hin. vm_compute in Hin. vm_compute. intuition lia.
  - rewrite Hp, He, Hg. repeat split.
Defined.

(** ** The multi-task scheduler *)

Section Scheduler.

Variables Model BatchIC BatchVQA : Type.
Variable loss_ic : Model -> BatchIC -> R.
Variable loss_vqa : Model -> BatchVQA -> R.
Variable optimizer_step : Model -> BatchIC -> BatchVQA -> Model.
Variable batch_dim_ic : BatchIC -> Z.
Variable batch_dim_vqa : BatchVQA -> Z.

#[local] Abbreviation epoch_loop := (MTL.epoch_loop loss_ic loss_vqa optimizer_step batch_dim_ic batch_dim_vqa).
#[local] Abbreviation paired_step := (MTL.paired_step loss_ic loss_vqa optimizer_step batch_dim_ic batch_dim_vqa).

Lemma epoch_loop_pairs ic vqa st :
  epoch_loop ic vqa st
  = fold_left (fun st p => paired_step st (fst p) (snd p)) (combine ic vqa) st.
Proof.
  revert vqa st; induction ic as [|a ic IH]; intros [|v vqa] st; simpl; auto.
Qed.

Lemma epoch_loop_steps ic vqa st :
  MTL.scheduler_steps (epoch_loop ic vqa st)
  = (MTL.scheduler_steps st + Nat.min (length ic) (length vqa))%nat.
Proof.
  revert vqa st; induction ic as [|a ic IH]; intros [|v vqa] st; simpl; try lia.
  rewrite IH. simpl. lia.
Qed.

End Scheduler.

(** C5. One epoch of the multi-task loop runs the paired step on the
    batches of the two loaders taken in lockstep (the pairs of [combine]),
    and so advances the scheduler by exactly
    [min(#captioning batches, #question-answering batches)] steps. *)
Theorem C5_paired_steps
  (Model BatchIC BatchVQA : Type)
  (loss_ic : Model -> BatchIC -> R) (loss_vqa : Model -> BatchVQA -> R)
  (optimizer_step : Model -> BatchIC -> BatchVQA -> Model)
  (batch_dim_ic : BatchIC -> Z) (batch_dim_vqa : BatchVQA -> Z)
  (train_dataloader_ic : list BatchIC) (train_dataloader_vqa : list BatchVQA)
  (st : MTL.state Model) :
  let st' := MTL.epoch_loop loss_ic loss_vqa optimizer_step batch_dim_ic
               batch_dim_vqa train_dataloader_ic train_dataloader_vqa st in
  st' = fold_left
          (fun s p => MTL.paired_step loss_ic loss_vqa optimizer_step batch_dim_ic
                        batch_dim_vqa s (fst p) (snd p))
          (combine train_dataloader_ic train_dataloader_vqa) st
  /\ MTL.scheduler_steps st'
     = (MTL.scheduler_steps st
        + Nat.min (length train_dataloader_ic) (length train_dataloader_vqa))%nat.
Proof.
  split; [apply epoch_loop_pairs | apply epoch_loop_steps].
Qed.

(** Ten captioning batches against seven question-answering batches:
    seven paired steps. *)
Example ten_and_seven_batches :
  MTL.scheduler_steps
    (MTL.epoch_loop (fun (_ : unit) (_ : nat) => 0%R) (fun (_ : unit) (_ : nat) => 0%R)
       (fun m _ _ => m) (fun _ => 32%Z) (fun _ => 32%Z)
       (seq 0 10) (seq 0 7) (MTL.initial tt)) = 7%nat.
Proof. reflexivity. Qed.

(** ** Reported per-task averages *)

(** What [epoch] reports, for any loaders: both averages are divided by
    the number of captioning batches. *)
Lemma epoch_reports
  (Model BatchIC BatchVQA : Type)
  (loss_ic : Model -> BatchIC -> R) (loss_vqa : Model -> BatchVQA -> R)
  (optimizer_step : Model -> BatchIC -> BatchVQA -> Model)
  (batch_dim_ic : BatchIC -> Z) (batch_dim_vqa : BatchVQA -> Z)
  (ic : list BatchIC) (vqa : list BatchVQA) (st st' : MTL.state Model) :
  MTL.epoch loss_ic loss_vqa optimizer_step batch_dim_ic batch_dim_vqa ic vqa st
  = Some st' ->
  MTL.avg_train_loss_ic st'
  = MTL.avg_train_loss_ic st ++ [(MTL.train_loss_ic st' / IZR (Py.len ic))%R]
  /\ MTL.avg_train_loss_vqa st'
     = MTL.avg_train_loss_vqa st ++ [(MTL.train_loss_vqa st' / IZR (Py.len ic))%R].
Proof.
  unfold MTL.epoch, MTL.fdiv.
  destruct (Py.len ic =? 0)%Z; [discriminate|].
  intros [= <-]. simpl.
  assert (F : forall a v s,
    MTL.avg_train_loss_ic
      (MTL.epoch_loop loss_ic loss_vqa optimizer_step batch_dim_ic batch_dim_vqa a v s)
    = MTL.avg_train_loss_ic s
    /\ MTL.avg_train_loss_vqa
      (MTL.epoch_loop loss_ic loss_vqa optimizer_step batch_dim_ic batch_dim_vqa a v s)
    = MTL.avg_train_loss_vqa s).
  { induction a as [|x a IH]; intros [|y v] s; simpl; auto.
    destruct (IH v (MTL.paired_step loss_ic loss_vqa optimizer_step batch_dim_ic
                      batch_dim_vqa s x y)) as [-> ->]. auto. }
  destruct (F ic vqa st) as [-> ->]. auto.
Qed.

(** C4, the code at the failing input. With two captioning batches and
    one question-answering batch (loss 3), the reported question-answering
    average of the epoch is 3 / 2: the accumulated sum divided by the
    number of captioning batches, not 3 / 1 as the claim has it. *)
Theorem C4_vqa_average_divided_by_ic_length :
  exists st,
    C4_run = Some st
    /\ MTL.train_loss_vqa st = (0 + 3)%R
    /\ MTL.avg_train_loss_vqa st = [((0 + 3) / 2)%R]
    /\ MTL.avg_train_loss_vqa st
       <> [(MTL.train_loss_vqa st / IZR (Py.len [0]%nat))%R].
Proof.
  eexists. split; [reflexivity|]. cbn [MTL.train_loss_vqa MTL.avg_train_loss_vqa].
  split; [reflexivity|]. split; [reflexivity|].
  intros H. injection H as H. cbn in H. lra.
Qed.

(** ** Greedy choice and monotone transforms, in exact arithmetic *)

Lemma argmax_from_increasing (f : R -> R) :
  (forall x y, (x < y)%R -> (f x < f y)%R) ->
  forall l best_i best i,
    Greedy.argmax_from best_i (f best) i (map f l)
    = Greedy.argmax_from best_i best i l.
Proof.
  intros Hf. induction l as [|x t IH]; intros best_i best i; simpl; [reflexivity|].
  destruct (Rlt_dec best x) as [L | L], (Rlt_dec (f best) (f x)) as [L' | L'].
  - apply IH.
  - exfalso. apply L'. now apply Hf.
  - exfalso. destruct (Rtotal_order x best) as [H | [H | H]].
    + apply Hf in H. lra.
    + subst. lra.
    + contradiction.
  - apply IH.
Qed.

Lemma topk1_increasing (f : R -> R) row :
  (forall x y, (x < y)%R -> (f x < f y)%R) ->
  Greedy.topk1 (map f row) = Greedy.topk1 row.
Proof.
  intros Hf. destruct row as [|x t]; simpl; [reflexivity|].
  now rewrite argmax_from_increasing.
Qed.

Lemma sum_exp_pos (l : list R) : l <> [] -> (0 < Torch.sum (map exp l))%R.
Proof.
  intros Hne. destruct l as [|x t]; [congruence|]. clear Hne.
  revert x; induction t as [|y t IH]; intros x; simpl.
  - pose proof (exp_pos x). lra.
  - pose proof (exp_pos x). specialize (IH y). simpl in IH. lra.
Qed.

(** In exact arithmetic the claim of C10 holds: as functions of real
    numbers the division by a temperature above zero, the softmax and the
    logarithm are strictly increasing, so the first greatest entry stays
    where it is. *)
Lemma exact_arithmetic_keeps_the_choice (temperature : R) (logits : list R) :
  (0 < temperature)%R ->
  Greedy.next_token temperature logits = Greedy.topk1 logits.
Proof.
  intros HT. unfold Greedy.next_token, Greedy.log, Greedy.softmax.
  destruct logits as [|x0 t0] eqn:Erow; [reflexivity|]. rewrite <- Erow.
  assert (Hne : Greedy.scale temperature logits <> []).
  { rewrite Erow. discriminate. }
  pose proof (sum_exp_pos Hne) as HS.
  set (S := Torch.sum (map exp (Greedy.scale temperature logits))) in *.
  unfold Greedy.scale. rewrite !map_map.
  destruct (Rlt_dec 0 temperature) as [_ | C]; [|contradiction].
  apply topk1_increasing. intros x y Hxy.
  apply ln_increasing.
  - apply Rdiv_lt_0_compat; [apply exp_pos | exact HS].
  - apply Rmult_lt_compat_r; [now apply Rinv_0_lt_compat|].
    apply exp_increasing. apply Rmult_lt_compat_r; [now apply Rinv_0_lt_compat|].
    exact Hxy.
Qed.

(** ** The choice on float32 tensors *)







Example topk1_example : Greedy.topk1 [1; 5; 3; 5]%R = Some 1%nat.
Proof.
  simpl.
  destruct (Rlt_dec 1 5) as [_ | C]; [|exfalso; lra].
  destruct (Rlt_dec 5 3) as [C | _]; [exfalso; lra|].
  destruct (Rlt_dec 5 5) as [C | _]; [exfalso; lra|].
  reflexivity.
Qed.

(** ** The decoding loop *)

Lemma nth_error_zip_with {A B C} (f : A -> B -> C) l1 l2 i :
  nth_error (Decoder.zip_with f l1 l2) i
  = match nth_error l1 i, nth_error l2 i with
    | Some a, Some b => Some (f a b)
    | _, _ => None
    end.
Proof.
  revert l2 i; induction l1 as [|a t IH]; intros [|b l2] [|i]; simpl; auto.
  - now destruct (nth_error t i).
Qed.

Lemma length_zip_with {A B C} (f : A -> B -> C) l1 l2 :
  length (Decoder.zip_with f l1 l2) = Nat.min (length l1) (length l2).
Proof.
  revert l2; induction l1 as [|a t IH]; intros [|b l2]; simpl; auto.
Qed.

Lemma traverse_total {A B} (f : A -> option B) l :
  (forall a, In a l -> f a <> None) ->
  exists r, Decoder.traverse f l = Some r /\ length r = length l.
Proof.
  induction l as [|a t IH]; intros H; simpl.
  - exists []. auto.
  - destruct (f a) as [b|] eqn:E; [|exfalso; apply (H a); simpl; auto].
    destruct IH as (r & Er & Hr); [intros; apply H; simpl; auto|].
    rewrite Er. exists (b :: r). simpl. auto.
Qed.

Section DecoderProps.

Variable batch_size : nat.
Variables stop eos : Z.
Variable temperature : R.
Variable lm_logits : list (list Z) -> nat -> list R.
Hypothesis vocab : forall g s, lm_logits g s <> [].

#[local] Abbreviation body := (Decoder.body batch_size stop eos temperature lm_logits).
#[local] Abbreviation iterate := (Decoder.iterate batch_size stop eos temperature lm_logits).
#[local] Abbreviation loop := (Decoder.loop batch_size stop eos temperature lm_logits).
#[local] Abbreviation is_stop := (Decoder.is_stop stop eos).
#[local] Abbreviation inv := (decoder_inv batch_size stop eos).

Lemma next_token_total row : row <> [] -> Greedy.next_token temperature row <> None.
Proof.
  intros Hne. unfold Greedy.next_token, Greedy.log, Greedy.softmax, Greedy.scale.
  destruct row as [|x t]; [congruence|]. simpl. discriminate.
Qed.

Lemma next_tokens_total g :
  exists nt, Decoder.next_tokens batch_size temperature lm_logits g = Some nt
             /\ length nt = batch_size.
Proof.
  unfold Decoder.next_tokens.
  destruct (@traverse_total nat Z
              (fun s => option_map Z.of_nat
                          (Greedy.next_token temperature (lm_logits g s)))
              (seq 0 batch_size)) as (r & Hr & Hl).
  - intros s _. pose proof (@next_token_total (lm_logits g s) (@vocab g s)).
    destruct (Greedy.next_token temperature (lm_logits g s)); simpl; congruence.
  - exists r. rewrite length_seq in Hl. auto.
Qed.

Lemma inv_initial : inv 0 (Decoder.initial batch_size).
Proof.
  unfold decoder_inv, Decoder.initial. cbn [Decoder.seq_lengths Decoder.is_stopped Decoder.tokens].
  rewrite !repeat_length. repeat split; auto.
  intros s Hs. exists 1%Z. unfold Decoder.row. cbn.
  rewrite !nth_error_repeat by assumption. repeat split; auto; lia.
Qed.

(** One run of the body, seen from sequence [s]. *)
Lemma body_step k st :
  inv k st ->
  exists st',
    body st = Some st'
    /\ inv (S k) st'
    /\ forall s, (s < batch_size)%nat ->
         (exists t, Decoder.row st' s = Decoder.row st s ++ [t])
         /\ (nth_error (Decoder.is_stopped st) s = Some true ->
             nth_error (Decoder.seq_lengths st') s = nth_error (Decoder.seq_lengths st) s
             /\ nth_error (Decoder.is_stopped st') s = Some true).
Proof.
  intros (Hseq & Hl1 & Hl2 & Htok).
  destruct (next_tokens_total (Decoder.generated st)) as (nt & Hnt & Hlen).
  unfold Decoder.body. rewrite Hnt. eexists. split; [reflexivity|].
  assert (Hrow : forall s, (s < batch_size)%nat ->
            exists t, nth_error nt s = Some t
              /\ Decoder.row (Decoder.mkState (Decoder.generated st ++ [nt])
                   (match Decoder.tokens st with
                    | None => Some (map (fun t => [t]) nt)
                    | Some rows => Some (Decoder.zip_with (fun row t => row ++ [t]) rows nt)
                    end)
                   (Decoder.zip_with (fun l (s : bool) => if s then l else (l + 1)%Z)
                      (Decoder.seq_lengths st) (Decoder.is_stopped st))
                   (Decoder.zip_with (fun s t => s || is_stop t) (Decoder.is_stopped st) nt)) s
                 = Decoder.row st s ++ [t]).
  { intros s Hs.
    destruct (nth_error nt s) as [t|] eqn:Et; [|apply nth_error_None in Et; lia].
    exists t. split; [reflexivity|]. unfold Decoder.row. cbn [Decoder.tokens].
    destruct (Decoder.tokens st) as [rows|].
    - destruct Htok as [Hr _].
      destruct (nth_error rows s) as [r|] eqn:Er; [|apply nth_error_None in Er; lia].
      rewrite (nth_error_nth rows s [] Er).
      apply nth_error_nth. now rewrite nth_error_zip_with, Er, Et.
    - apply nth_error_nth. now rewrite nth_error_map, Et. }
  split; [|intros s Hs].
  - unfold decoder_inv. cbn [Decoder.seq_lengths Decoder.is_stopped Decoder.tokens].
    rewrite !length_zip_with, Hl1, Hl2, Hlen, Nat.min_id.
    split; [|split; [reflexivity|split; [reflexivity|]]].
    + intros s Hs. destruct (Hrow s Hs) as (t & Et & Hr).
      destruct (Hseq s Hs) as (l & E1 & E2 & E3 & E4 & E5).
      unfold seq_inv. rewrite Hr. cbn [Decoder.seq_lengths Decoder.is_stopped].
      rewrite !nth_error_zip_with, E1, E2, Et.
      rewrite existsb_app. cbn [existsb]. rewrite orb_false_r.
      eexists. split; [reflexivity|]. split; [reflexivity|].
      rewrite length_app, E3. cbn [length].
      split; [lia|].
      destruct (existsb is_stop (Decoder.row st s)) eqn:Eb; cbn [orb].
      * split; [discriminate|lia].
      * specialize (E4 eq_refl). split; intros; lia.
    + destruct (Decoder.tokens st) as [rows|].
      * destruct Htok as [Hr _]. rewrite length_zip_with, Hr, Hlen, Nat.min_id. lia.
      * rewrite length_map. lia.
  - destruct (Hrow s Hs) as (t & Et & Hr). split; [eauto|].
    intros Hst. cbn [Decoder.seq_lengths Decoder.is_stopped].
    destruct (Hseq s Hs) as (l & E1 & _).
    rewrite !nth_error_zip_with, E1, Hst, Et. auto.
Qed.

Lemma iterate_inv k : exists st, iterate k = Some st /\ inv k st.
Proof.
  induction k as [|k (st & E & I)]; simpl.
  - exists (Decoder.initial batch_size). split; [reflexivity | apply inv_initial].
  - rewrite E. destruct (body_step I) as (st' & Hb & I' & _). eauto.
Qed.

(** Along the iterations the rows only grow at the end, and a stopped
    sequence keeps its recorded length. *)
Lemma iterate_mono j k stj stk s :
  (j <= k)%nat -> (s < batch_size)%nat ->
  iterate j = Some stj -> iterate k = Some stk ->
  firstn j (Decoder.row stk s) = Decoder.row stj s
  /\ (nth_error (Decoder.is_stopped stj) s = Some true ->
      nth_error (Decoder.seq_lengths stk) s = nth_error (Decoder.seq_lengths stj) s
      /\ nth_error (Decoder.is_stopped stk) s = Some true).
Proof.
  intros Hjk Hs Ej. revert stk. induction Hjk as [|k Hjk IH]; intros stk Ek.
  - rewrite Ej in Ek. injection Ek as <-.
    destruct (iterate_inv j) as (st & E & I). rewrite Ej in E. injection E as <-.
    destruct I as (Hseq & _). destruct (Hseq s Hs) as (l & _ & _ & E3 & _).
    rewrite <- E3 at 1. rewrite firstn_all. auto.
  - destruct (iterate_inv k) as (st & E & I).
    destruct (IH st E) as [Hrow Hfrozen].
    destruct (body_step I) as (st' & Hb & _ & Hstep).
    simpl in Ek. rewrite E, Hb in Ek. injection Ek as <-.
    destruct (Hstep s Hs) as ((t & Ht) & Hkeep).
    destruct I as (Hseq & _). destruct (Hseq s Hs) as (l & _ & _ & E3 & _).
    split.
    + rewrite Ht, firstn_app, Hrow.
      replace (j - length (Decoder.row st s))%nat with 0%nat by lia.
      simpl. apply app_nil_r.
    + intros Hst. destruct (Hfrozen Hst) as [H1 H2].
      destruct (Hkeep H2) as [H3 H4]. split; congruence.
Qed.

(** [loop] is [iterate] at the number of iterations actually run. *)
Lemma loop_iterate n : forall j st,
  iterate j = Some st ->
  exists j' st',
    loop n st = Some st'
    /\ iterate j' = Some st'
    /\ (j <= j' <= j + n)%nat
    /\ ((0 < n)%nat -> (j < j')%nat)
    /\ (forall i sti, (j < i < j')%nat -> iterate i = Some sti ->
                      Decoder.all_stopped sti = false)
    /\ (j' = (j + n)%nat \/ Decoder.all_stopped st' = true).
Proof.
  induction n as [|n IH]; intros j st E.
  - exists j, st. simpl. repeat split; auto; try lia.
  - destruct (iterate_inv j) as (st0 & E0 & I). rewrite E in E0. injection E0 as <-.
    destruct (body_step I) as (st1 & Hb & _ & _).
    assert (E1 : iterate (S j) = Some st1) by (simpl; rewrite E; exact Hb).
    cbn [Decoder.loop]. rewrite Hb.
    fold (Decoder.all_stopped st1).
    destruct (Decoder.all_stopped st1) eqn:Eall.
    + exists (S j), st1. repeat split; auto; try lia.
    + destruct (IH (S j) st1 E1) as (j' & st' & Hl & Hi & Hb' & Hlt & Hmid & Hend).
      exists j', st'. repeat split; auto; try lia.
      * intros i sti Hi' Ei.
        destruct (Nat.eq_dec i (S j)) as [-> | Hne].
        -- rewrite E1 in Ei. now injection Ei as <-.
        -- apply (Hmid i sti); [lia | exact Ei].
      * destruct Hend as [-> | H]; [left; lia | right; exact H].
Qed.

Lemma all_stopped_nth st s :
  Decoder.all_stopped st = true ->
  nth_error (Decoder.is_stopped st) s = Some false -> False.
Proof.
  unfold Decoder.all_stopped. rewrite forallb_forall. intros H E.
  apply nth_error_In in E. apply H in E. discriminate.
Qed.

(** The loop capped at [k] has run at least to iteration [m] when a
    longer run got past [m]. *)
Lemma loop_reaches k m jn :
  (m <= k)%nat -> (m <= jn)%nat ->
  (forall i sti, (0 < i < jn)%nat -> iterate i = Some sti ->
                 Decoder.all_stopped sti = false) ->
  exists jk stk,
    loop k (Decoder.initial batch_size) = Some stk
    /\ iterate jk = Some stk /\ (m <= jk <= k)%nat.
Proof.
  intros Hmk Hmn Hmid.
  destruct (@loop_iterate k 0 (Decoder.initial batch_size) eq_refl)
    as (jk & stk & Hl & Hi & Hb & Hpos & _ & Hend).
  exists jk, stk. repeat split; auto; try lia.
  destruct Hend as [-> | Hall]; [lia|].
  destruct (Nat.le_gt_cases m jk) as [|Hlt]; [assumption|].
  assert (0 < jk)%nat by (apply Hpos; lia).
  rewrite (Hmid jk stk ltac:(lia) Hi) in Hall. discriminate.
Qed.

Lemma existsb_false {A} (f : A -> bool) l :
  (forall x, In x l -> f x = false) -> existsb f l = false.
Proof.
  induction l as [|a t IH]; intros H; simpl; [reflexivity|].
  rewrite (H a) by (simpl; auto). apply IH. intros; apply H; simpl; auto.
Qed.

(** The counter itself starts at one: a sequence that never stops is
    recorded with [1 + entry_length]. *)
Lemma recorded_length_running (entry_length s : nat) final :
  (s < batch_size)%nat ->
  loop entry_length (Decoder.initial batch_size) = Some final ->
  (forall tok, In tok (Decoder.row final s) -> is_stop tok = false) ->
  nth_error (Decoder.seq_lengths final) s = Some (1 + Z.of_nat entry_length)%Z.
Proof.
  intros Hs Hloop Hnone.
  destruct (@loop_iterate entry_length 0 (Decoder.initial batch_size) eq_refl)
    as (jn & final' & Hl & Hi & Hb & _ & _ & Hend).
  rewrite Hloop in Hl. injection Hl as <-.
  destruct (iterate_inv jn) as (st & E & I). rewrite Hi in E. injection E as <-.
  destruct I as (Hseq & _). destruct (Hseq s Hs) as (l & E1 & E2 & _ & E4 & _).
  rewrite (existsb_false _ _ Hnone) in *.
  destruct Hend as [-> | Hall].
  - rewrite E1, (E4 eq_refl). reflexivity.
  - exfalso. exact (all_stopped_nth _ _ Hall E2).
Qed.

(** C3. With a non-empty vocabulary, a step cap [entry_length >= 1] and
    the call made everywhere in the sources ([entry_count = 1], [embed]
    given, no tokens passed in), [generate_topk] returns, and for every
    sequence [s] of the batch: the ids it decodes number at most
    [entry_length]; if the token chosen at step [t] is the stop token or the
    end-of-sequence token, the recorded length after any [k > t] steps is
    the one recorded after step [t]; and if no such token is ever chosen,
    exactly [entry_length] ids are decoded. [generate_per_batch] on the CPU
    is this call at temperature 1 with the step cap 67; with CUDA it
    raises. *)
Theorem C3_decoded_lengths (entry_length s : nat) :
  (0 < entry_length)%nat -> (s < batch_size)%nat ->
  exists ids final decoded,
    Decoder.generate_topk_ids batch_size stop eos temperature lm_logits 1 entry_length
    = Some ids
    /\ Decoder.after batch_size stop eos temperature lm_logits entry_length = Some final
    /\ nth_error ids s = Some decoded
    /\ (length decoded <= entry_length)%nat
    /\ (forall t tok,
          nth_error (Decoder.row final s) t = Some tok -> is_stop tok = true ->
          forall k, (S t <= k)%nat ->
            exists stt stk,
              Decoder.after batch_size stop eos temperature lm_logits (S t) = Some stt
              /\ Decoder.after batch_size stop eos temperature lm_logits k = Some stk
              /\ nth_error (Decoder.seq_lengths stk) s
                 = nth_error (Decoder.seq_lengths stt) s)
    /\ ((forall tok, In tok (Decoder.row final s) -> is_stop tok = false) ->
        length decoded = entry_length)
    /\ Decoder.generate_per_batch_ids Torch.cpu batch_size stop eos lm_logits
       = Decoder.generate_topk_ids batch_size stop eos 1 lm_logits 1
           Decoder.max_length
    /\ Decoder.generate_per_batch_ids Torch.cuda batch_size stop eos lm_logits
       = None.
Proof.
  intros Hlen Hs.
  destruct (@loop_iterate entry_length 0 (Decoder.initial batch_size) eq_refl)
    as (jn & final & Hl & Hi & Hb & Hpos & Hmid & Hend).
  specialize (Hpos Hlen).
  destruct (iterate_inv jn) as (st & E & I). rewrite Hi in E. injection E as <-.
  pose proof I as (Hseq & Hl1 & Hl2 & Htok).
  destruct (Hseq s Hs) as (l & E1 & E2 & E3 & E4 & E5).
  destruct (Decoder.tokens final) as [rows|] eqn:Et; [|lia].
  destruct Htok as [Hrows _].
  destruct (nth_error rows s) as [r|] eqn:Er; [|apply nth_error_None in Er; lia].
  assert (Hrow : Decoder.row final s = r).
  { unfold Decoder.row. rewrite Et. now apply nth_error_nth. }
  rewrite Hrow in *.
  exists (Decoder.zip_with (fun output length => Py.slice_to output length)
            rows (Decoder.seq_lengths final)), final, (Py.slice_to r l).
  assert (Hout : Decoder.output_ids final
                 = Some (Decoder.zip_with (fun output length => Py.slice_to output length)
                           rows (Decoder.seq_lengths final))).
  { unfold Decoder.output_ids. now rewrite Et. }
  assert (Hslice : Py.slice_to r l = firstn (Z.to_nat l) r).
  { unfold Py.slice_to. destruct (0 <=? l)%Z eqn:E0; [reflexivity|].
    apply Z.leb_gt in E0. lia. }
  split; [|split; [|split; [|split; [|split; [|split; [|split]]]]]].
  - unfold Decoder.generate_topk_ids, Decoder.entries, Decoder.entry.
    change (Decoder.mkState [] (Decoder.tokens (Decoder.initial batch_size))
              (Decoder.seq_lengths (Decoder.initial batch_size))
              (Decoder.is_stopped (Decoder.initial batch_size)))
      with (Decoder.initial batch_size).
    now rewrite Hl, Hout.
  - exact Hl.
  - now rewrite nth_error_zip_with, Er, E1.
  - rewrite Hslice, length_firstn. lia.
  - intros t tok Htk Hstop k Hk. rewrite Hrow in Htk.
    assert (Ht : (t < jn)%nat).
    { rewrite <- E3. apply nth_error_Some. congruence. }
    destruct (@loop_reaches (S t) (S t) jn) as (jt & stt & Hlt & Hit & Hjt); try lia.
    { intros i sti Hi' Ei. apply (Hmid i sti); [lia | exact Ei]. }
    destruct (@loop_reaches k (S t) jn) as (jk & stk & Hlk & Hik & Hjk); try lia.
    { intros i sti Hi' Ei. apply (Hmid i sti); [lia | exact Ei]. }
    assert (jt = S t) by lia. subst jt.
    exists stt, stk. split; [exact Hlt|]. split; [exact Hlk|].
    destruct (@iterate_mono (S t) jn stt final s) as [Hpre _]; try assumption; try lia.
    rewrite Hrow in Hpre.
    destruct (iterate_inv (S t)) as (st' & E' & I'). rewrite Hit in E'. injection E' as <-.
    destruct I' as (Hseq' & _). destruct (Hseq' s Hs) as (l' & _ & E2' & _).
    assert (Hex : existsb is_stop (Decoder.row stt s) = true).
    { apply existsb_exists. exists tok. split; [|exact Hstop].
      rewrite <- Hpre. apply (@nth_error_In _ _ t).
      rewrite nth_error_firstn.
      destruct (t <? S t)%nat eqn:Elt; [exact Htk|apply Nat.ltb_ge in Elt; lia]. }
    rewrite Hex in E2'.
    destruct (@iterate_mono (S t) jk stt stk s) as [_ Hfr]; try assumption; try lia.
    apply Hfr. exact E2'.
  - intros Hnone. rewrite Hrow in Hnone.
    rewrite (existsb_false _ _ Hnone) in *.
    assert (jn = entry_length).
    { destruct Hend as [-> | Hall]; [lia|].
      exfalso. exact (all_stopped_nth _ _ Hall E2). }
    subst jn. rewrite Hslice, (E4 eq_refl).
    rewrite firstn_all2; lia.
  - unfold Decoder.generate_per_batch_ids, Decoder.generate_topk_ids,
      Decoder.entries, Decoder.entry.
    change (Decoder.mkState [] (Decoder.tokens (Decoder.initial batch_size))
              (Decoder.seq_lengths (Decoder.initial batch_size))
              (Decoder.is_stopped (Decoder.initial batch_size)))
      with (Decoder.initial batch_size).
    destruct (Decoder.loop batch_size stop eos 1 lm_logits Decoder.max_length
                (Decoder.initial batch_size)) as [st1|]; [|reflexivity].
    now destruct (Decoder.output_ids st1).
  - reflexivity.
Qed.

End DecoderProps.

Lemma C3_decoded_lengths_witness :
  (exists final,
     Decoder.generate_topk_ids 2 0 50256 1 (fun _ _ => [0%R]) 1 3
     = Some [[0]; [0]]%Z
     /\ Decoder.after 2 0 50256 1 (fun _ _ => [0%R]) 3 = Some final
     /\ Decoder.seq_lengths final = [2; 2]%Z
     /\ exists stt stk,
          Decoder.after 2 0 50256 1 (fun _ _ => [0%R]) 1 = Some stt
          /\ Decoder.after 2 0 50256 1 (fun _ _ => [0%R]) 3 = Some stk
          /\ nth_error (Decoder.seq_lengths stk) 0
             = nth_error (Decoder.seq_lengths stt) 0)
  /\ exists ids final decoded,
       Decoder.generate_topk_ids 2 13 50256 1 (fun _ _ => [0%R]) 1 50 = Some ids
       /\ Decoder.after 2 13 50256 1 (fun _ _ => [0%R]) 50 = Some final
       /\ nth_error ids 1 = Some decoded
       /\ (length decoded <= 50)%nat
       /\ ((forall tok, In tok (Decoder.row final 1) ->
                        Decoder.is_stop 13 50256 tok = false) ->
           length decoded = 50%nat).
Proof.
  split.
  - destruct (@C3_decoded_lengths 2 0 50256 1 (fun _ _ => [0%R])
                ltac:(intros g s H; discriminate H) 3 0 ltac:(lia) ltac:(lia))
      as (ids & final & decoded & Hids & Hfinal & _ & _ & Hstop & _).
    assert (Ef : Decoder.after 2 0 50256 1 (fun _ _ => [0%R]) 3
                 = Some (Decoder.mkState [[0; 0]%Z] (Some [[0]; [0]]%Z)
                           [2; 2]%Z [true; true])) by reflexivity.
    rewrite Ef in Hfinal. injection Hfinal as <-.
    eexists. split; [reflexivity|]. split; [exact Ef|]. split; [reflexivity|].
    apply (Hstop 0%nat 0%Z eq_refl eq_refl 3%nat). lia.
  - destruct (@C3_decoded_lengths 2 13 50256 1 (fun _ _ => [0%R])
                ltac:(intros g s H; discriminate H) 50 1 ltac:(lia) ltac:(lia))
      as (ids & final & decoded & Hids & Hfinal & Hnth & Hle & _ & Hnone & _).
    exists ids, final, decoded. auto.
Defined.

(** C3 as stated fails for [entry_count = 2]: the tokens and the recorded
    lengths are carried from one entry to the next, so with
    [entry_length = 1] the second entry decodes two ids. *)
Lemma C3_counterexample :
  ~ (forall (batch_size : nat) (stop eos : Z) (temperature : R)
            (lm_logits : list (list Z) -> nat -> list R)
            (entry_count entry_length s : nat) ids decoded,
        (forall g s, lm_logits g s <> []) ->
        Decoder.generate_topk_ids batch_size stop eos temperature lm_logits
          entry_count entry_length = Some ids ->
        nth_error ids s = Some decoded ->
        (length decoded <= entry_length)%nat).
Proof.
  intros H.
  specialize (H 1%nat 13%Z 50256%Z 1%R (fun _ _ => [0%R]) 2%nat 1%nat 0%nat
                [[0; 0]%Z] [0; 0]%Z
                ltac:(intros g s E; discriminate E) eq_refl eq_refl).
  simpl in H. lia.
Qed.

(** * Further properties *)

(** ** The captioning dataset, call after call *)

Lemma ge0_nonneg l : Forall (fun x => (0 <= x)%Z) l ->
  Torch.ge0 l = repeat true (length l) /\ Torch.zero_where_not l = l.
Proof.
  induction 1 as [|x t Hx _ [IH1 IH2]]; simpl; [auto|].
  unfold Torch.ge0, Torch.zero_where_not in *. simpl.
  destruct (0 <=? x)%Z eqn:E; [|apply Z.leb_gt in E; lia].
  now rewrite IH1, IH2.
Qed.

Lemma ge0_minus_ones n :
  Torch.ge0 (Torch.minus_ones n) = repeat false (Z.to_nat n)
  /\ Torch.zero_where_not (Torch.minus_ones n) = repeat 0%Z (Z.to_nat n).
Proof.
  unfold Torch.ge0, Torch.zero_where_not, Torch.minus_ones.
  induction (Z.to_nat n) as [|k [IH1 IH2]]; simpl; [auto|].
  now rewrite IH1, IH2.
Qed.

Lemma map_float_repeat b n :
  map Torch.float_of_bool (repeat b n) = repeat (Torch.float_of_bool b) n.
Proof. induction n; simpl; congruence. Qed.

Lemma nth_error_set_item_eq {A} (l : list A) i x :
  (i < length l)%nat -> nth_error (Py.set_item l i x) i = Some x.
Proof.
  revert i; induction l as [|h t IH]; intros [|i] H; simpl in *; try lia; auto.
  apply IH. lia.
Qed.

Lemma nth_error_set_item_neq {A} (l : list A) i j x :
  i <> j -> nth_error (Py.set_item l i x) j = nth_error l j.
Proof.
  revert i j; induction l as [|h t IH]; intros [|i] [|j] H; simpl; auto; try congruence.
Qed.

Lemma set_item_same {A} (l : list A) i x :
  nth_error l i = Some x -> Py.set_item l i x = l.
Proof.
  revert i; induction l as [|h t IH]; intros [|i] H; simpl in *; try congruence.
  f_equal. now apply IH.
Qed.

Lemma Forall_firstn {A} (P : A -> Prop) n l : Forall P l -> Forall P (firstn n l).
Proof.
  intros H. revert n; induction H; intros [|n]; simpl; auto.
Qed.

(** What the first call returns for a caption of real (non-negative)
    token ids. *)
Lemma pad_tokens_fresh d item tokens :
  nth_error (IC.captions_tokens d) item = Some tokens ->
  Forall (fun x => (0 <= x)%Z) tokens ->
  (0 <= IC.prefix_length d)%Z -> (0 <= IC.max_seq_len d)%Z ->
  let n := Py.len tokens in
  let msl := IC.max_seq_len d in
  let pre := repeat 1%Z (Z.to_nat (IC.prefix_length d)) in
  exists toks mask,
    IC.pad_tokens d item
    = Some (IC.mkDataset (IC.prefix_length d) msl
              (Py.set_item (IC.captions_tokens d) item toks), (toks, mask))
    /\ Forall (fun x => (0 <= x)%Z) toks
    /\ Py.len toks = msl
    /\ ((n <= msl)%Z ->
        toks = tokens ++ repeat 0%Z (Z.to_nat (msl - n))
        /\ mask = pre ++ repeat 1%Z (Z.to_nat n) ++ repeat 0%Z (Z.to_nat (msl - n)))
    /\ ((msl < n)%Z ->
        toks = firstn (Z.to_nat msl) tokens
        /\ mask = pre ++ repeat 1%Z (Z.to_nat msl)).
Proof.
  intros Ht Hnn Hp Hm n msl pre.
  unfold IC.pad_tokens. rewrite Ht, (ones_nonneg Hp). fold msl pre.
  do 2 eexists. split; [reflexivity|].
  pose proof (pad_or_truncate_length tokens Hm) as HL. fold msl in HL.
  unfold pad_or_truncate in *. fold n msl in HL |- *.
  destruct (msl - n >? 0)%Z eqn:E1.
  - apply Z.gtb_lt in E1.
    destruct (ge0_nonneg Hnn) as [G1 G2]. destruct (ge0_minus_ones (msl - n)) as [M1 M2].
    unfold Torch.ge0, Torch.zero_where_not in *. rewrite !map_app, G1, G2, M1, M2.
    rewrite !map_float_repeat. cbn [Torch.float_of_bool].
    split; [|split; [|split]].
    + apply Forall_app. split; [assumption|]. apply Forall_forall.
      intros x Hx. apply repeat_spec in Hx. lia.
    + unfold Py.len in *. rewrite length_app, repeat_length. lia.
    + intros _. split; [reflexivity|]. do 2 f_equal. f_equal. unfold n, Py.len. lia.
    + intros; lia.
  - rewrite Z.gtb_ltb in E1. apply Z.ltb_ge in E1.
    destruct (msl - n <? 0)%Z eqn:E2.
    + apply Z.ltb_lt in E2. unfold Py.slice_to in *.
      destruct (0 <=? msl)%Z eqn:E3; [|apply Z.leb_gt in E3; lia].
      assert (Hf : Forall (fun x => (0 <= x)%Z) (firstn (Z.to_nat msl) tokens))
        by now apply Forall_firstn.
      destruct (ge0_nonneg Hf) as [G1 G2].
      unfold Torch.ge0, Torch.zero_where_not in *. rewrite G1, G2, map_float_repeat.
      cbn [Torch.float_of_bool].
      split; [assumption|]. split; [exact HL|]. split; [intros; lia|].
      intros _. split; [reflexivity|]. do 2 f_equal. unfold Py.len in HL. lia.
    + apply Z.ltb_ge in E2. assert (n = msl) by lia.
      destruct (ge0_nonneg Hnn) as [G1 G2].
      unfold Torch.ge0, Torch.zero_where_not in *. rewrite G1, G2, map_float_repeat.
      cbn [Torch.float_of_bool].
      split; [assumption|]. split; [exact HL|]. split; [|intros; lia].
      intros _. replace (msl - n)%Z with 0%Z by lia. simpl. rewrite !app_nil_r.
      split; [reflexivity|]. do 2 f_equal. unfold n, Py.len. lia.
Qed.

(** X1. [ClipCocoDataset.pad_tokens] on a stored caption of non-negative
    token ids: a caption no longer than [max_seq_len] comes back followed
    by zeros up to [max_seq_len], with a mask of [prefix_length] ones, a
    one for every caption token and a zero for every padding position; a
    longer caption is cut to its first [max_seq_len] tokens and its mask
    is all ones. *)
Theorem X1_caption_mask_marks_real_tokens d item tokens :
  nth_error (IC.captions_tokens d) item = Some tokens ->
  Forall (fun x => (0 <= x)%Z) tokens ->
  (0 <= IC.prefix_length d)%Z -> (0 <= IC.max_seq_len d)%Z ->
  let n := Py.len tokens in
  let msl := IC.max_seq_len d in
  let pre := repeat 1%Z (Z.to_nat (IC.prefix_length d)) in
  exists d' toks mask,
    IC.pad_tokens d item = Some (d', (toks, mask))
    /\ ((n <= msl)%Z ->
        toks = tokens ++ repeat 0%Z (Z.to_nat (msl - n))
        /\ mask = pre ++ repeat 1%Z (Z.to_nat n) ++ repeat 0%Z (Z.to_nat (msl - n)))
    /\ ((msl < n)%Z ->
        toks = firstn (Z.to_nat msl) tokens
        /\ mask = pre ++ repeat 1%Z (Z.to_nat msl)).
Proof.
  intros Ht Hnn Hp Hm n msl pre.
  destruct (pad_tokens_fresh d item Ht Hnn Hp Hm) as (toks & mask & Hc & _ & _ & H1 & H2).
  eauto 10.
Qed.

Lemma X1_caption_mask_marks_real_tokens_witness :
  exists d',
    IC.pad_tokens (IC.mkDataset 2 4 [[5; 6]; [7; 8; 9; 10; 11]]%Z) 0
    = Some (d', ([5; 6; 0; 0], [1; 1; 1; 1; 0; 0])%Z)
    /\ exists d'',
      IC.pad_tokens (IC.mkDataset 2 4 [[5; 6]; [7; 8; 9; 10; 11]]%Z) 1
      = Some (d'', ([7; 8; 9; 10], [1; 1; 1; 1; 1; 1])%Z).
Proof.
  destruct (@X1_caption_mask_marks_real_tokens
              (IC.mkDataset 2 4 [[5; 6]; [7; 8; 9; 10; 11]]%Z) 0 [5; 6]%Z eq_refl)
    as (d' & toks & mask & Hc & Hshort & _).
  { repeat constructor; lia. } { simpl; lia. } { simpl; lia. }
  destruct (Hshort ltac:(vm_compute; intros H; discriminate H)) as [-> ->].
  exists d'. split; [exact Hc|].
  destruct (@X1_caption_mask_marks_real_tokens
              (IC.mkDataset 2 4 [[5; 6]; [7; 8; 9; 10; 11]]%Z) 1 [7; 8; 9; 10; 11]%Z eq_refl)
    as (d'' & toks & mask & Hc' & _ & Hlong).
  { repeat constructor; lia. } { simpl; lia. } { simpl; lia. }
  destruct (Hlong ltac:(vm_compute; reflexivity)) as [-> ->].
  exists d''. exact Hc'.
Defined.

(** X2. [pad_tokens] stores the padded tensor in [captions_tokens] and then
    writes the zeros into that same tensor, so a second call on the same
    item returns the same tokens with a mask that is all ones: from the
    second read of an item on, the padding positions are no longer
    masked. *)
Theorem X2_second_call_loses_padding_mask d item tokens d1 toks mask :
  nth_error (IC.captions_tokens d) item = Some tokens ->
  Forall (fun x => (0 <= x)%Z) tokens ->
  (0 <= IC.prefix_length d)%Z -> (0 <= IC.max_seq_len d)%Z ->
  IC.pad_tokens d item = Some (d1, (toks, mask)) ->
  IC.pad_tokens d1 item
  = Some (d1, (toks, repeat 1%Z (Z.to_nat (IC.prefix_length d))
                     ++ repeat 1%Z (Z.to_nat (IC.max_seq_len d)))).
Proof.
  intros Ht Hnn Hp Hm Hcall.
  destruct (pad_tokens_fresh d item Ht Hnn Hp Hm)
    as (toks' & mask' & Hc & Hnn' & Hlen & _ & _).
  cbv zeta in Hc. rewrite Hcall in Hc. injection Hc as -> <- <-.
  assert (Hi : (item < length (IC.captions_tokens d))%nat)
    by (apply nth_error_Some; congruence).
  set (d1 := IC.mkDataset (IC.prefix_length d) (IC.max_seq_len d)
               (Py.set_item (IC.captions_tokens d) item toks)).
  assert (Ht1 : nth_error (IC.captions_tokens d1) item = Some toks)
    by (apply nth_error_set_item_eq; exact Hi).
  destruct (pad_tokens_fresh d1 item Ht1 Hnn' Hp Hm)
    as (toks2 & mask2 & Hc2 & _ & _ & Hshort & _).
  cbv zeta in Hc2, Hshort. cbn [IC.max_seq_len IC.prefix_length d1] in Hshort.
  destruct (Hshort ltac:(lia)) as [E1 E2].
  rewrite Hlen, Z.sub_diag in E1, E2. simpl in E1, E2. rewrite app_nil_r in E1, E2.
  rewrite Hc2. subst toks2 mask2.
  rewrite (set_item_same _ _ Ht1). reflexivity.
Qed.

Lemma X2_second_call_loses_padding_mask_witness :
  exists d1,
    IC.pad_tokens (IC.mkDataset 2 4 [[5; 6]]%Z) 0
    = Some (d1, ([5; 6; 0; 0], [1; 1; 1; 1; 0; 0])%Z)
    /\ IC.pad_tokens d1 0 = Some (d1, ([5; 6; 0; 0], [1; 1; 1; 1; 1; 1])%Z).
Proof.
  eexists. split; [reflexivity|].
  apply (@X2_second_call_loses_padding_mask
           (IC.mkDataset 2 4 [[5; 6]]%Z) 0 [5; 6]%Z _ _ [1; 1; 1; 1; 0; 0]%Z eq_refl).
  - repeat constructor; lia.
  - simpl; lia.
  - simpl; lia.
  - reflexivity.
Defined.

(** X3. A call of [pad_tokens] changes the stored captions at the requested
    item only: that entry becomes the returned tokens and every other
    entry is the one it was. *)
Theorem X3_pad_tokens_rewrites_one_item d item d' toks mask :
  IC.pad_tokens d item = Some (d', (toks, mask)) ->
  nth_error (IC.captions_tokens d') item = Some toks
  /\ forall j, j <> item ->
       nth_error (IC.captions_tokens d') j = nth_error (IC.captions_tokens d) j.
Proof.
  unfold IC.pad_tokens.
  destruct (nth_error (IC.captions_tokens d) item) as [tokens|] eqn:E; [|discriminate].
  destruct (Torch.ones _); [|discriminate].
  intros [= <- <- _]. cbn [IC.captions_tokens]. split.
  - apply nth_error_set_item_eq. apply nth_error_Some. congruence.
  - intros j Hj. apply nth_error_set_item_neq. congruence.
Qed.

Lemma X3_pad_tokens_rewrites_one_item_witness :
  exists d',
    IC.pad_tokens (IC.mkDataset 2 4 [[5; 6]; [7]]%Z) 0
    = Some (d', ([5; 6; 0; 0], [1; 1; 1; 1; 0; 0])%Z)
    /\ nth_error (IC.captions_tokens d') 0 = Some [5; 6; 0; 0]%Z
    /\ nth_error (IC.captions_tokens d') 1 = Some [7]%Z.
Proof.
  eexists. split; [reflexivity|].
  destruct (@X3_pad_tokens_rewrites_one_item
              (IC.mkDataset 2 4 [[5; 6]; [7]]%Z) 0 _ _ _ eq_refl) as [H0 H1].
  split; [exact H0|]. rewrite (H1 1%nat ltac:(lia)). reflexivity.
Defined.

(** ** The question-answering masks, together *)

Lemma sum_repeat x n : fold_right Z.add 0%Z (repeat x n) = (x * Z.of_nat n)%Z.
Proof. induction n; cbn [repeat fold_right]; lia. Qed.

Lemma sum_app l1 l2 :
  fold_right Z.add 0%Z (l1 ++ l2)
  = (fold_right Z.add 0%Z l1 + fold_right Z.add 0%Z l2)%Z.
Proof. induction l1; simpl; lia. Qed.

Lemma Forall2_repeat {A} (R : A -> A -> Prop) x y n :
  R x y -> Forall2 R (repeat x n) (repeat y n).
Proof. intros H. induction n; simpl; constructor; auto. Qed.

(** X4. The two masks of [ClipCocoDataset_VQA.pad_tokens] and the returned
    tokens fit together: both masks have [prefix_length + max_seq_len]
    entries, the tokens have [max_seq_len], every position supervised by
    the loss mask is attended in the attention mask, and the number of
    supervised text positions is the answer length (end marker counted)
    when question and answer fit in [max_seq_len] and zero otherwise. *)
Theorem X4_qa_masks_agree
  (encode : string -> list Z) (self : VQA.ClipCocoDataset_VQA) (item : nat)
  self' toks mask mask4gpt temp_ans temp_q :
  VQA.pad_tokens encode self item = Some (self', (toks, mask, mask4gpt)) ->
  nth_error (VQA.answers self) item = Some temp_ans ->
  nth_error (VQA.questions self) item = Some temp_q ->
  (0 <= VQA.max_seq_len self)%Z ->
  let pl := VQA.prefix_length self in
  let msl := VQA.max_seq_len self in
  let q_len := Py.len (encode temp_q) in
  let a_len := (Py.len (encode temp_ans) + 1)%Z in
  Py.len mask = (pl + msl)%Z
  /\ Py.len mask4gpt = (pl + msl)%Z
  /\ Py.len toks = msl
  /\ Forall2 Z.le mask mask4gpt
  /\ fold_right Z.add 0%Z (skipn (Z.to_nat pl) mask)
     = (if (q_len + a_len <=? msl)%Z then a_len else 0%Z).
Proof.
  intros Hcall Ha Hq Hm pl msl q_len a_len.
  unfold VQA.pad_tokens in Hcall. rewrite Ha, Hq in Hcall.
  destruct (nth_error (VQA.captions_tokens self) item) as [tokens|]; [|discriminate].
  unfold Torch.ones in Hcall.
  destruct (VQA.prefix_length self <? 0)%Z eqn:Ep; [discriminate|].
  apply Z.ltb_ge in Ep. injection Hcall as _ <- <- <-.
  fold msl pl. unfold VQA.q_range, VQA.a_range. fold q_len a_len.
  assert (Hq0 : (0 <= q_len)%Z) by (unfold q_len, Py.len; lia).
  assert (Ha0 : (0 < a_len)%Z) by (unfold a_len, Py.len; lia).
  assert (Hskip : forall l, skipn (Z.to_nat pl) (repeat 1%Z (Z.to_nat pl) ++ l) = l).
  { intros l. rewrite skipn_app, repeat_length, Nat.sub_diag.
    rewrite skipn_all2 by (rewrite repeat_length; lia). reflexivity. }
  rewrite Hskip.
  unfold VQA.need_pred, VQA.need_pred_4gpt, Py.list_mul.
  pose proof (pad_or_truncate_length tokens Hm) as HL.
  assert (HT : Py.len (Torch.zero_where_not (pad_or_truncate msl tokens)) = msl).
  { unfold Torch.zero_where_not, Py.len in *. rewrite length_map. exact HL. }
  destruct (msl - q_len - a_len >=? 0)%Z eqn:E.
  - rewrite Z.geb_leb in E. apply Z.leb_le in E.
    destruct (q_len + a_len <=? msl)%Z eqn:E'; [|apply Z.leb_gt in E'; lia].
    unfold Py.len in *. rewrite !length_app, !repeat_length.
    split; [lia|]. split; [lia|]. split; [exact HT|]. split.
    + apply Forall2_app; [apply Forall2_repeat; lia|].
      apply Forall2_app; [apply Forall2_repeat; lia|].
      apply Forall2_app; apply Forall2_repeat; lia.
    + rewrite !sum_app, !sum_repeat. lia.
  - rewrite Z.geb_leb in E. apply Z.leb_gt in E.
    destruct (q_len + a_len <=? msl)%Z eqn:E'; [apply Z.leb_le in E'; lia|].
    unfold Py.len in *. rewrite !length_app, !repeat_length.
    split; [lia|]. split; [lia|]. split; [exact HT|]. split.
    + apply Forall2_app; apply Forall2_repeat; lia.
    + rewrite sum_repeat. lia.
Qed.

Lemma X4_qa_masks_agree_witness :
  exists self' toks mask mask4gpt,
    VQA.pad_tokens char_codes
      (VQA.mkDataset 2 8 [[119; 104; 111; 63; 32; 109; 101; 50256]%Z]
         ["me"%string] ["who?"%string]) 0
    = Some (self', (toks, mask, mask4gpt))
    /\ Py.len mask = 10%Z /\ Py.len mask4gpt = 10%Z
    /\ fold_right Z.add 0%Z (skipn 2 mask) = 3%Z.
Proof.
  do 4 eexists. split; [reflexivity|].
  destruct (@X4_qa_masks_agree char_codes
              (VQA.mkDataset 2 8 [[119; 104; 111; 63; 32; 109; 101; 50256]%Z]
                 ["me"%string] ["who?"%string]) 0 _ _ _ _ "me"%string "who?"%string
              eq_refl eq_refl eq_refl ltac:(simpl; lia))
    as (H1 & H2 & _ & _ & H5).
  split; [exact H1|]. split; [exact H2|]. exact H5.
Defined.

(** ** What the losses score *)

Lemma slice_after_prefix {A} (L : list A) (pl msl : nat) :
  length L = (pl + msl)%nat -> (1 <= pl)%nat ->
  Slice.slice L (Z.of_nat pl - 1) (-1) = firstn msl (skipn (pl - 1) L).
Proof.
  intros HL Hp. unfold Slice.slice, Slice.bound, Py.len. rewrite HL.
  destruct (Z.of_nat pl - 1 <? 0)%Z eqn:E1; [apply Z.ltb_lt in E1; lia|].
  change (-1 <? 0)%Z with true. cbv iota.
  replace (Z.to_nat (Z.max 0 (Z.of_nat (pl + msl) + -1)
                     - Z.min (Z.of_nat pl - 1) (Z.of_nat (pl + msl)))) with msl by lia.
  replace (Z.to_nat (Z.min (Z.of_nat pl - 1) (Z.of_nat (pl + msl)))) with (pl - 1)%nat by lia.
  reflexivity.
Qed.

Lemma slice_after_10 {A} (L : list A) (msl : nat) :
  length L = (10 + msl)%nat ->
  Slice.slice L (10 - 1) (-1) = firstn msl (skipn 9 L).
Proof.
  intros HL. change (10 - 1)%Z with (Z.of_nat 10 - 1)%Z.
  now rewrite (@slice_after_prefix _ L 10 msl HL) by lia.
Qed.

Lemma from_after_prefix {A} (x : A) (pl : nat) (rest : list A) :
  Slice.from (repeat x pl ++ rest) (Z.of_nat pl) = rest.
Proof.
  unfold Slice.from, Slice.bound, Py.len. rewrite length_app, repeat_length.
  destruct (Z.of_nat pl <? 0)%Z eqn:E; [apply Z.ltb_lt in E; lia|].
  replace (Z.to_nat (Z.min (Z.of_nat pl) (Z.of_nat (pl + length rest)))) with pl by lia.
  rewrite skipn_app, repeat_length, Nat.sub_diag.
  rewrite skipn_all2 by (rewrite repeat_length; lia). reflexivity.
Qed.

Lemma ge1_repeat (x : Z) n : Slice.ge1 (repeat x n) = repeat (1 <=? x)%Z n.
Proof. unfold Slice.ge1. induction n; simpl; congruence. Qed.

Lemma combine_app_eq {A B} (r1 r2 : list A) (m1 m2 : list B) :
  length r1 = length m1 ->
  combine (r1 ++ r2) (m1 ++ m2) = combine r1 m1 ++ combine r2 m2.
Proof.
  revert m1; induction r1 as [|x r1 IH]; intros [|y m1] H; simpl in *;
    try discriminate; [reflexivity|].
  f_equal. apply IH. lia.
Qed.

Lemma select_app {A} (r1 r2 : list A) m1 m2 :
  length r1 = length m1 ->
  select (r1 ++ r2) (m1 ++ m2) = select r1 m1 ++ select r2 m2.
Proof.
  intros H. unfold select. rewrite combine_app_eq by assumption.
  now rewrite filter_app, map_app.
Qed.

Lemma select_false {A} (r : list A) : select r (repeat false (length r)) = [].
Proof. unfold select. induction r; simpl; auto. Qed.

Lemma select_true {A} (r : list A) : select r (repeat true (length r)) = r.
Proof. unfold select. induction r; simpl; congruence. Qed.

Lemma select_span {A} (row : list A) q a r :
  length row = (q + a + r)%nat ->
  select row (repeat false q ++ repeat true a ++ repeat false r)
  = firstn a (skipn q row).
Proof.
  intros H.
  rewrite <- (firstn_skipn q row) at 1.
  rewrite select_app by (rewrite length_firstn, repeat_length; lia).
  replace q with (length (firstn q row)) at 2 by (rewrite length_firstn; lia).
  rewrite select_false. cbn [app].
  rewrite <- (firstn_skipn a (skipn q row)) at 1.
  rewrite select_app by (rewrite length_firstn, length_skipn, repeat_length; lia).
  replace a with (length (firstn a (skipn q row))) at 2
    by (rewrite length_firstn, length_skipn; lia).
  rewrite select_true.
  replace r with (length (skipn a (skipn q row)))
    by (rewrite !length_skipn; lia).
  rewrite select_false. apply app_nil_r.
Qed.

Lemma bool_index_concat {X A} (f : X -> list A) (g : X -> list bool) xs :
  Forall (fun x => length (f x) = length (g x)) xs ->
  Slice.bool_index (concat (map f xs)) (concat (map g xs))
  = Ok (flat_map (fun x => select (f x) (g x)) xs).
Proof.
  intros H. unfold Slice.bool_index.
  assert (L : length (concat (map f xs)) = length (concat (map g xs))).
  { induction H as [|x t Hx _ IH]; simpl; [reflexivity|].
    rewrite !length_app. congruence. }
  rewrite L, Nat.eqb_refl. f_equal.
  induction H as [|x t Hx Ht IH]; simpl; [reflexivity|].
  simpl in L. rewrite !length_app in L.
  change (map fst (filter snd (combine (f x ++ concat (map f t))
                                        (g x ++ concat (map g t)))))
    with (select (f x ++ concat (map f t)) (g x ++ concat (map g t))).
  rewrite select_app by assumption. f_equal. apply IH. lia.
Qed.

Lemma ex_bool_mask {logit} (e : qa_example logit) (pl : nat) :
  Slice.ge1 (Slice.from (ex_mask pl e) (Z.of_nat pl))
  = repeat false (ex_q e) ++ repeat true (ex_a e) ++ repeat false (ex_rest e).
Proof.
  unfold ex_mask. rewrite from_after_prefix.
  unfold Slice.ge1. rewrite !map_app.
  change (map (fun x => (1 <=? x)%Z)) with Slice.ge1. now rewrite !ge1_repeat.
Qed.

Lemma firstn_skipn_firstn {A} (l : list A) a q m :
  (q + a <= m)%nat -> firstn a (skipn q (firstn m l)) = firstn a (skipn q l).
Proof.
  intros H. rewrite skipn_firstn_comm, firstn_firstn. f_equal. lia.
Qed.

Lemma flat_map_ext_Forall {A B} (f g : A -> list B) xs :
  Forall (fun x => f x = g x) xs -> flat_map f xs = flat_map g xs.
Proof.
  induction 1 as [|x t Hx _ IH]; cbn [flat_map]; [reflexivity|]. now rewrite Hx, IH.
Qed.

(** X5. [train_vqa] on a batch built with [prefix_length = 10]: the logits
    and tokens it hands to the cross entropy are, example after example,
    those of the answer span only; the token at text position
    [q + j] is paired with the logits row [9 + q + j], the row of the
    position before it. *)
Theorem X5_train_vqa_selects_answer_span (logit : Type)
  (examples : list (qa_example logit)) :
  Forall (ex_wf 10) examples ->
  Loss.train_vqa (map (@ex_logits logit) examples) (map (@ex_tokens logit) examples)
    (map (ex_mask 10) examples)
  = Ok (flat_map (fun e => firstn (ex_a e) (skipn (9 + ex_q e) (ex_logits e))) examples,
        flat_map (fun e => firstn (ex_a e) (skipn (ex_q e) (ex_tokens e))) examples).
Proof.
  intros Hwf. unfold Loss.train_vqa. rewrite !map_map.
  assert (Hm : map (fun x => Slice.ge1 (Slice.from (ex_mask 10 x) 10)) examples
               = map (fun e => repeat false (ex_q e) ++ repeat true (ex_a e)
                               ++ repeat false (ex_rest e)) examples).
  { apply map_ext. intros e. exact (ex_bool_mask e 10). }
  rewrite Hm.
  rewrite (@bool_index_concat _ _
             (fun x => Slice.slice (ex_logits x) (10 - 1) (-1))
             (fun e => repeat false (ex_q e) ++ repeat true (ex_a e)
                       ++ repeat false (ex_rest e))).
  2:{ eapply Forall_impl; [|exact Hwf]. intros e [_ HL].
      rewrite (@slice_after_10 _ (ex_logits e) _ HL).
      rewrite length_firstn, length_skipn, !length_app, !repeat_length. lia. }
  cbn [bind].
  rewrite (@bool_index_concat _ _ (@ex_tokens logit)
             (fun e => repeat false (ex_q e) ++ repeat true (ex_a e)
                       ++ repeat false (ex_rest e))).
  2:{ eapply Forall_impl; [|exact Hwf]. intros e [HT _].
      rewrite !length_app, !repeat_length. lia. }
  cbn [bind]. f_equal. f_equal.
  - apply flat_map_ext_Forall. eapply Forall_impl; [|exact Hwf]. intros e [HT HL].
    rewrite (@slice_after_10 _ (ex_logits e) _ HL).
    rewrite select_span by (rewrite length_firstn, length_skipn; lia).
    rewrite firstn_skipn_firstn by lia.
    rewrite skipn_skipn. f_equal. f_equal. lia.
  - apply flat_map_ext_Forall. eapply Forall_impl; [|exact Hwf]. intros e [HT HL].
    now apply select_span.
Qed.

Lemma X5_train_vqa_selects_answer_span_witness :
  Loss.train_vqa
    [[0; 1; 2; 3; 4; 5; 6; 7; 8; 9; 10; 11; 12; 13]%nat]
    [[40; 41; 50; 0]%Z]
    [[1; 1; 1; 1; 1; 1; 1; 1; 1; 1; 0; 0; 1; 0]%Z]
  = Ok ([11]%nat, [50]%Z).
Proof.
  apply (@X5_train_vqa_selects_answer_span nat
           [mkExample 2 1 1 [40; 41; 50; 0]%Z
              [0; 1; 2; 3; 4; 5; 6; 7; 8; 9; 10; 11; 12; 13]%nat]).
  repeat constructor.
Defined.

Lemma length_concat_map {X A} (f : X -> list A) xs :
  length (concat (map f xs)) = list_sum (map (fun x => length (f x)) xs).
Proof. induction xs; simpl; [reflexivity|]. rewrite length_app. congruence. Qed.

Lemma list_sum_lt {X} (f g : X -> nat) xs :
  xs <> [] -> Forall (fun x => (f x < g x)%nat) xs ->
  (list_sum (map f xs) < list_sum (map g xs))%nat.
Proof.
  intros Hne H. induction H as [|x t Hx Ht IH]; [congruence|].
  simpl. destruct t as [|y t']; [simpl; lia|].
  specialize (IH ltac:(discriminate)). lia.
Qed.

Lemma length_from {A} (l : list A) (k : nat) :
  length (Slice.from l (Z.of_nat k)) = (length l - k)%nat.
Proof.
  unfold Slice.from, Slice.bound, Py.len.
  destruct (Z.of_nat k <? 0)%Z eqn:E; [apply Z.ltb_lt in E; lia|].
  rewrite length_skipn. lia.
Qed.

Lemma bool_index_raise {A} (t : list A) m e :
  Slice.bool_index t m = Raise e -> e = IndexError.
Proof.
  unfold Slice.bool_index. destruct (_ =? _)%nat; [discriminate|]. congruence.
Qed.

(** X6. [train_vqa] slices with the literal 10: on a non-empty batch built
    with any other [prefix_length] the boolean mask and the flattened
    tokens differ in length and the indexing raises. *)
Theorem X6_train_vqa_needs_prefix_length_10 (logit : Type) (pl : nat)
  (examples : list (qa_example logit)) :
  pl <> 10%nat -> examples <> [] ->
  Forall (ex_wf pl) examples ->
  Forall (fun e => (1 <= ex_q e + ex_a e + ex_rest e)%nat) examples ->
  Loss.train_vqa (map (@ex_logits logit) examples) (map (@ex_tokens logit) examples)
    (map (ex_mask pl) examples)
  = Raise IndexError.
Proof.
  intros Hpl Hne Hwf Hpos. unfold Loss.train_vqa.
  set (bm := concat (map Slice.ge1 (map (fun r => Slice.from r 10) (map (ex_mask pl) examples)))).
  assert (Hlen : length (concat (map (@ex_tokens logit) examples)) <> length bm).
  { unfold bm. rewrite !map_map, !length_concat_map.
    assert (Hall : Forall (fun e => length (ex_tokens e) = (ex_q e + ex_a e + ex_rest e)%nat
                     /\ length (Slice.ge1 (Slice.from (ex_mask pl e) 10))
                        = (pl + (ex_q e + ex_a e + ex_rest e) - 10)%nat
                     /\ (1 <= ex_q e + ex_a e + ex_rest e)%nat) examples).
    { rewrite Forall_forall in *. intros e He. destruct (Hwf e He) as [HT _].
      split; [exact HT|]. split; [|exact (Hpos e He)].
      unfold Slice.ge1. rewrite length_map.
      change 10%Z with (Z.of_nat 10). rewrite length_from.
      unfold ex_mask. rewrite !length_app, !repeat_length. lia. }
    destruct (Nat.lt_ge_cases pl 10) as [Hlt | Hge].
    - assert (list_sum (map (fun x => length (Slice.ge1 (Slice.from (ex_mask pl x) 10))) examples)
              < list_sum (map (fun x => length (ex_tokens x)) examples))%nat; [|lia].
      apply list_sum_lt; [assumption|]. eapply Forall_impl; [|exact Hall].
      intros e (H1 & H2 & H3). lia.
    - assert (list_sum (map (fun x => length (ex_tokens x)) examples)
              < list_sum (map (fun x => length (Slice.ge1 (Slice.from (ex_mask pl x) 10))) examples))%nat;
        [|lia].
      apply list_sum_lt; [assumption|]. eapply Forall_impl; [|exact Hall].
      intros e (H1 & H2 & H3). lia. }
  assert (Htok : Slice.bool_index (concat (map (@ex_tokens logit) examples)) bm
                 = Raise IndexError).
  { unfold Slice.bool_index. apply Nat.eqb_neq in Hlen. now rewrite Hlen. }
  destruct (Slice.bool_index _ bm) as [sel|e] eqn:E at 1.
  - cbn [bind]. now rewrite Htok.
  - cbn [bind]. now rewrite (bool_index_raise _ _ E).
Qed.

Lemma X6_train_vqa_needs_prefix_length_10_witness :
  Loss.train_vqa
    [[0; 1; 2; 3; 4; 5]%nat] [[40; 41; 50; 0]%Z] [[1; 1; 0; 0; 1; 0]%Z]
  = Raise IndexError.
Proof.
  apply (@X6_train_vqa_needs_prefix_length_10 nat 2
           [mkExample 2 1 1 [40; 41; 50; 0]%Z [0; 1; 2; 3; 4; 5]%nat]).
  - lia.
  - discriminate.
  - repeat constructor.
  - constructor; [simpl; lia | constructor].
Defined.

Lemma terms_app {logit} (a1 a2 : list logit) (t1 t2 : list Z) :
  length a1 = length t1 ->
  filter (fun p : logit * Z => negb (snd p =? 0)%Z) (combine (a1 ++ a2) (t1 ++ t2))
  = filter (fun p : logit * Z => negb (snd p =? 0)%Z) (combine a1 t1)
    ++ filter (fun p : logit * Z => negb (snd p =? 0)%Z) (combine a2 t2).
Proof. intros H. now rewrite combine_app_eq, filter_app by assumption. Qed.

Lemma terms_real {logit} (a : list logit) (real : list Z) :
  Forall (fun t => t <> 0%Z) real ->
  filter (fun p : logit * Z => negb (snd p =? 0)%Z) (combine a real) = combine a real.
Proof.
  intros H. revert a. induction H as [|t r Ht _ IH]; intros [|x a]; simpl; auto.
  apply Z.eqb_neq in Ht. rewrite Ht. simpl. now rewrite IH.
Qed.

Lemma terms_padding {logit} (a : list logit) n :
  filter (fun p : logit * Z => negb (snd p =? 0)%Z) (combine a (repeat 0%Z n)) = [].
Proof. revert a; induction n as [|n IH]; intros [|x a]; simpl; auto. Qed.

Lemma terms_example {logit} (pl : nat) (e : ic_example logit) :
  (1 <= pl)%nat -> ic_wf pl e ->
  length (Slice.slice (ic_logits e) (Z.of_nat pl - 1) (-1)) = length (ic_tokens e)
  /\ filter (fun p : logit * Z => negb (snd p =? 0)%Z)
       (combine (Slice.slice (ic_logits e) (Z.of_nat pl - 1) (-1)) (ic_tokens e))
     = combine (firstn (length (ic_real e)) (skipn (pl - 1) (ic_logits e))) (ic_real e).
Proof.
  intros Hp [Hreal HL].
  rewrite (@slice_after_prefix _ (ic_logits e) pl _ HL Hp).
  unfold ic_tokens. split.
  - rewrite length_firstn, length_skipn, length_app, repeat_length. lia.
  - set (X := skipn (pl - 1) (ic_logits e)).
    assert (HX : (length (ic_real e) + ic_pad e <= length X)%nat)
      by (unfold X; rewrite length_skipn; lia).
    rewrite <- (firstn_skipn (length (ic_real e))
                  (firstn (length (ic_real e) + ic_pad e) X)).
    rewrite terms_app by (rewrite !length_firstn; lia).
    rewrite firstn_firstn, Nat.min_l by lia.
    rewrite terms_real by assumption.
    rewrite terms_padding. apply app_nil_r.
Qed.

(** X7. The captioning loss ([train], [apply_validation], [train_ic]) with
    [prefix_length >= 1]: after the slice [prefix_length - 1 : -1] and
    [ignore_index = 0], the terms of the cross entropy are exactly the
    real (non-zero) caption tokens of each example, each paired with the
    logits row of the position before it; padding contributes nothing. *)
Theorem X7_caption_loss_scores_real_tokens (logit : Type) (pl : nat)
  (examples : list (ic_example logit)) :
  (1 <= pl)%nat -> Forall (ic_wf pl) examples ->
  Loss.loss_terms (Z.of_nat pl) (map (@ic_logits logit) examples)
    (map (@ic_tokens logit) examples)
  = Ok (flat_map
          (fun e => combine (firstn (length (ic_real e)) (skipn (pl - 1) (ic_logits e)))
                            (ic_real e))
          examples).
Proof.
  intros Hp Hwf. unfold Loss.loss_terms, Loss.cross_entropy_terms. rewrite map_map.
  assert (HL : length (concat (map (fun x => Slice.slice (ic_logits x) (Z.of_nat pl - 1) (-1))
                                   examples))
               = length (concat (map (@ic_tokens logit) examples))).
  { induction Hwf as [|e t He _ IH]; simpl; [reflexivity|].
    rewrite !length_app, IH. destruct (terms_example Hp He) as [-> _]. reflexivity. }
  rewrite HL, Nat.eqb_refl. f_equal.
  induction Hwf as [|e t He Ht IH]; cbn [map concat flat_map]; [reflexivity|].
  destruct (terms_example Hp He) as [H1 H2].
  rewrite terms_app by exact H1. rewrite H2. f_equal. apply IH.
  cbn [map concat] in HL. rewrite !length_app in HL. lia.
Qed.

Lemma X7_caption_loss_scores_real_tokens_witness :
  Loss.loss_terms 2 [[0; 1; 2; 3; 4; 5]%nat] [[40; 41; 0; 0]%Z]
  = Ok [(1%nat, 40%Z); (2%nat, 41%Z)].
Proof.
  apply (@X7_caption_loss_scores_real_tokens nat 2
           [mkCaption [40; 41]%Z 2 [0; 1; 2; 3; 4; 5]%nat]).
  - lia.
  - repeat constructor; discriminate.
Defined.

(** X8. With [prefix_length = 0] the slice [-1 : -1] is empty, so the cross
    entropy gets no logits row for a non-empty batch of tokens and
    raises. *)
Theorem X8_prefix_length_zero_breaks_the_loss (logit : Type)
  (logits : list (list logit)) (tokens : list (list Z)) :
  concat tokens <> [] ->
  Loss.loss_terms 0 logits tokens = Raise ValueError.
Proof.
  intros Hne. unfold Loss.loss_terms, Loss.cross_entropy_terms.
  change (0 - 1)%Z with (-1)%Z.
  assert (E : concat (map (fun r : list logit => Slice.slice r (-1) (-1)) logits) = []).
  { induction logits as [|r t IH]; cbn [map concat]; [reflexivity|]. rewrite IH.
    unfold Slice.slice. rewrite Z.sub_diag. reflexivity. }
  rewrite E. destruct (concat tokens); [congruence|]. reflexivity.
Qed.

Lemma X8_prefix_length_zero_breaks_the_loss_witness :
  Loss.loss_terms 0 [[0; 1; 2; 3]%nat] [[40; 41; 0; 0]%Z] = Raise ValueError.
Proof.
  apply X8_prefix_length_zero_breaks_the_loss. discriminate.
Defined.

(** ** Early stopping *)

Lemma calls_from (s0 : EarlyStopping.t) (losses : list (R * R)) :
  let n := Z.of_nat (length (filter (EarlyStopping.over (EarlyStopping.delta s0)) losses)) in
  let s := EarlyStopping.calls s0 losses in
  EarlyStopping.tolerance s = EarlyStopping.tolerance s0
  /\ EarlyStopping.delta s = EarlyStopping.delta s0
  /\ EarlyStopping.counter s = (EarlyStopping.counter s0 + n)%Z
  /\ EarlyStopping.early_stop s
     = (EarlyStopping.early_stop s0
        || ((1 <=? n)%Z
            && (EarlyStopping.tolerance s0 <=? EarlyStopping.counter s0 + n)%Z)).
Proof.
  revert s0. induction losses as [|p t IH]; intros s0; cbn zeta.
  - simpl. rewrite Z.add_0_r, orb_false_r. auto.
  - unfold EarlyStopping.calls. cbn [fold_left filter].
    fold (EarlyStopping.calls (EarlyStopping.call s0 (fst p) (snd p)) t).
    specialize (IH (EarlyStopping.call s0 (fst p) (snd p))). cbn zeta in IH.
    unfold EarlyStopping.call, EarlyStopping.over in *.
    destruct (Rlt_dec (EarlyStopping.delta s0) (snd p - fst p)) as [Hov | Hno].
    + cbn [EarlyStopping.tolerance EarlyStopping.delta EarlyStopping.counter
           EarlyStopping.early_stop] in IH.
      destruct IH as (I1 & I2 & I3 & I4). rewrite I1, I2, I3, I4.
      cbn [length]. set (k := length (filter _ t)).
      repeat split; try lia.
      destruct (EarlyStopping.tolerance s0 <=? EarlyStopping.counter s0 + 1)%Z eqn:E1.
      * apply Z.leb_le in E1.
        replace (1 <=? Z.of_nat (S k))%Z with true by (symmetry; apply Z.leb_le; lia).
        replace (EarlyStopping.tolerance s0 <=? EarlyStopping.counter s0 + Z.of_nat (S k))%Z
          with true by (symmetry; apply Z.leb_le; lia).
        cbn [andb]. now rewrite orb_true_r.
      * apply Z.leb_gt in E1.
        replace (1 <=? Z.of_nat (S k))%Z with true by (symmetry; apply Z.leb_le; lia).
        replace (EarlyStopping.counter s0 + 1 + Z.of_nat k)%Z
          with (EarlyStopping.counter s0 + Z.of_nat (S k))%Z by lia.
        destruct (1 <=? Z.of_nat k)%Z eqn:E2; [reflexivity|].
        apply Z.leb_gt in E2. cbn [andb].
        replace (EarlyStopping.tolerance s0 <=? EarlyStopping.counter s0 + Z.of_nat (S k))%Z
          with false by (symmetry; apply Z.leb_gt; lia).
        reflexivity.
    + exact IH.
Qed.

(** X9. [EarlyStopping]: after any sequence of calls the counter is the
    number of calls whose validation loss exceeded the training loss by
    more than [delta], counted over the whole run (the counter is never
    reset by a good epoch), and [early_stop] is set exactly when that
    number is at least one and at least [tolerance]. *)
Theorem X9_early_stopping_counts_all_over_delta_epochs
  (tolerance : Z) (delta : R) (losses : list (R * R)) :
  let n := Z.of_nat (length (filter (EarlyStopping.over delta) losses)) in
  let s := EarlyStopping.calls (EarlyStopping.init tolerance delta) losses in
  EarlyStopping.counter s = n
  /\ EarlyStopping.early_stop s = ((1 <=? n)%Z && (tolerance <=? n)%Z).
Proof.
  destruct (calls_from (EarlyStopping.init tolerance delta) losses) as (_ & _ & H3 & H4).
  cbn zeta in *. cbn [EarlyStopping.init EarlyStopping.counter EarlyStopping.delta
                      EarlyStopping.tolerance EarlyStopping.early_stop] in H3, H4.
  rewrite Z.add_0_l in H3, H4. simpl in H4. auto.
Qed.

(** ** Reference captions *)

Section GroupingProperties.

Variable caption : Type.

Lemma get_set_eq (d : Group.dict (list caption)) k v : Group.get (Group.set d k v) k = Some v.
Proof.
  induction d as [|[k' w] t IH]; simpl.
  - now rewrite Z.eqb_refl.
  - destruct (k' =? k)%Z eqn:E; simpl; rewrite E; auto.
Qed.

Lemma get_set_neq (d : Group.dict (list caption)) k k' v :
  k <> k' -> Group.get (Group.set d k v) k' = Group.get d k'.
Proof.
  intros Hne. induction d as [|[k0 w] t IH]; simpl.
  - destruct (k =? k')%Z eqn:E; [apply Z.eqb_eq in E; congruence|reflexivity].
  - destruct (k0 =? k)%Z eqn:E; simpl.
    + apply Z.eqb_eq in E. subst k0.
      destruct (k =? k')%Z eqn:E'; [apply Z.eqb_eq in E'; congruence|reflexivity].
    + now rewrite IH.
Qed.

Lemma keys_set (d : Group.dict (list caption)) k v :
  map fst (Group.set d k v)
  = match Group.get d k with
    | Some _ => map fst d
    | None => map fst d ++ [k]
    end.
Proof.
  induction d as [|[k0 w] t IH]; simpl; [reflexivity|].
  destruct (k0 =? k)%Z eqn:E; simpl; [reflexivity|].
  rewrite IH. now destruct (Group.get t k).
Qed.

Lemma get_none_keys (d : Group.dict (list caption)) k :
  Group.get d k = None <-> ~ In k (map fst d).
Proof.
  induction d as [|[k0 w] t IH]; simpl; [tauto|].
  destruct (k0 =? k)%Z eqn:E.
  - apply Z.eqb_eq in E. split; [discriminate | intros H; exfalso; apply H; auto].
  - apply Z.eqb_neq in E. rewrite IH. tauto.
Qed.

Lemma get_size_le (d : Group.dict (list caption)) k l :
  Group.get d k = Some l ->
  (length l <= list_sum (map (fun kv => length (snd kv)) d))%nat.
Proof.
  induction d as [|[k0 w] t IH]; simpl; [discriminate|].
  destruct (k0 =? k)%Z; [intros [= ->]; lia|]. intros H. specialize (IH H). lia.
Qed.

Lemma sizes_set (d : Group.dict (list caption)) k v :
  list_sum (map (fun kv => length (snd kv)) (Group.set d k v))
  = match Group.get d k with
    | Some l => (list_sum (map (fun kv => length (snd kv)) d) + length v - length l)%nat
    | None => (list_sum (map (fun kv => length (snd kv)) d) + length v)%nat
    end.
Proof.
  induction d as [|[k0 w] t IH]; simpl; [lia|].
  destruct (k0 =? k)%Z eqn:E; simpl; [lia|].
  rewrite IH. destruct (Group.get t k) as [l|] eqn:G; [|lia].
  pose proof (get_size_le _ _ G). lia.
Qed.

Lemma captions_of_snoc key (pre : list (Z * caption)) kv :
  captions_of key (pre ++ [kv])
  = captions_of key pre ++ (if (fst kv =? key)%Z then [snd kv] else []).
Proof.
  unfold captions_of. rewrite filter_app, map_app. simpl.
  now destruct (fst kv =? key)%Z.
Qed.

Lemma group_fold (mrg : list (Z * caption)) : forall acc pre,
  (forall k, Group.get acc k = as_group (captions_of k pre)) ->
  NoDup (map fst acc) ->
  list_sum (map (fun kv => length (snd kv)) acc) = length pre ->
  let d := fold_left (@Group.group_step caption) mrg acc in
  (forall k, Group.get d k = as_group (captions_of k (pre ++ mrg)))
  /\ NoDup (map fst d)
  /\ list_sum (map (fun kv => length (snd kv)) d) = length (pre ++ mrg).
Proof.
  induction mrg as [|kv t IH]; intros acc pre Hget Hnd Hsum; cbn zeta.
  - rewrite app_nil_r. auto.
  - cbn [fold_left].
    replace (pre ++ kv :: t) with ((pre ++ [kv]) ++ t) by (now rewrite <- app_assoc).
    apply IH.
    + intros k. rewrite captions_of_snoc. unfold Group.group_step.
      pose proof (Hget (fst kv)) as Hk.
      destruct (Z.eq_dec (fst kv) k) as [Heq | Hne].
      * rewrite Heq in *. rewrite Z.eqb_refl.
        destruct (Group.get acc k) as [l|]; rewrite get_set_eq.
        -- destruct (captions_of k pre) as [|c cs]; [discriminate|].
           injection Hk as ->. reflexivity.
        -- destruct (captions_of k pre); [reflexivity|discriminate].
      * replace (fst kv =? k)%Z with false by (symmetry; now apply Z.eqb_neq).
        rewrite app_nil_r, <- Hget.
        destruct (Group.get acc (fst kv)); now apply get_set_neq.
    + unfold Group.group_step.
      destruct (Group.get acc (fst kv)) as [l|] eqn:E; rewrite keys_set, E; [assumption|].
      apply NoDup_app; [assumption | repeat constructor; simpl; tauto |].
      intros x Hx [<- | []]. now apply get_none_keys in E.
    + unfold Group.group_step. rewrite length_app. cbn [length].
      destruct (Group.get acc (fst kv)) as [l|] eqn:E; rewrite sizes_set, E.
      * rewrite length_app. simpl.
        pose proof (get_size_le _ _ E). lia.
      * simpl. lia.
Qed.

End GroupingProperties.

(** X10. [group_reference_captions] on lists of equal length returns a
    dictionary in which every image id has the captions given for it, in
    the order of the input, an id without caption is absent, no key
    occurs twice and no caption is lost or duplicated. *)
Theorem X10_group_reference_captions (caption : Type) (gt_image_ids : list Z)
  (gt_captions : list caption) :
  length gt_image_ids = length gt_captions ->
  exists d,
    Group.group_reference_captions gt_image_ids gt_captions = Some d
    /\ (forall key,
          Group.get d key
          = as_group (captions_of key (combine gt_image_ids gt_captions)))
    /\ NoDup (map fst d)
    /\ list_sum (map (fun kv => length (snd kv)) d) = length gt_captions.
Proof.
  intros Hlen. unfold Group.group_reference_captions, Group.merge.
  rewrite Hlen, Nat.eqb_refl. eexists. split; [reflexivity|].
  destruct (@group_fold caption (combine gt_image_ids gt_captions) [] [])
    as (H1 & H2 & H3); try reflexivity; [constructor|].
  cbn [app] in *. repeat split; try assumption.
  rewrite H3, length_combine. lia.
Qed.

Lemma X10_group_reference_captions_witness :
  exists d,
    Group.group_reference_captions [7; 9; 7]%Z ["a"; "b"; "c"]%string = Some d
    /\ Group.get d 7 = Some ["a"; "c"]%string
    /\ Group.get d 9 = Some ["b"]%string
    /\ Group.get d 8 = None.
Proof.
  destruct (@X10_group_reference_captions string [7; 9; 7]%Z ["a"; "b"; "c"]%string eq_refl)
    as (d & Hd & Hget & _).
  exists d. split; [exact Hd|]. rewrite !Hget. repeat split.
Defined.

(** The assertion of [merge]. *)
Lemma group_reference_captions_length_mismatch (caption : Type)
  (gt_image_ids : list Z) (gt_captions : list caption) :
  length gt_image_ids <> length gt_captions ->
  Group.group_reference_captions gt_image_ids gt_captions = None.
Proof.
  intros H. unfold Group.group_reference_captions, Group.merge.
  apply Nat.eqb_neq in H. now rewrite H.
Qed.

(** ** The question mask of the generation script *)

Lemma zip_with_app {A B C} (f : A -> B -> C) a1 a2 b1 b2 :
  length a1 = length b1 ->
  Decoder.zip_with f (a1 ++ a2) (b1 ++ b2)
  = Decoder.zip_with f a1 b1 ++ Decoder.zip_with f a2 b2.
Proof.
  revert b1; induction a1 as [|x a1 IH]; intros [|y b1] H; simpl in *;
    try discriminate; [reflexivity|].
  f_equal. apply IH. lia.
Qed.

Lemma zip_with_repeat {A B C} (f : A -> B -> C) x y n :
  Decoder.zip_with f (repeat x n) (repeat y n) = repeat (f x y) n.
Proof. induction n; simpl; congruence. Qed.

Lemma zip_with_repeat_r {A B C} (f : A -> B -> C) (l : list A) y :
  Decoder.zip_with f l (repeat y (length l)) = map (fun x => f x y) l.
Proof. induction l; simpl; congruence. Qed.

Lemma ewise_same_length {A B C} (f : A -> B -> C) a b :
  length a = length b -> Slice.ewise f a b = Ok (Decoder.zip_with f a b).
Proof. intros H. unfold Slice.ewise. now rewrite H, Nat.eqb_refl. Qed.

Lemma ewise_raise {A B C} (f : A -> B -> C) a b e :
  Slice.ewise f a b = Raise e -> e = RuntimeError.
Proof.
  unfold Slice.ewise. destruct (_ =? _)%nat; [discriminate|].
  destruct a as [|x [|x' a]]; destruct b as [|y [|y' b]]; try discriminate; congruence.
Qed.

Lemma from_10 {A} (x : A) (rest : list A) :
  Slice.from (repeat x 10 ++ rest) 10 = rest.
Proof.
  unfold Slice.from, Slice.bound, Py.len. rewrite length_app, repeat_length.
  change (10 <? 0)%Z with false. cbv iota.
  replace (Z.to_nat (Z.min 10 (Z.of_nat (10 + length rest)))) with 10%nat by lia.
  reflexivity.
Qed.

Lemma question_mask_row (logit : Type) (e : qa_example logit) :
  QuestionMask.temp_question_mask_row (ex_mask 10 e) (ex_mask4gpt 10 e)
  = Ok (repeat 1%Z (ex_q e) ++ repeat 0%Z (ex_a e + ex_rest e)).
Proof.
  unfold QuestionMask.temp_question_mask_row, ex_mask, ex_mask4gpt.
  rewrite !from_10.
  rewrite ewise_same_length by (rewrite !length_app, !repeat_length; lia).
  rewrite !zip_with_app by (rewrite !repeat_length; reflexivity).
  rewrite !zip_with_repeat. cbn. now rewrite repeat_app.
Qed.

(** X11. [validation_generation] of the question-answering model, on a
    batch of four examples built with [prefix_length = 10]. Without CUDA
    the attention mask given to the decoder covers the ten prefix
    positions and the question and nothing else; with CUDA the
    concatenation that builds it raises, the ten ones being on the CPU. On
    either device the prompt tokens are the question tokens with zeros in
    place of answer and padding. *)
Theorem X11_generation_mask_covers_prefix_and_question (logit : Type)
  (examples : list (qa_example logit)) :
  length examples = 4%nat ->
  QuestionMask.masky Torch.cpu
    (map (ex_mask 10) examples) (map (ex_mask4gpt 10) examples)
  = Ok (map (fun e => repeat 1%Z 10 ++ repeat 1%Z (ex_q e)
                      ++ repeat 0%Z (ex_a e + ex_rest e)) examples)
  /\ QuestionMask.masky Torch.cuda
       (map (ex_mask 10) examples) (map (ex_mask4gpt 10) examples)
     = Raise RuntimeError
  /\ forall e : qa_example logit, ex_wf 10 e ->
       QuestionMask.questions_row (ex_tokens e) (ex_mask 10 e) (ex_mask4gpt 10 e)
       = Ok (firstn (ex_q e) (ex_tokens e) ++ repeat 0%Z (ex_a e + ex_rest e)).
Proof.
  intros Hlen.
  assert (Hseq : forall xs : list (qa_example logit),
            Slice.sequence
              (Decoder.zip_with QuestionMask.temp_question_mask_row
                 (map (ex_mask 10) xs) (map (ex_mask4gpt 10) xs))
            = Ok (map (fun e => repeat 1%Z (ex_q e) ++ repeat 0%Z (ex_a e + ex_rest e)) xs)).
  { induction xs as [|e t IH]; cbn [map Decoder.zip_with Slice.sequence]; [reflexivity|].
    rewrite question_mask_row, IH. reflexivity. }
  split; [|split].
  - unfold QuestionMask.masky.
    rewrite ewise_same_length by (now rewrite !length_map).
    cbn [bind]. rewrite Hseq. cbn [bind]. rewrite length_map, Hlen. cbn [Nat.eqb].
    now rewrite map_map.
  - unfold QuestionMask.masky.
    rewrite ewise_same_length by (now rewrite !length_map).
    cbn [bind]. rewrite Hseq. reflexivity.
  - intros e [HT _]. unfold QuestionMask.questions_row, ex_mask, ex_mask4gpt.
    rewrite !from_10. unfold Slice.ge1. rewrite !map_app, !map_repeat.
    rewrite ewise_same_length by (rewrite !length_app, !repeat_length; lia).
    rewrite !zip_with_app by (rewrite !repeat_length; reflexivity).
    rewrite !zip_with_repeat. cbn [Z.leb Z.compare xorb bind].
    rewrite <- repeat_app.
    rewrite ewise_same_length by (rewrite length_app, !repeat_length; lia).
    rewrite <- (firstn_skipn (ex_q e) (ex_tokens e)) at 1.
    rewrite zip_with_app by (rewrite length_firstn, repeat_length; lia).
    f_equal. f_equal.
    + replace (ex_q e) with (length (firstn (ex_q e) (ex_tokens e))) at 2
        by (rewrite length_firstn; lia).
      rewrite zip_with_repeat_r. apply map_id.
    + replace (ex_a e + ex_rest e)%nat with (length (skipn (ex_q e) (ex_tokens e)))
        by (rewrite length_skipn; lia).
      rewrite zip_with_repeat_r. rewrite length_skipn.
      replace (length (ex_tokens e) - ex_q e)%nat
        with (length (skipn (ex_q e) (ex_tokens e))) by (rewrite length_skipn; lia).
      clear. induction (skipn (ex_q e) (ex_tokens e)); simpl; congruence.
Qed.

Lemma X11_generation_mask_covers_prefix_and_question_witness :
  QuestionMask.masky Torch.cpu
    [[1; 1; 1; 1; 1; 1; 1; 1; 1; 1; 0; 0; 1; 0];
     [1; 1; 1; 1; 1; 1; 1; 1; 1; 1; 0; 1; 1; 0];
     [1; 1; 1; 1; 1; 1; 1; 1; 1; 1; 0; 0; 0; 1];
     [1; 1; 1; 1; 1; 1; 1; 1; 1; 1; 0; 0; 1; 0]]%Z
    [[1; 1; 1; 1; 1; 1; 1; 1; 1; 1; 1; 1; 1; 0];
     [1; 1; 1; 1; 1; 1; 1; 1; 1; 1; 1; 1; 1; 0];
     [1; 1; 1; 1; 1; 1; 1; 1; 1; 1; 1; 1; 1; 1];
     [1; 1; 1; 1; 1; 1; 1; 1; 1; 1; 1; 1; 1; 0]]%Z
  = Ok [[1; 1; 1; 1; 1; 1; 1; 1; 1; 1; 1; 1; 0; 0];
        [1; 1; 1; 1; 1; 1; 1; 1; 1; 1; 1; 0; 0; 0];
        [1; 1; 1; 1; 1; 1; 1; 1; 1; 1; 1; 1; 1; 0];
        [1; 1; 1; 1; 1; 1; 1; 1; 1; 1; 1; 1; 0; 0]]%Z.
Proof.
  exact (proj1 (@X11_generation_mask_covers_prefix_and_question unit
                  [mkExample 2 1 1 [] []; mkExample 1 2 1 [] [];
                   mkExample 3 1 0 [] []; mkExample 2 1 1 [] []] eq_refl)).
Defined.

Lemma sequence_cases {A} (l : list (result A)) :
  Forall (fun r => forall e, r = Raise e -> e = RuntimeError) l ->
  Slice.sequence l = Raise RuntimeError
  \/ exists rows, Slice.sequence l = Ok rows /\ length rows = length l.
Proof.
  induction 1 as [|r t Hr _ IH]; cbn [Slice.sequence].
  - right. exists []. auto.
  - destruct r as [x|e]; cbn [bind].
    + destruct IH as [-> | (rows & -> & Hl)]; cbn [bind]; [now left|].
      right. exists (x :: rows). simpl. auto.
    + left. now rewrite (Hr e eq_refl).
Qed.

(** X12. [validation_generation] builds the prefix part of the mask with
    the literal batch size 4: for a batch of any other size (the last
    batch of a loader with [drop_last = False]) the concatenation
    raises, on either device. *)
Theorem X12_generation_needs_batches_of_four (device : Torch.device)
  (mask mask4gpt : list (list Z)) :
  length mask = length mask4gpt -> length mask <> 4%nat ->
  QuestionMask.masky device mask mask4gpt = Raise RuntimeError.
Proof.
  intros Hsame Hne. unfold QuestionMask.masky.
  rewrite ewise_same_length by assumption. cbn [bind].
  destruct (@sequence_cases _
              (Decoder.zip_with QuestionMask.temp_question_mask_row mask mask4gpt))
    as [-> | (rows & -> & Hl)]; cbn [bind]; [|reflexivity|];
    [|destruct device; [|reflexivity]].
  - clear. revert mask4gpt. induction mask as [|a t IH]; intros [|b u]; simpl;
      constructor; auto.
    intros e. apply ewise_raise.
  - assert (Hrows : length rows <> 4%nat).
    { rewrite Hl. clear -Hsame Hne. revert mask4gpt Hsame Hne.
      induction mask as [|a t IH]; intros [|b u] Hsame Hne; simpl in *; try lia.
      assert (length (Decoder.zip_with QuestionMask.temp_question_mask_row t u) = length t).
      { clear -Hsame. revert u Hsame. induction t as [|x t IH]; intros [|y u] H;
          simpl in *; try lia. f_equal. apply IH. lia. }
      lia. }
    apply Nat.eqb_neq in Hrows. now rewrite Hrows.
Qed.

Lemma X12_generation_needs_batches_of_four_witness :
  QuestionMask.masky Torch.cpu
    [[1; 1; 1; 1; 1; 1; 1; 1; 1; 1; 0; 0; 1; 0]]%Z
    [[1; 1; 1; 1; 1; 1; 1; 1; 1; 1; 1; 1; 1; 0]]%Z
  = Raise RuntimeError.
Proof.
  apply X12_generation_needs_batches_of_four; simpl; lia.
Defined.

(** ** Attention and transformer shapes, any number of heads *)

Section AnyHeads.

Variables (b n m c d h : Z).
Hypothesis Hb : (0 <= b)%Z.
Hypothesis Hn : (0 <= n)%Z.
Hypothesis Hm : (0 <= m)%Z.
Hypothesis Hh : (0 < h <= c)%Z.
Hypothesis Hdiv : (c mod h = 0)%Z.

Lemma heads_divide : (h * (c / h) = c)%Z /\ (0 < c / h)%Z.
Proof.
  pose proof (Z.div_mod c h ltac:(lia)) as H.
  assert (h * (c / h) = c)%Z by lia. split; [assumption|]. nia.
Qed.

Lemma cross_attention_shape :
  Attention.forward (Attention.mkMHA h c d) [b; n; c] (Some [b; m; d])
  = Ok ([b; n; c], [b; n; m; h]).
Proof.
  destruct heads_divide as [Hc Hq].
  unfold Attention.forward.
  cbn [Attention.num_heads Attention.dim_self Attention.dim_ref].
  destruct (h =? 0)%Z eqn:E; [apply Z.eqb_eq in E; lia|].
  rewrite !linear_3d. cbn [bind].
  rewrite reshape_exact by (repeat constructor; lia).
  replace (Shape.numel [b; n; h; (c / h)%Z]) with (Shape.numel [b; n; c])
    by (unfold Shape.numel; cbn [fold_right]; rewrite <- Hc at 1; ring).
  rewrite Z.eqb_refl. cbn [bind].
  rewrite reshape_exact by (repeat constructor; lia).
  replace (Shape.numel [b; m; 2%Z; h; (c / h)%Z]) with (Shape.numel [b; m; (c * 2)%Z])
    by (unfold Shape.numel; cbn [fold_right]; rewrite <- Hc at 1; ring).
  rewrite Z.eqb_refl. cbn [bind].
  rewrite reshape_exact by (repeat constructor; lia).
  replace (Shape.numel [b; n; h; (c / h)%Z]) with (Shape.numel [b; n; c])
    by (unfold Shape.numel; cbn [fold_right]; rewrite <- Hc at 1; ring).
  rewrite Z.eqb_refl. cbn [bind]. rewrite linear_3d. reflexivity.
Qed.

Lemma layer_shape :
  Mapper.TransformerLayer_forward
    (Mapper.mkLayer (Attention.mkMHA h c d) c (2 * c)) [b; n; c] (Some [b; m; d])
  = Ok [b; n; c].
Proof.
  unfold Mapper.TransformerLayer_forward.
  cbn [Mapper.norm_dim Mapper.attn Mapper.h_dim].
  unfold Shape.layer_norm. cbn [rev app]. rewrite Z.eqb_refl. cbn [bind].
  rewrite cross_attention_shape. cbn [bind fst].
  rewrite add_same. cbn [bind]. cbn [rev app]. rewrite Z.eqb_refl. cbn [bind].
  unfold Mapper.MlpTransformer_forward. rewrite !linear_3d. cbn [bind].
  rewrite linear_3d. apply add_same.
Qed.

End AnyHeads.

(** X13. [MultiHeadAttention] with [dim_self] a multiple of [num_heads]:
    on queries of shape [(b, n, c)] and a reference input of shape
    [(b, m, d)] the output has the shape of the queries and the attention
    weights have shape [(b, n, m, num_heads)]; without a reference input
    the block attends to the queries themselves, which needs
    [dim_ref = dim_self]. *)
Theorem X13_attention_shapes (b n m c d h : Z) :
  (0 <= b)%Z -> (0 <= n)%Z -> (0 <= m)%Z -> (0 < h <= c)%Z -> (c mod h = 0)%Z ->
  (0 <= d)%Z ->
  exists self,
    Attention.init c d h = Ok self
    /\ Attention.forward self [b; n; c] (Some [b; m; d])
       = Ok ([b; n; c], [b; n; m; h])
    /\ (d = c ->
        Attention.forward self [b; n; c] None = Ok ([b; n; c], [b; n; n; h])).
Proof.
  intros Hb Hn Hm Hh Hdiv Hd.
  exists (Attention.mkMHA h c d). split; [|split].
  - unfold Attention.init.
    destruct (@heads_divide c h Hh Hdiv) as [_ Hq].
    destruct (h =? 0)%Z eqn:E; [apply Z.eqb_eq in E; lia|].
    destruct (c / h =? 0)%Z eqn:E2; [apply Z.eqb_eq in E2; lia|].
    destruct (c <? 0)%Z eqn:E3; [apply Z.ltb_lt in E3; lia|].
    destruct (d <? 0)%Z eqn:E4; [apply Z.ltb_lt in E4; lia|].
    reflexivity.
  - now apply cross_attention_shape.
  - intros ->.
    change (Attention.forward (Attention.mkMHA h c c) [b; n; c] None)
      with (Attention.forward (Attention.mkMHA h c c) [b; n; c] (Some [b; n; c])).
    now apply cross_attention_shape.
Qed.

Lemma X13_attention_shapes_witness :
  exists self,
    Attention.init 768 512 8 = Ok self
    /\ Attention.forward self [32; 10; 768]%Z (Some [32; 20; 512]%Z)
       = Ok ([32; 10; 768]%Z, [32; 10; 20; 8]%Z).
Proof.
  destruct (@X13_attention_shapes 32 10 20 768 512 8) as (self & H1 & H2 & _);
    try lia; [reflexivity|].
  exists self. split; assumption.
Defined.

Lemma build_and_run (b n m c d h : Z) (enc_dec : bool) :
  (0 <= b)%Z -> (0 <= n)%Z -> (0 <= m)%Z -> (0 < h <= c)%Z -> (c mod h = 0)%Z ->
  (0 <= d)%Z ->
  forall k i,
  exists ls,
    Mapper.build_layers c d h enc_dec i k = Ok ls
    /\ length ls = k
    /\ Mapper.run_layers enc_dec i ls [b; n; c] (Some [b; m; d]) = Ok [b; n; c].
Proof.
  intros Hb Hn Hm Hh Hdiv Hd.
  assert (Hinit : forall r, (0 <= r)%Z ->
            Mapper.TransformerLayer_init c r h
            = Ok (Mapper.mkLayer (Attention.mkMHA h c r) c (2 * c))).
  { intros r Hr. unfold Mapper.TransformerLayer_init, Attention.init.
    destruct (@heads_divide c h Hh Hdiv) as [_ Hq].
    destruct (h =? 0)%Z eqn:E; [apply Z.eqb_eq in E; lia|].
    destruct (c / h =? 0)%Z eqn:E2; [apply Z.eqb_eq in E2; lia|].
    destruct (c <? 0)%Z eqn:E3; [apply Z.ltb_lt in E3; lia|].
    destruct (r <? 0)%Z eqn:E4; [apply Z.ltb_lt in E4; lia|].
    reflexivity. }
  induction k as [|k IH]; intros i.
  - exists []. auto.
  - destruct (IH (S i)) as (ls & Hb' & Hl & Hr).
    cbn [Mapper.build_layers Mapper.run_layers].
    destruct (Nat.even i && enc_dec)%bool eqn:Ecross.
    + rewrite (Hinit d Hd). cbn [bind]. rewrite Hb'. cbn [bind].
      eexists. split; [reflexivity|]. split; [simpl; lia|].
      cbn [Mapper.run_layers]. rewrite Ecross.
      rewrite (@layer_shape b n m c d h) by assumption. cbn [bind]. exact Hr.
    + destruct enc_dec.
      * rewrite (Hinit c ltac:(lia)). cbn [bind]. rewrite Hb'. cbn [bind].
        eexists. split; [reflexivity|]. split; [simpl; lia|].
        cbn [Mapper.run_layers]. rewrite Ecross.
        change (@Some Shape.shape) with (@Some (list Z)).
        rewrite (@layer_shape b n n c c h) by assumption. cbn [bind]. exact Hr.
      * rewrite (Hinit d Hd). cbn [bind]. rewrite Hb'. cbn [bind].
        eexists. split; [reflexivity|]. split; [simpl; lia|].
        cbn [Mapper.run_layers]. rewrite Ecross.
        rewrite (@layer_shape b n m c d h) by assumption. cbn [bind]. exact Hr.
Qed.

(** X14. [Transformer] builds [num_layers] layers ([2 * num_layers] for an
    encoder-decoder) and its [forward] returns a tensor of the shape of its
    input, for every number of layers. *)
Theorem X14_transformer_keeps_the_shape (b n m c d h : Z) (num_layers : nat)
  (enc_dec : bool) :
  (0 <= b)%Z -> (0 <= n)%Z -> (0 <= m)%Z -> (0 < h <= c)%Z -> (c mod h = 0)%Z ->
  (0 <= d)%Z ->
  exists t,
    Mapper.Transformer_init c h num_layers (Some d) enc_dec = Ok t
    /\ length (Mapper.layers t)
       = (if enc_dec then num_layers * 2 else num_layers)%nat
    /\ Mapper.Transformer_forward t [b; n; c] (Some [b; m; d]) = Ok [b; n; c].
Proof.
  intros Hb Hn Hm Hh Hdiv Hd.
  unfold Mapper.Transformer_init.
  destruct (@build_and_run b n m c d h enc_dec Hb Hn Hm Hh Hdiv Hd
              (if enc_dec then (num_layers * 2)%nat else num_layers) 0%nat)
    as (ls & Hbuild & Hlen & Hrun).
  rewrite Hbuild. cbn [bind]. eexists. split; [reflexivity|].
  split; [exact Hlen | exact Hrun].
Qed.

Lemma X14_transformer_keeps_the_shape_witness :
  exists t,
    Mapper.Transformer_init 768 8 8 (Some 512%Z) true = Ok t
    /\ length (Mapper.layers t) = 16%nat
    /\ Mapper.Transformer_forward t [32; 10; 768]%Z (Some [32; 20; 512]%Z)
       = Ok [32; 10; 768]%Z.
Proof.
  apply (@X14_transformer_keeps_the_shape 32 10 20 768 512 8 8 true); try lia.
  reflexivity.
Defined.

(** ** The layers of the MLP mapper *)

Lemma linear_last in_f out_f batch :
  Shape.linear in_f out_f (batch ++ [in_f]) = Ok (batch ++ [out_f]).
Proof.
  unfold Shape.linear. rewrite rev_app_distr. cbn [rev app].
  rewrite Z.eqb_refl, removelast_last. reflexivity.
Qed.

Lemma linear_wrong_last in_f out_f batch x :
  x <> in_f -> Shape.linear in_f out_f (batch ++ [x]) = Raise RuntimeError.
Proof.
  intros H. unfold Shape.linear. rewrite rev_app_distr. cbn [rev app].
  apply Z.eqb_neq in H. now rewrite H.
Qed.

Lemma sequential_is_mlp_forward_cons rest : forall a x,
  Layers.Sequential_forward (Layers.MLP_layers (a :: rest)) x
  = Mapper.MLP_forward (a :: rest) x.
Proof.
  induction rest as [|b rest IH]; intros a x; [reflexivity|].
  cbn [Layers.MLP_layers Mapper.MLP_forward].
  cbn [Layers.Sequential_forward Layers.layer_forward app].
  destruct (Shape.linear a b x) as [x'|e]; cbn [bind]; [|reflexivity].
  destruct rest as [|c rest']; [reflexivity|]. exact (IH b x').
Qed.

Lemma sequential_is_mlp_forward sizes x :
  Layers.Sequential_forward (Layers.MLP_layers sizes) x = Mapper.MLP_forward sizes x.
Proof.
  destruct sizes; [reflexivity | apply sequential_is_mlp_forward_cons].
Qed.

Lemma last_cons_default {A} (x : A) l d d' : last (x :: l) d = last (x :: l) d'.
Proof. revert x; induction l as [|y l IH]; intros x; [reflexivity|]. exact (IH y). Qed.

Lemma mlp_layers_end a b rest :
  exists init a' b',
    Layers.MLP_layers (a :: b :: rest) = init ++ [Layers.Linear a' b']
    /\ b' = last (b :: rest) b
    /\ length (Layers.MLP_layers (a :: b :: rest)) = (2 * length rest + 1)%nat.
Proof.
  revert a b. induction rest as [|c rest IH]; intros a b.
  - exists [], a, b. auto.
  - destruct (IH b c) as (init & a' & b' & E & Hlast & Hlen).
    exists (Layers.Linear a b :: Layers.Tanh :: init), a', b'.
    change (Layers.MLP_layers (a :: b :: c :: rest))
      with (Layers.Linear a b :: Layers.Tanh :: Layers.MLP_layers (b :: c :: rest)).
    rewrite E. split; [reflexivity|]. split.
    + rewrite Hlast. change (last (b :: c :: rest) b) with (last (c :: rest) b).
      apply last_cons_default.
    + cbn [length]. rewrite <- E. rewrite Hlen. simpl. lia.
Qed.

Lemma mlp_forward_shape sizes : forall first batch,
  Mapper.MLP_forward (first :: sizes) (batch ++ [first])
  = Ok (batch ++ [last sizes first]).
Proof.
  induction sizes as [|b rest IH]; intros first batch; [reflexivity|].
  change (Mapper.MLP_forward (first :: b :: rest) (batch ++ [first]))
    with (x' <- Shape.linear first b (batch ++ [first]) ;;
          Mapper.MLP_forward (b :: rest) x').
  rewrite linear_last. cbn [bind]. rewrite IH.
  destruct rest as [|c r]; [reflexivity|].
  do 3 f_equal. change (last (b :: c :: r) first) with (last (c :: r) first).
  apply last_cons_default.
Qed.

(** X15. [MLP] for at least two sizes builds [2 * len(sizes) - 3] modules,
    the last one a [Linear] into [sizes[-1]] (no activation after it);
    its [forward] maps the last dimension [sizes[0]] to [sizes[-1]],
    keeping the leading dimensions, and raises on any other last
    dimension. *)
Theorem X15_mlp_layers (first second : Z) (rest : list Z) (batch : Shape.shape) :
  let sizes := first :: second :: rest in
  (exists init a b,
     Layers.MLP_layers sizes = init ++ [Layers.Linear a b]
     /\ b = last sizes first
     /\ length (Layers.MLP_layers sizes) = (2 * length sizes - 3)%nat)
  /\ Layers.Sequential_forward (Layers.MLP_layers sizes) (batch ++ [first])
     = Ok (batch ++ [last sizes first])
  /\ (forall x, x <> first ->
        Layers.Sequential_forward (Layers.MLP_layers sizes) (batch ++ [x])
        = Raise RuntimeError).
Proof.
  cbn zeta. split; [|split].
  - destruct (mlp_layers_end first second rest) as (init & a & b & E & Hl & Hlen).
    exists init, a, b. split; [exact E|]. split.
    + rewrite Hl. change (last (first :: second :: rest) first)
        with (last (second :: rest) first). apply last_cons_default.
    + rewrite Hlen. cbn [length]. lia.
  - rewrite sequential_is_mlp_forward, mlp_forward_shape. reflexivity.
  - intros x Hx.
    cbn [Layers.MLP_layers Layers.Sequential_forward Layers.layer_forward].
    now rewrite linear_wrong_last.
Qed.

(** ** The embeddings handed to GPT-2 *)

Lemma prefix_projections_shape (b E pl cl prefix_size : Z) (num_layers : nat)
  (mapping_type : Mapper.MappingType) :
  (0 < b)%Z -> (0 < E)%Z -> (E mod 8 = 0)%Z -> (0 < pl)%Z -> (0 < cl)%Z ->
  (0 <= prefix_size)%Z ->
  exists m,
    Mapper.ClipCaptionModel_init E pl cl prefix_size num_layers mapping_type = Ok m
    /\ Mapper.gpt_embedding_size m = E
    /\ Mapper.prefix_projections m [b; prefix_size] = Ok [b; pl; E].
Proof.
  intros Hb HE H8 Hp Hc Hs. destruct mapping_type.
  - unfold Mapper.ClipCaptionModel_init.
    destruct (prefix_size <? 0)%Z eqn:E1; [apply Z.ltb_lt in E1; lia|].
    destruct (E * pl <? 0)%Z eqn:E2; [apply Z.ltb_lt in E2; nia|].
    cbn [orb]. eexists. split; [reflexivity|]. split; [reflexivity|].
    unfold Mapper.prefix_projections.
    cbn [Mapper.clip_project Mapper.prefix_length Mapper.gpt_embedding_size
         Mapper.clip_project_forward].
    rewrite mlp_shape. cbn [bind].
    apply reshape_infer_first; try lia.
    unfold Shape.numel. cbn [fold_right]. ring.
  - destruct (@transformer_mapper_shape b E pl cl prefix_size num_layers)
      as (tm & Hinit & Hfwd); try assumption.
    unfold Mapper.ClipCaptionModel_init. rewrite Hinit. cbn [bind].
    eexists. split; [reflexivity|]. split; [reflexivity|].
    unfold Mapper.prefix_projections.
    cbn [Mapper.clip_project Mapper.prefix_length Mapper.gpt_embedding_size
         Mapper.clip_project_forward].
    rewrite Hfwd. cbn [bind].
    apply reshape_infer_first; try lia.
    unfold Shape.numel. cbn [fold_right]. ring.
Qed.

(** X16. The mask returned by [pad_tokens] fits the sequence that
    [ClipCaptionModel.forward] gives to GPT-2: the concatenation of the
    projected prefix and the token embeddings has shape
    [(batch, len(mask), embedding)], for both mapper variants. *)
Theorem X16_mask_matches_embedding_length
  (b E pl cl prefix_size : Z) (num_layers : nat) (mapping_type : Mapper.MappingType)
  (d d' : IC.ClipCocoDataset) (item : nat) (toks mask : list Z) :
  (0 < b)%Z -> (0 < E)%Z -> (E mod 8 = 0)%Z -> (0 < pl)%Z -> (0 < cl)%Z ->
  (0 <= prefix_size)%Z ->
  IC.prefix_length d = pl -> (0 <= IC.max_seq_len d)%Z ->
  IC.pad_tokens d item = Some (d', (toks, mask)) ->
  exists m,
    Mapper.ClipCaptionModel_init E pl cl prefix_size num_layers mapping_type = Ok m
    /\ Layers.embedding_cat m [b; Py.len toks] [b; prefix_size]
       = Ok [b; Py.len mask; E].
Proof.
  intros Hb HE H8 Hp Hc Hs Hpl Hm Hcall.
  destruct (@prefix_projections_shape b E pl cl prefix_size num_layers mapping_type)
    as (m & Hinit & HEm & Hpp); try assumption.
  exists m. split; [exact Hinit|].
  assert (Hi : (item < length (IC.captions_tokens d))%nat).
  { unfold IC.pad_tokens in Hcall.
    destruct (nth_error (IC.captions_tokens d) item) eqn:E0; [|discriminate].
    apply nth_error_Some. congruence. }
  destruct (@pad_tokens_spec d item) as (d2 & toks2 & mask2 & Hc2 & Hlm & Hlt & _);
    try lia.
  rewrite Hcall in Hc2. injection Hc2 as <- <- <-.
  unfold Layers.embedding_cat, Layers.wte. rewrite Hpp, HEm. cbn [bind app].
  unfold Shape.cat1. rewrite !Z.eqb_refl. cbn [andb].
  do 3 f_equal. lia.
Qed.

Lemma X16_mask_matches_embedding_length_witness :
  exists d' toks mask,
    IC.pad_tokens (IC.mkDataset 10 4 [[5; 6]]%Z) 0 = Some (d', (toks, mask))
    /\ exists m,
      Mapper.ClipCaptionModel_init 768 10 10 512 8 Mapper.TransformerT = Ok m
      /\ Layers.embedding_cat m [32%Z; Py.len toks] [32; 512]%Z
         = Ok [32%Z; Py.len mask; 768%Z].
Proof.
  exists (IC.mkDataset 10 4 [[5; 6; 0; 0]]%Z), [5; 6; 0; 0]%Z,
    [1; 1; 1; 1; 1; 1; 1; 1; 1; 1; 1; 1; 0; 0]%Z.
  split; [reflexivity|].
  apply (@X16_mask_matches_embedding_length 32 768 10 10 512 8 Mapper.TransformerT
           (IC.mkDataset 10 4 [[5; 6]]%Z) (IC.mkDataset 10 4 [[5; 6; 0; 0]]%Z) 0);
    try lia; try reflexivity.
  simpl; lia.
Defined.

(** ** What the decoder records and returns *)

Lemma first_stop_snoc stop eos row t :
  first_stop stop eos (row ++ [t])
  = match first_stop stop eos row with
    | Some i => Some i
    | None => if Decoder.is_stop stop eos t then Some (length row) else None
    end.
Proof.
  induction row as [|x r IH]; cbn [app first_stop length].
  - destruct (Decoder.is_stop stop eos t); reflexivity.
  - destruct (Decoder.is_stop stop eos x); [reflexivity|].
    rewrite IH. destruct (first_stop stop eos r); [reflexivity|].
    destruct (Decoder.is_stop stop eos t); reflexivity.
Qed.

Lemma first_stop_existsb stop eos row :
  existsb (Decoder.is_stop stop eos) row
  = match first_stop stop eos row with Some _ => true | None => false end.
Proof.
  induction row as [|x r IH]; cbn [existsb first_stop]; [reflexivity|].
  destruct (Decoder.is_stop stop eos x); [reflexivity|].
  cbn [orb]. rewrite IH. now destruct (first_stop stop eos r).
Qed.

Lemma first_stop_bound stop eos row t :
  first_stop stop eos row = Some t -> (t < length row)%nat.
Proof.
  revert t; induction row as [|x r IH]; intros t; cbn [first_stop length]; [discriminate|].
  destruct (Decoder.is_stop stop eos x); [intros [= <-]; lia|].
  destruct (first_stop stop eos r) as [i|]; [|discriminate].
  intros [= <-]. specialize (IH i eq_refl). lia.
Qed.

Section DecoderMore.

Variable batch_size : nat.
Variables stop eos : Z.
Variable temperature : R.
Variable lm_logits : list (list Z) -> nat -> list R.
Hypothesis vocab : forall g s, lm_logits g s <> [].

#[local] Abbreviation body := (Decoder.body batch_size stop eos temperature lm_logits).
#[local] Abbreviation iterate := (Decoder.iterate batch_size stop eos temperature lm_logits).
#[local] Abbreviation loop := (Decoder.loop batch_size stop eos temperature lm_logits).
#[local] Abbreviation inv := (decoder_inv batch_size stop eos).

(** The recorded length of a sequence after one more run of the body. *)
Lemma body_length st st' s l bstop :
  body st = Some st' ->
  nth_error (Decoder.seq_lengths st) s = Some l ->
  nth_error (Decoder.is_stopped st) s = Some bstop ->
  nth_error (Decoder.seq_lengths st') s = Some (if bstop then l else (l + 1)%Z).
Proof.
  unfold Decoder.body. destruct (Decoder.next_tokens _ _ _ _) as [nt|]; [|discriminate].
  intros [= <-] Hl Hb. cbn [Decoder.seq_lengths].
  now rewrite nth_error_zip_with, Hl, Hb.
Qed.

Lemma iterate_recorded k : forall st s,
  iterate k = Some st -> (s < batch_size)%nat ->
  nth_error (Decoder.seq_lengths st) s = Some (recorded stop eos k (Decoder.row st s)).
Proof.
  induction k as [|k IH]; intros st s E Hs.
  - injection E as <-. unfold Decoder.initial, Decoder.row, recorded. cbn.
    now apply nth_error_repeat.
  - destruct (@iterate_inv batch_size stop eos temperature lm_logits vocab k)
      as (st0 & E0 & I0).
    cbn [Decoder.iterate] in E. rewrite E0 in E.
    destruct (@body_step batch_size stop eos temperature lm_logits vocab k st0 I0)
      as (st1 & Hb & _ & Hstep).
    rewrite Hb in E. injection E as <-.
    destruct (Hstep s Hs) as ((t & Hrow) & _).
    destruct I0 as (Hseq & _). destruct (Hseq s Hs) as (l & E1 & E2 & E3 & _).
    specialize (IH st0 s E0 Hs). rewrite E1 in IH. injection IH as ->.
    rewrite (@body_length st0 st1 s _ _ Hb E1 E2). f_equal.
    unfold recorded. rewrite Hrow, first_stop_snoc, first_stop_existsb.
    destruct (first_stop stop eos (Decoder.row st0 s)) as [i|]; [reflexivity|].
    destruct (Decoder.is_stop stop eos t); lia.
Qed.

(** X17. [generate_topk]: the length recorded for a sequence is the
    position of its first stop or end-of-sequence token plus two, and one
    plus the number of steps for a sequence without one; so the ids that
    are decoded for a stopped sequence are its tokens up to the stop
    token, the stop token itself and the token generated after it, if
    any. *)
Theorem X17_recorded_length_is_two_past_the_stop (entry_length s : nat) :
  (0 < entry_length)%nat -> (s < batch_size)%nat ->
  exists ids final decoded,
    Decoder.generate_topk_ids batch_size stop eos temperature lm_logits 1 entry_length
    = Some ids
    /\ Decoder.after batch_size stop eos temperature lm_logits entry_length = Some final
    /\ nth_error ids s = Some decoded
    /\ (length (Decoder.row final s) <= entry_length)%nat
    /\ nth_error (Decoder.seq_lengths final) s
       = Some (recorded stop eos (length (Decoder.row final s)) (Decoder.row final s))
    /\ forall t, first_stop stop eos (Decoder.row final s) = Some t ->
         decoded = firstn (t + 2) (Decoder.row final s)
         /\ nth_error decoded t = nth_error (Decoder.row final s) t
         /\ nth_error decoded (t + 1) = nth_error (Decoder.row final s) (t + 1).
Proof.
  intros Hlen Hs.
  destruct (@loop_iterate batch_size stop eos temperature lm_logits vocab
              entry_length 0 (Decoder.initial batch_size) eq_refl)
    as (jn & final & Hl & Hi & Hb & Hpos & _ & _).
  specialize (Hpos Hlen).
  destruct (@iterate_inv batch_size stop eos temperature lm_logits vocab jn)
    as (st & E & I).
  rewrite Hi in E. injection E as <-.
  pose proof I as (Hseq & _ & _ & Htok).
  destruct (Hseq s Hs) as (l & E1 & _ & E3 & _).
  pose proof (@iterate_recorded jn final s Hi Hs) as Hrec.
  destruct (Decoder.tokens final) as [rows|] eqn:Et; [|lia].
  destruct Htok as [Hrows _].
  destruct (nth_error rows s) as [r|] eqn:Er; [|apply nth_error_None in Er; lia].
  assert (Hrow : Decoder.row final s = r).
  { unfold Decoder.row. rewrite Et. now apply nth_error_nth. }
  rewrite E1 in Hrec. injection Hrec as Hl'.
  exists (Decoder.zip_with (fun output length => Py.slice_to output length)
            rows (Decoder.seq_lengths final)), final, (Py.slice_to r l).
  assert (Hout : Decoder.output_ids final
                 = Some (Decoder.zip_with (fun output length => Py.slice_to output length)
                           rows (Decoder.seq_lengths final))).
  { unfold Decoder.output_ids. now rewrite Et. }
  split; [|split; [|split; [|split; [|split]]]].
  - unfold Decoder.generate_topk_ids, Decoder.entries, Decoder.entry.
    change (Decoder.mkState [] (Decoder.tokens (Decoder.initial batch_size))
              (Decoder.seq_lengths (Decoder.initial batch_size))
              (Decoder.is_stopped (Decoder.initial batch_size)))
      with (Decoder.initial batch_size).
    now rewrite Hl, Hout.
  - exact Hl.
  - now rewrite nth_error_zip_with, Er, E1.
  - lia.
  - rewrite E1, E3. congruence.
  - intros t Ht. rewrite Hrow in *.
    assert (Hlt : l = (Z.of_nat t + 2)%Z).
    { rewrite Hl'. unfold recorded. now rewrite Ht. }
    assert (Hslice : Py.slice_to r l = firstn (t + 2) r).
    { unfold Py.slice_to. destruct (0 <=? l)%Z eqn:E0; [|apply Z.leb_gt in E0; lia].
      f_equal. lia. }
    rewrite Hslice. split; [reflexivity|].
    rewrite !nth_error_firstn.
    destruct (t <? t + 2)%nat eqn:Ea; [|apply Nat.ltb_ge in Ea; lia].
    destruct (t + 1 <? t + 2)%nat eqn:Eb; [|apply Nat.ltb_ge in Eb; lia].
    auto.
Qed.

(** X18. [generate_topk] called without tokens raises when no step is made
    ([entry_count = 0] leaves [output_texts] unbound, [entry_length = 0]
    leaves [tokens] at [None]); with one entry and at least one step it
    returns one non-empty id sequence per batch element. *)
Theorem X18_generate_topk_needs_a_step (entry_length : nat) :
  Decoder.generate_topk_ids batch_size stop eos temperature lm_logits 0 entry_length
  = None
  /\ Decoder.generate_topk_ids batch_size stop eos temperature lm_logits 1 0 = None
  /\ ((0 < entry_length)%nat ->
      exists ids,
        Decoder.generate_topk_ids batch_size stop eos temperature lm_logits 1
          entry_length = Some ids
        /\ length ids = batch_size
        /\ Forall (fun decoded => decoded <> []) ids).
Proof.
  split; [reflexivity|]. split; [reflexivity|]. intros Hlen.
  destruct (@loop_iterate batch_size stop eos temperature lm_logits vocab
              entry_length 0 (Decoder.initial batch_size) eq_refl)
    as (jn & final & Hl & Hi & Hb & Hpos & _ & _).
  specialize (Hpos Hlen).
  destruct (@iterate_inv batch_size stop eos temperature lm_logits vocab jn)
    as (st & E & I).
  rewrite Hi in E. injection E as <-.
  destruct I as (Hseq & Hl1 & _ & Htok).
  destruct (Decoder.tokens final) as [rows|] eqn:Et; [|lia].
  destruct Htok as [Hrows _].
  exists (Decoder.zip_with (fun output length => Py.slice_to output length)
            rows (Decoder.seq_lengths final)).
  split; [|split].
  - unfold Decoder.generate_topk_ids, Decoder.entries, Decoder.entry.
    change (Decoder.mkState [] (Decoder.tokens (Decoder.initial batch_size))
              (Decoder.seq_lengths (Decoder.initial batch_size))
              (Decoder.is_stopped (Decoder.initial batch_size)))
      with (Decoder.initial batch_size).
    rewrite Hl. unfold Decoder.output_ids. now rewrite Et.
  - rewrite length_zip_with, Hrows, Hl1. apply Nat.min_id.
  - apply Forall_forall. intros dec Hin.
    apply In_nth_error in Hin. destruct Hin as [s Hs].
    assert (Hsb : (s < batch_size)%nat).
    { assert (s < length (Decoder.zip_with (fun output length => Py.slice_to output length)
                            rows (Decoder.seq_lengths final)))%nat
        by (apply nth_error_Some; congruence).
      rewrite length_zip_with, Hrows, Hl1, Nat.min_id in H. exact H. }
    destruct (Hseq s Hsb) as (l & E1 & _ & E3 & _ & E5).
    rewrite nth_error_zip_with, E1 in Hs.
    destruct (nth_error rows s) as [r|] eqn:Er; [|discriminate].
    injection Hs as <-.
    assert (Hrow : Decoder.row final s = r).
    { unfold Decoder.row. rewrite Et. now apply nth_error_nth. }
    rewrite Hrow in E3.
    unfold Py.slice_to. destruct (0 <=? l)%Z eqn:E0; [|apply Z.leb_gt in E0; lia].
    intros Hnil. apply (f_equal (@length Z)) in Hnil.
    rewrite length_firstn in Hnil. simpl in Hnil. lia.
Qed.

End DecoderMore.

Lemma X17_recorded_length_is_two_past_the_stop_witness :
  exists ids final decoded,
    Decoder.generate_topk_ids 2 13 50256 1 (fun _ _ => [0; 1]%R) 1 50 = Some ids
    /\ Decoder.after 2 13 50256 1 (fun _ _ => [0; 1]%R) 50 = Some final
    /\ nth_error ids 1 = Some decoded
    /\ nth_error (Decoder.seq_lengths final) 1
       = Some (recorded 13 50256 (length (Decoder.row final 1)) (Decoder.row final 1)).
Proof.
  destruct (@X17_recorded_length_is_two_past_the_stop 2 13 50256 1
              (fun _ _ => [0; 1]%R) ltac:(intros g s H; discriminate H) 50 1)
    as (ids & final & decoded & H1 & H2 & H3 & _ & H5 & _); try lia.
  exists ids, final, decoded. auto.
Defined.

Lemma X18_generate_topk_needs_a_step_witness :
  exists ids,
    Decoder.generate_topk_ids 2 13 50256 1 (fun _ _ => [0; 1]%R) 1 50 = Some ids
    /\ length ids = 2%nat.
Proof.
  destruct (@X18_generate_topk_needs_a_step 2 13 50256 1
              (fun _ _ => [0; 1]%R) ltac:(intros g s H; discriminate H) 50)
    as (_ & _ & H).
  destruct (H ltac:(lia)) as (ids & H1 & H2 & _).
  exists ids. auto.
Defined.

(** ** The multi-task loop over several epochs *)

Section MultiTaskEpochs.

Variables Model BatchIC BatchVQA : Type.
Variable loss_ic : Model -> BatchIC -> R.
Variable loss_vqa : Model -> BatchVQA -> R.
Variable optimizer_step : Model -> BatchIC -> BatchVQA -> Model.
Variable batch_dim_ic : BatchIC -> Z.
Variable batch_dim_vqa : BatchVQA -> Z.

#[local] Abbreviation mtl_loop := (MTL.epoch_loop loss_ic loss_vqa optimizer_step batch_dim_ic batch_dim_vqa).
#[local] Abbreviation mtl_epoch := (MTL.epoch loss_ic loss_vqa optimizer_step batch_dim_ic batch_dim_vqa).
#[local] Abbreviation mtl_run := (MTL.run_epochs loss_ic loss_vqa optimizer_step batch_dim_ic batch_dim_vqa).


Lemma epoch_steps ic vqa (st st' : MTL.state Model) :
  mtl_epoch ic vqa st = Some st' ->
  MTL.scheduler_steps st'
  = (MTL.scheduler_steps st + Nat.min (length ic) (length vqa))%nat
  /\ length (MTL.avg_train_loss_ic st') = S (length (MTL.avg_train_loss_ic st))
  /\ length (MTL.avg_train_loss_vqa st') = S (length (MTL.avg_train_loss_vqa st)).
Proof.
  intros H. destruct (epoch_reports _ _ _ _ _ _ _ _ H) as [Hi Hv].
  rewrite Hi, Hv, !length_app. simpl. split; [|lia].
  unfold MTL.epoch in H.
  destruct (MTL.fdiv _ _); [|discriminate].
  destruct (MTL.fdiv _ _); [|discriminate].
  injection H as <-. simpl. apply epoch_loop_steps.
Qed.

Lemma run_epochs_steps epochs : forall ic vqa (st st' : MTL.state Model),
  mtl_run epochs ic vqa st = Some st' ->
  MTL.scheduler_steps st'
  = (MTL.scheduler_steps st + epochs * Nat.min (length ic) (length vqa))%nat
  /\ length (MTL.avg_train_loss_ic st')
     = (length (MTL.avg_train_loss_ic st) + epochs)%nat
  /\ length (MTL.avg_train_loss_vqa st')
     = (length (MTL.avg_train_loss_vqa st) + epochs)%nat.
Proof.
  induction epochs as [|k IH]; intros ic vqa st st'; cbn [MTL.run_epochs].
  - intros [= <-]. lia.
  - destruct (mtl_epoch ic vqa st) as [st1|] eqn:E; [|discriminate].
    intros H. apply IH in H. apply epoch_steps in E. lia.
Qed.


(** X21. Over a whole run of the multi-task script the scheduler is stepped
    [epochs * min(#captioning batches, #question-answering batches)]
    times, which never exceeds the [num_training_steps] it was built with
    ([epochs * #question-answering batches]) and stays below it when the
    captioning loader is the shorter one. *)
Theorem X21_scheduler_steps_against_the_planned_steps
  (epochs : nat) ic vqa (m : Model) (st' : MTL.state Model) :
  mtl_run epochs ic vqa (MTL.initial m) = Some st' ->
  Z.of_nat (MTL.scheduler_steps st')
  = (Z.of_nat epochs * Z.min (Py.len ic) (Py.len vqa))%Z
  /\ (Z.of_nat (MTL.scheduler_steps st') <= Schedule.num_training_steps epochs vqa)%Z
  /\ ((Py.len ic < Py.len vqa)%Z -> (0 < epochs)%nat ->
      (Z.of_nat (MTL.scheduler_steps st') < Schedule.num_training_steps epochs vqa)%Z).
Proof.
  intros H. apply run_epochs_steps in H. destruct H as (Hs & _).
  unfold Schedule.num_training_steps, Py.len. simpl in Hs. rewrite Hs.
  rewrite Nat2Z.inj_mul, Nat2Z.inj_min. repeat split; nia.
Qed.

End MultiTaskEpochs.


Lemma X21_scheduler_steps_against_the_planned_steps_witness :
  exists st',
    MTL.run_epochs (fun (_ : unit) (_ : nat) => 0%R) (fun (_ : unit) (_ : nat) => 0%R)
      (fun m _ _ => m) (fun _ => 1%Z) (fun _ => 1%Z)
      3 [1; 2]%nat [1; 2; 3]%nat (MTL.initial tt) = Some st'
    /\ Z.of_nat (MTL.scheduler_steps st') = 6%Z
    /\ (Z.of_nat (MTL.scheduler_steps st') < 9)%Z.
Proof.
  eexists. split; [reflexivity|].
  destruct (@X21_scheduler_steps_against_the_planned_steps unit nat nat
              (fun _ _ => 0%R) (fun _ _ => 0%R) (fun m _ _ => m)
              (fun _ => 1%Z) (fun _ => 1%Z) 3 [1; 2]%nat [1; 2; 3]%nat tt _ eq_refl)
    as (H1 & _ & H3).
  split; [exact H1|]. apply H3; [reflexivity | lia].
Defined.

(** ** The single-task training loop *)

Lemma range_from_in (n : nat) : forall first e,
  In e (range_from first n) <-> (first <= e < first + Z.of_nat n)%Z.
Proof.
  induction n as [|k IH]; intros first e.
  - simpl. lia.
  - change (range_from first (S k)) with (first :: range_from (first + 1) k).
    simpl In. rewrite IH. lia.
Qed.

Lemma fdiv_some (x : R) (A : Type) (l : list A) (v : R) :
  MTL.fdiv x (Py.len l) = Some v -> l <> [].
Proof.
  unfold MTL.fdiv. intros H ->. simpl in H. discriminate H.
Qed.

Section SingleTask.

Variables Model Batch : Type.
Variable loss : Model -> Batch -> option R.
Variable optimizer_step : Model -> Batch -> Model.
Variable validation_loss : Model -> Batch -> option R.
Variables epochs save_every : Z.

#[local] Abbreviation keeps :=
  (fun epoch : Z => ((epoch mod save_every =? 0) || (epoch =? epochs - 1))%Z).

(** What one completed epoch has done. *)
Lemma train_epoch_step (train_batches val_batches : list Batch) (e : Z)
  (st st' : Train.state Model) :
  Train.epoch_body loss optimizer_step validation_loss epochs save_every
    train_batches val_batches e st = Some st' ->
  save_every <> 0%Z /\ train_batches <> [] /\ val_batches <> []
  /\ length (Train.avg_train_loss st') = S (length (Train.avg_train_loss st))
  /\ length (Train.avg_val_loss st') = S (length (Train.avg_val_loss st))
  /\ map fst (Train.saved st') = map fst (Train.saved st) ++ filter keeps [e].
Proof.
  unfold Train.epoch_body.
  destruct (Train.batches _ _ _ _ _) as [[m train_loss]|]; [|discriminate].
  destruct (MTL.fdiv _ _) as [a|] eqn:Ea; [|discriminate].
  unfold Train.apply_validation.
  destruct (Train.validation_sum _ _ _ _) as [val_loss|]; [|discriminate].
  destruct (MTL.fdiv val_loss _) as [v|] eqn:Ev; [|discriminate].
  destruct (Z.eqb_spec save_every 0) as [E0|E0]; [discriminate|].
  intros [= <-].
  cbn [Train.avg_val_loss Train.avg_train_loss Train.saved].
  rewrite !length_app. simpl length.
  split; [exact E0|]. split; [exact (fdiv_some _ Ea)|].
  split; [exact (fdiv_some _ Ev)|]. split; [lia|]. split; [lia|].
  simpl filter.
  destruct ((e mod save_every =? 0) || (e =? epochs - 1))%Z.
  - now rewrite map_app.
  - now rewrite app_nil_r.
Qed.

Variables train_dataloader val_dataloader : Z -> list Batch.

#[local] Abbreviation epochs_from :=
  (Train.epochs_from loss optimizer_step validation_loss epochs save_every
     train_dataloader val_dataloader).

Lemma epochs_from_spec (n : nat) : forall first (st st' : Train.state Model),
  epochs_from first n st = Some st' ->
  ((0 < n)%nat -> save_every <> 0%Z)
  /\ (forall e, (first <= e < first + Z.of_nat n)%Z ->
        train_dataloader e <> [] /\ val_dataloader e <> [])
  /\ length (Train.avg_train_loss st') = (length (Train.avg_train_loss st) + n)%nat
  /\ length (Train.avg_val_loss st') = (length (Train.avg_val_loss st) + n)%nat
  /\ map fst (Train.saved st')
     = map fst (Train.saved st) ++ filter keeps (range_from first n).
Proof.
  induction n as [|k IH]; intros first st st'; cbn [Train.epochs_from].
  - intros [= <-]. simpl. rewrite app_nil_r.
    split; [lia|]. split; [intros; lia|]. split; [lia|]. split; [lia | reflexivity].
  - destruct (Train.epoch_body _ _ _ _ _ _ _ _ _) as [st1|] eqn:E; [|discriminate].
    intros H. apply IH in H. destruct H as (_ & Hdl & H1 & H2 & H3).
    destruct (train_epoch_step _ _ _ _ E) as (H0 & Ht & Hv & Ha & Hb & Hs).
    rewrite H1, H2, H3, Hs, Ha, Hb.
    change (range_from first (S k)) with (first :: range_from (first + 1) k).
    split; [intros _; exact H0|]. split; [|split; [lia|]; split; [lia|]].
    + intros e He. destruct (Z.eq_dec e first) as [-> | Hne]; [now split|].
      apply Hdl. lia.
    + rewrite <- app_assoc, <- filter_app. reflexivity.
Qed.

(** X23. A run of [train] over at least one epoch that completes had a
    [save_every] other than zero ([epoch % save_every] is evaluated in
    every epoch, after its training and validation), had batches to train
    and to validate on in every epoch, and has recorded one training
    average and one validation average per epoch. *)
Theorem X23_train_needs_batches_and_a_save_period
  (m : Model) (st : Train.state Model) :
  (0 < epochs)%Z ->
  Train.train loss optimizer_step validation_loss epochs save_every
    train_dataloader val_dataloader m = Some st ->
  save_every <> 0%Z
  /\ (forall e, (0 <= e < epochs)%Z ->
        train_dataloader e <> [] /\ val_dataloader e <> [])
  /\ Z.of_nat (length (Train.avg_train_loss st)) = epochs
  /\ Z.of_nat (length (Train.avg_val_loss st)) = epochs.
Proof.
  intros Hpos H. unfold Train.train in H.
  apply epochs_from_spec in H. destruct H as (H0 & Hdl & H1 & H2 & _).
  split; [apply H0; lia|]. split; [intros e He; apply Hdl; lia|].
  rewrite H1, H2. simpl. lia.
Qed.

(** X24. The checkpoints written by [train] are those of the epochs of
    [range(epochs)] with [epoch % save_every == 0] or
    [epoch == epochs - 1], in this order: the first and the last epoch are
    always saved. *)
Theorem X24_checkpoints_of_train (m : Model) (st : Train.state Model) :
  (0 < epochs)%Z ->
  Train.train loss optimizer_step validation_loss epochs save_every
    train_dataloader val_dataloader m = Some st ->
  map fst (Train.saved st) = checkpoint_epochs epochs save_every
  /\ In 0%Z (map fst (Train.saved st))
  /\ In (epochs - 1)%Z (map fst (Train.saved st)).
Proof.
  intros Hpos H. unfold Train.train in H.
  apply epochs_from_spec in H. destruct H as (_ & _ & _ & _ & H3).
  simpl in H3. unfold checkpoint_epochs. rewrite H3.
  split; [reflexivity|]. split; apply filter_In; split.
  - apply range_from_in. lia.
  - rewrite Zmod_0_l. reflexivity.
  - apply range_from_in. lia.
  - rewrite Z.eqb_refl. apply orb_true_r.
Qed.

End SingleTask.

Lemma X23_train_needs_batches_and_a_save_period_witness :
  exists st,
    Train.train (fun (_ : unit) (b : R) => Some b) (fun m _ => m)
      (fun _ b => Some b) 2 1 (fun _ => [1%R; 2%R]) (fun _ => [3%R]) tt = Some st
    /\ Z.of_nat (length (Train.avg_train_loss st)) = 2%Z
    /\ Z.of_nat (length (Train.avg_val_loss st)) = 2%Z.
Proof.
  eexists. split; [reflexivity|].
  apply (@X23_train_needs_batches_and_a_save_period unit R
           (fun _ b => Some b) (fun m _ => m) (fun _ b => Some b) 2 1
           (fun _ => [1%R; 2%R]) (fun _ => [3%R]) tt).
  - lia.
  - reflexivity.
Defined.

Lemma X24_checkpoints_of_train_witness :
  exists st,
    Train.train (fun (_ : unit) (b : R) => Some b) (fun m _ => m)
      (fun _ b => Some b) 4 2 (fun _ => [1%R; 2%R]) (fun _ => [3%R]) tt = Some st
    /\ map fst (Train.saved st) = [0; 2; 3]%Z.
Proof.
  eexists. split; [reflexivity|].
  apply (@X24_checkpoints_of_train unit R
           (fun _ b => Some b) (fun m _ => m) (fun _ b => Some b) 4 2
           (fun _ => [1%R; 2%R]) (fun _ => [3%R]) tt).
  - lia.
  - reflexivity.
Defined.
